(** * docu_learn: content analysis, quiz validation and quiz scoring

    A shallow embedding of the Python services under [backend/services]:
    [content_analyzer.py] (class [ContentAnalyzer]), [llm_generator.py]
    (class [LLMGenerator]), [learning_orchestrator.py] (class
    [LearningOrchestrator]) and [document_parser.py] (classes
    [PDFParser], [DocxParser] and [ParserFactory]), followed by the
    properties of the specification that concern them and by further
    properties of the services.

    Conventions.
    - A Python [str] is a [string]; its characters are the code points
      below 256 (Latin-1), which is where the string methods used here
      ([split], [strip], [lower], [count], [startswith]) are modelled.
    - A Python [int] is a [Z].  A Python [float] is an IEEE binary64
      [float] where the source rounds with [round(_, 2)] or multiplies by
      a decimal literal; the quiz score and the difficulty ratios, which
      are quotients of two lengths that are only compared with constants,
      are kept as exact rationals in [Q].
    - A Python exception is the [Raise] case of [result]. *)

From Stdlib Require Import ZArith QArith Floats String Ascii List Lia.
From Stdlib Require Import DecimalString Lqa.
From stdpp Require Import gmap strings list.
Import ListNotations.

Set Warnings "-register-all,-inexact-float".

Local Open Scope string_scope.
Local Open Scope list_scope.
Local Open Scope Z_scope.

(** ** Exceptions *)

Inductive exn : Type :=
| ZeroDivisionError
| AttributeError
| TypeError
| KeyError
| JSONDecodeError
| NLPError
| APIError.

Inductive result (A : Type) : Type :=
| Ok (a : A)
| Raise (e : exn).

Arguments Ok {A} a.
Arguments Raise {A} e.

#[global] Instance result_ret : MRet result := fun A a => Ok a.

#[global] Instance result_bind : MBind result := fun A B k r =>
  match r with
  | Ok a => k a
  | Raise e => Raise e
  end.

(** [try: body except Exception: handler] *)
Definition try_except {A : Type} (body : result A) (handler : exn -> A) : A :=
  match body with
  | Ok a => a
  | Raise e => handler e
  end.

(** ** Python string methods *)

Module Py.

Definition code (c : ascii) : nat := nat_of_ascii c.

(** [str.isspace] on one character: TAB..CR, FS..US, SPACE, NEL, NBSP. *)
Definition isspace (c : ascii) : bool :=
  let n := code c in
  ((9 <=? n) && (n <=? 13) || (28 <=? n) && (n <=? 32)
   || (n =? 133) || (n =? 160))%nat.

(** [str.lower] on one character: A..Z and the Latin-1 capitals. *)
Definition lower_char (c : ascii) : ascii :=
  let n := code c in
  if ((65 <=? n) && (n <=? 90)
      || (192 <=? n) && (n <=? 222) && negb (n =? 215))%nat
  then ascii_of_nat (n + 32) else c.

Fixpoint lower (s : string) : string :=
  match s with
  | EmptyString => EmptyString
  | String c s' => String (lower_char c) (lower s')
  end.

Definition is_ascii_lower (c : ascii) : bool :=
  ((97 <=? code c) && (code c <=? 122))%nat.
Definition is_ascii_upper (c : ascii) : bool :=
  ((65 <=? code c) && (code c <=? 90))%nat.

(** [str.title], for ASCII letters (it is applied to the topic names
    only): a letter that follows a letter is lowered, any other letter
    is raised. *)
Fixpoint title_from (prev_cased : bool) (s : string) : string :=
  match s with
  | EmptyString => EmptyString
  | String c s' =>
      if is_ascii_lower c then
        String (if prev_cased then c else ascii_of_nat (code c - 32))
               (title_from true s')
      else if is_ascii_upper c then
        String (if prev_cased then ascii_of_nat (code c + 32) else c)
               (title_from true s')
      else String c (title_from false s')
  end.

Definition title (s : string) : string := title_from false s.

Fixpoint lstrip (s : string) : string :=
  match s with
  | EmptyString => EmptyString
  | String c s' => if isspace c then lstrip s' else s
  end.

Fixpoint rstrip (s : string) : string :=
  match s with
  | EmptyString => EmptyString
  | String c s' =>
      match rstrip s' with
      | EmptyString => if isspace c then EmptyString else String c EmptyString
      | r => String c r
      end
  end.

(** [s.strip()] *)
Definition strip (s : string) : string := rstrip (lstrip s).

Definition push_word (w : string) (ws : list string) : list string :=
  match w with
  | EmptyString => ws
  | _ => w :: ws
  end.

(** The word that starts at the head of [s] (empty when [s] starts with
    white space) and the words after it. *)
Fixpoint split_go (s : string) : string * list string :=
  match s with
  | EmptyString => (EmptyString, [])
  | String c s' =>
      let '(w, ws) := split_go s' in
      if isspace c then (EmptyString, push_word w ws) else (String c w, ws)
  end.

(** [s.split()]: the maximal runs of characters that are not white space. *)
Definition split (s : string) : list string :=
  let '(w, ws) := split_go s in push_word w ws.

(** [s.startswith(p)] *)
Definition startswith (s p : string) : bool := String.prefix p s.

(** [s.startswith((p1, p2, ...))] *)
Definition startswith_any (s : string) (ps : list string) : bool :=
  existsb (startswith s) ps.

(** Scanning for [sub] from left to right; after a match the scan
    resumes behind it, so [skip] characters are passed over. *)
Fixpoint count_from (sub : string) (skip : nat) (s : string) : nat :=
  match s with
  | EmptyString => 0
  | String _ s' =>
      match skip with
      | S k => count_from sub k s'
      | O =>
          if String.prefix sub s
          then S (count_from sub (String.length sub - 1) s')
          else count_from sub 0 s'
      end
  end.

(** [s.count(sub)]: the number of non-overlapping occurrences. *)
Definition count (s sub : string) : Z :=
  match sub with
  | EmptyString => Z.of_nat (S (String.length s))
  | _ => Z.of_nat (count_from sub 0 s)
  end.

(** [s[:n]] *)
Definition slice_to (n : nat) (s : string) : string := substring 0 n s.

(** [sep.join(items)] *)
Definition join (sep : string) (items : list string) : string :=
  String.concat sep items.

(** [len(s)] *)
Definition len (s : string) : Z := Z.of_nat (String.length s).

(** [str(n)] for a length. *)
Definition str_of_nat (n : nat) : string :=
  NilEmpty.string_of_uint (Nat.to_uint n).

(** [s.split(sep)] for a separator of one character: the pieces between
    the separators, empty pieces included. *)
Fixpoint split_on_go (sep : ascii) (s : string) : string * list string :=
  match s with
  | EmptyString => (EmptyString, [])
  | String c s' =>
      let '(piece, pieces) := split_on_go sep s' in
      if Ascii.eqb c sep then (EmptyString, piece :: pieces)
      else (String c piece, pieces)
  end.

Definition split_on (sep : ascii) (s : string) : list string :=
  let '(piece, pieces) := split_on_go sep s in piece :: pieces.

(** The cased characters below 256: the capitals, and the small letters
    with the ordinal indicators, the micro sign and the sharp s. *)
Definition is_upper_char (c : ascii) : bool :=
  let n := code c in
  ((65 <=? n) && (n <=? 90)
   || (192 <=? n) && (n <=? 222) && negb (n =? 215))%nat.

Definition is_lower_char (c : ascii) : bool :=
  let n := code c in
  ((97 <=? n) && (n <=? 122)
   || (n =? 170) || (n =? 181) || (n =? 186)
   || (223 <=? n) && (n <=? 255) && negb (n =? 247))%nat.

Fixpoint has_char (p : ascii -> bool) (s : string) : bool :=
  match s with
  | EmptyString => false
  | String c s' => p c || has_char p s'
  end.

(** [s.isupper()]: some cased character, and no small letter. *)
Definition isupper (s : string) : bool :=
  negb (has_char is_lower_char s) && has_char is_upper_char s.

(** The truth value of a string: it is not empty. *)
Definition truthy (s : string) : bool :=
  match s with
  | EmptyString => false
  | String _ _ => true
  end.

End Py.

(** ** The regular expression [[.!?]+] *)

Module Re.

Definition is_sentence_end (c : ascii) : bool :=
  (Ascii.eqb c "." || Ascii.eqb c "!" || Ascii.eqb c "?")%char.

Definition starts_with_end (s : string) : bool :=
  match s with
  | String c _ => is_sentence_end c
  | EmptyString => false
  end.

(** The fragment at the head of [s] and the fragments after it: a
    maximal run of [.], [!] and [?] is one separator. *)
Fixpoint split_go (s : string) : string * list string :=
  match s with
  | EmptyString => (EmptyString, [])
  | String c s' =>
      if is_sentence_end c then
        if starts_with_end s' then split_go s'
        else let '(f, fs) := split_go s' in (EmptyString, f :: fs)
      else let '(f, fs) := split_go s' in (String c f, fs)
  end.

(** [re.split(r'[.!?]+', s)] *)
Definition split (s : string) : list string :=
  let '(f, fs) := split_go s in f :: fs.

End Re.

(** ** Python numbers *)

Module Num.

(** The value of [float(z)]; exact for [|z| < 2^53], which covers every
    length and constant converted below. *)
Definition float_of_int (z : Z) : float :=
  if 0 <=? z then PrimFloat.of_uint63 (Uint63.of_Z z)
  else (- PrimFloat.of_uint63 (Uint63.of_Z (- z)))%float.

(** The integer nearest to [n / d] for [0 < d], ties to the even one. *)
Definition round_half_even (n d : Z) : Z :=
  let q := n / d in
  match 2 * (n mod d) ?= d with
  | Lt => q
  | Gt => q + 1
  | Eq => if Z.even q then q else q + 1
  end.

(** [round(x, 2)] on a float: the exact binary value [m * 2^e] is
    rounded to the nearest multiple of 1/100, half-way cases to the
    even multiple, and the decimal [k / 100] is converted back to the
    nearest double ([k] is converted exactly as long as
    [100 * |x| < 2^53]).  Zeros, infinities and NaN round to themselves,
    and so does a float without fractional bits. *)
Definition round2 (x : float) : float :=
  match Prim2SF x with
  | S754_finite s m e =>
      if 0 <=? e then x
      else
        let k := round_half_even (Z.pos m * 100) (2 ^ (- e)) in
        let r := (float_of_int k / 100)%float in
        if s then (- r)%float else r
  | _ => x
  end.

(** A Python number as the arithmetic of [_calculate_readability] sees
    it: an [int] or a [float]. *)
Inductive num : Type :=
| Int (z : Z)
| Float (f : float).

Definition to_float (a : num) : float :=
  match a with
  | Int z => float_of_int z
  | Float f => f
  end.

Definition is_zero (a : num) : bool :=
  match a with
  | Int z => z =? 0
  | Float f => (f =? 0)%float
  end.

(** [a / b] *)
Definition truediv (a b : num) : result num :=
  if is_zero b then Raise ZeroDivisionError
  else Ok (Float (to_float a / to_float b)%float).

(** [a - b] *)
Definition sub (a b : num) : num :=
  match a, b with
  | Int x, Int y => Int (x - y)
  | _, _ => Float (to_float a - to_float b)%float
  end.

(** [a < b] *)
Definition lt (a b : num) : bool :=
  match a, b with
  | Int x, Int y => x <? y
  | _, _ => (to_float a <? to_float b)%float
  end.

(** [min(a, b)]: the first argument unless the second is smaller. *)
Definition min2 (a b : num) : num := if lt b a then b else a.

(** [max(a, b)]: the first argument unless the second is greater. *)
Definition max2 (a b : num) : num := if lt a b then b else a.

(** [round(a, 2)]: an [int] is returned as it is. *)
Definition round_2 (a : num) : num :=
  match a with
  | Int z => Int z
  | Float f => Float (round2 f)
  end.

(** [0 <= a <= 1] *)
Definition in_unit_interval (a : num) : bool :=
  match a with
  | Int z => (0 <=? z) && (z <=? 1)
  | Float f => ((0 <=? f) && (f <=? 1))%float
  end.

(** The quotient of two lengths as an exact rational. *)
Definition ratio (a b : Z) : result Q :=
  if b =? 0 then Raise ZeroDivisionError
  else Ok (inject_Z a / inject_Z b)%Q.

(** [a > b] and [a >= b] on rationals. *)
Definition Qgtb (a b : Q) : bool := negb (Qle_bool a b).
Definition Qgeb (a b : Q) : bool := Qle_bool b a.

(** [int(x)] on a float: the value truncated towards zero; [None] stands
    for the [ValueError] raised on NaN and the [OverflowError] raised on
    an infinity. *)
Definition int_of_float (x : float) : option Z :=
  match Prim2SF x with
  | S754_zero _ => Some 0
  | S754_finite s m e =>
      let magnitude := if 0 <=? e then Z.pos m * 2 ^ e else Z.pos m / 2 ^ (- e) in
      Some (if s then - magnitude else magnitude)
  | _ => None
  end.

(** [a + b] *)
Definition add (a b : num) : num :=
  match a, b with
  | Int x, Int y => Int (x + y)
  | _, _ => Float (to_float a + to_float b)%float
  end.

(** [a * b] *)
Definition mul (a b : num) : num :=
  match a, b with
  | Int x, Int y => Int (x * y)
  | _, _ => Float (to_float a * to_float b)%float
  end.

(** [int(a)] *)
Definition to_int (a : num) : option Z :=
  match a with
  | Int z => Some z
  | Float f => int_of_float f
  end.

End Num.

(** ** content_analyzer.py *)

Module ContentAnalyzer.

(** What the NLP collaborator ([spacy]) returns for a text: the tokens
    with their flags, the sentences, the named entities (text and
    label) and the noun chunks. *)
Record Token : Type := {
  tok_text : string;
  is_punct : bool;
  is_alpha : bool
}.

Record Doc : Type := {
  tokens : list Token;
  sents : list string;
  ents : list (string * string);
  noun_chunks : list string
}.

Record Concept : Type := {
  concept : string;
  frequency : Z;
  importance : float
}.

Record SectionSummary : Type := {
  title : string;
  word_count : Z;
  key_points : list string;
  quiz_potential : Z
}.

Record Analysis : Type := {
  key_concepts : list Concept;
  difficulty_level : string;
  topics : list string;
  section_analysis : list SectionSummary;
  readability_score : Num.num;
  suggested_quiz_count : Z
}.

(** [parsed_document]: ['text'] is read with a subscript, ['sections']
    with [.get('sections', [])]; a section is a [dict] of strings. *)
Record ParsedDocument : Type := {
  text : string;
  sections : option (list (gmap string string))
}.

Definition len_list {A : Type} (l : list A) : Z := Z.of_nat (length l).

(** *** [collections.Counter] *)

(** [Counter(items)] in first-insertion order. *)
Fixpoint counter_add (k : string) (c : list (string * Z)) : list (string * Z) :=
  match c with
  | [] => [(k, 1)]
  | (k', n) :: c' =>
      if String.eqb k k' then (k', n + 1) :: c' else (k', n) :: counter_add k c'
  end.

Definition Counter (items : list string) : list (string * Z) :=
  fold_left (fun c k => counter_add k c) items [].

(** Insertion before the first entry that is not more frequent, so that
    entries of equal count keep their insertion order. *)
Fixpoint insert_by_count (x : string * Z) (l : list (string * Z)) : list (string * Z) :=
  match l with
  | [] => [x]
  | y :: l' => if snd y <=? snd x then x :: l else y :: insert_by_count x l'
  end.

(** [counter.most_common(n)] *)
Definition most_common (n : nat) (c : list (string * Z)) : list (string * Z) :=
  firstn n (fold_right insert_by_count [] c).

Section WithNLP.

(** [self.nlp]: the loaded model, which may fail on a text. *)
Variable nlp : string -> result Doc.

Definition _extract_key_concepts (text : string) : result (list Concept) :=
  doc ← nlp text;
  let entities := ents doc in
  let noun_phrases :=
    filter (fun chunk => len_list (Py.split chunk) <=? 3) (noun_chunks doc) in
  let concept_counts := Counter noun_phrases in
  Ok (fold_left
        (fun key_concepts '(concept, count) =>
           if (1 <? count) && (3 <? Py.len concept) then
             key_concepts ++
             [ {| concept := concept;
                  frequency := count;
                  importance :=
                    (let p := Num.float_of_int count * 0.1 in
                     if 1 <? p then 1 else p)%float |} ]
           else key_concepts)
        (most_common 20 concept_counts) []).

Definition _assess_difficulty (text : string) : result string :=
  doc ← nlp text;
  avg_sentence_length ←
    Num.ratio (len_list (filter (fun token => negb (is_punct token)) (tokens doc)))
              (len_list (sents doc));
  let complex_words :=
    len_list (filter (fun token => (6 <? Py.len (tok_text token)) && is_alpha token)
                     (tokens doc)) in
  let total_words := len_list (filter is_alpha (tokens doc)) in
  complexity_ratio ←
    (if 0 <? total_words then Num.ratio complex_words total_words else Ok 0%Q);
  if Num.Qgtb avg_sentence_length 20 || Num.Qgtb complexity_ratio (3 # 10) then
    Ok "Advanced"
  else if Num.Qgtb avg_sentence_length 15 || Num.Qgtb complexity_ratio (2 # 10) then
    Ok "Intermediate"
  else Ok "Basic".

(** The topic dictionary, in declaration order. *)
Definition topic_keywords : list (string * list string) :=
  [ ("biology", ["cell"; "organism"; "evolution"; "genetics"; "ecosystem"]);
    ("chemistry", ["molecule"; "atom"; "reaction"; "compound"; "element"]);
    ("physics", ["energy"; "force"; "motion"; "wave"; "particle"]);
    ("mathematics", ["equation"; "theorem"; "proof"; "function"; "variable"]);
    ("history", ["century"; "war"; "empire"; "revolution"; "civilization"]);
    ("literature", ["author"; "novel"; "poem"; "character"; "theme"]) ].

(** [sum(text_lower.count(keyword) for keyword in keywords)] *)
Definition keyword_hits (text_lower : string) (keywords : list string) : Z :=
  fold_left (fun total keyword => total + Py.count text_lower keyword) keywords 0.

(** The loop of [_identify_topics] over the dictionary. *)
Definition scan_topics (text_lower : string)
    (dictionary : list (string * list string)) : list string :=
  fold_left
    (fun topics '(topic, keywords) =>
       if 3 <? keyword_hits text_lower keywords
       then topics ++ [Py.title topic] else topics)
    dictionary [].

Definition _identify_topics (text : string) : result (list string) :=
  doc ← nlp text;
  let text_lower := Py.lower text in
  Ok (scan_topics text_lower topic_keywords).

Definition banned_openers : list string := ["however"; "therefore"; "moreover"].

Definition _extract_key_points (text : string) : list string :=
  let sentences := Re.split text in
  let key_sentences :=
    fold_left
      (fun key_sentences sentence =>
         let sentence := Py.strip sentence in
         if (20 <? Py.len sentence) && (Py.len sentence <? 200)
            && negb (Py.startswith_any (Py.lower sentence) banned_openers)
         then key_sentences ++ [sentence] else key_sentences)
      (firstn 10 sentences) [] in
  firstn 5 key_sentences.

Definition _analyze_sections (sections : list (gmap string string))
    : list SectionSummary :=
  fold_left
    (fun analyzed_sections section =>
       let content := default "" (section !! "content") in
       if Py.len (Py.strip content) <? 50 then analyzed_sections
       else
         analyzed_sections ++
         [ {| title := default "Untitled" (section !! "title");
              word_count := len_list (Py.split content);
              key_points := _extract_key_points content;
              quiz_potential := len_list (Py.split content) / 50 |} ])
    sections [].

Definition _calculate_readability (text : string) : result Num.num :=
  match text with
  | EmptyString => Ok (Num.Float 0)
  | _ =>
      let sentences := len_list (Re.split text) in
      let words := len_list (Py.split text) in
      avg_sentence_length ←
        (if 0 <? sentences then Num.truediv (Num.Int words) (Num.Int sentences)
         else Ok (Num.Int words));
      q ← Num.truediv (Num.sub avg_sentence_length (Num.Int 10)) (Num.Int 20);
      let readability :=
        Num.max2 (Num.Int 0) (Num.min2 (Num.Int 1) (Num.sub (Num.Int 1) q)) in
      Ok (Num.round_2 readability)
  end.

Definition _suggest_quiz_count (text : string) : Z :=
  let word_count := len_list (Py.split text) in
  if word_count <? 500 then 3
  else if word_count <? 1500 then 5
  else if word_count <? 3000 then 8
  else 10.

Definition analyze (parsed_document : ParsedDocument) : result Analysis :=
  let text := text parsed_document in
  let sections := default [] (sections parsed_document) in
  key_concepts ← _extract_key_concepts text;
  difficulty_level ← _assess_difficulty text;
  topics ← _identify_topics text;
  let section_analysis := _analyze_sections sections in
  readability_score ← _calculate_readability text;
  Ok {| key_concepts := key_concepts;
        difficulty_level := difficulty_level;
        topics := topics;
        section_analysis := section_analysis;
        readability_score := readability_score;
        suggested_quiz_count := _suggest_quiz_count text |}.

End WithNLP.

End ContentAnalyzer.

(** ** llm_generator.py *)

Module LLMGenerator.

(** A value produced by [json.loads], or stored in a quiz record. *)
Inductive pyval : Type :=
| PyNone
| PyBool (b : bool)
| PyInt (z : Z)
| PyFloat (f : float)
| PyStr (s : string)
| PyList (items : list pyval)
| PyDict (fields : gmap string pyval).

(** [isinstance(v, str)], [isinstance(v, list)] and [isinstance(v, int)];
    [bool] is a subclass of [int]. *)
Definition isinstance_str (v : pyval) : bool :=
  match v with PyStr _ => true | _ => false end.

Definition isinstance_list (v : pyval) : bool :=
  match v with PyList _ => true | _ => false end.

Definition isinstance_int (v : pyval) : bool :=
  match v with PyInt _ | PyBool _ => true | _ => false end.

(** [len(v)] *)
Definition py_len (v : pyval) : result Z :=
  match v with
  | PyList items => Ok (Z.of_nat (length items))
  | PyStr s => Ok (Py.len s)
  | PyDict fields => Ok (Z.of_nat (size fields))
  | _ => Raise TypeError
  end.

(** [lo <= v < hi] for integer constants [lo] and [hi]. *)
Definition between (lo : Z) (v : pyval) (hi : Z) : result bool :=
  match v with
  | PyInt z => Ok ((lo <=? z) && (z <? hi))
  | PyBool b => Ok ((lo <=? Z.b2z b) && (Z.b2z b <? hi))
  | PyFloat f =>
      Ok ((Num.float_of_int lo <=? f) && (f <? Num.float_of_int hi))%float
  | _ => Raise TypeError
  end.

Fixpoint chars (s : string) : list pyval :=
  match s with
  | EmptyString => []
  | String c s' => PyStr (String c EmptyString) :: chars s'
  end.

(** What [for q in v] iterates over: the items of a list, the keys of a
    dict, the characters of a string. *)
Definition py_iter (v : pyval) : result (list pyval) :=
  match v with
  | PyList items => Ok items
  | PyDict fields => Ok (PyStr <$> (map_to_list fields).*1)
  | PyStr s => Ok (chars s)
  | _ => Raise TypeError
  end.

(** The bound method [q.get]: only a dict has one. *)
Definition get_method (q : pyval) : result (gmap string pyval) :=
  match q with
  | PyDict fields => Ok fields
  | _ => Raise AttributeError
  end.

(** [d[key]] *)
Definition subscript (d : gmap string pyval) (key : string) : result pyval :=
  match d !! key with
  | Some v => Ok v
  | None => Raise KeyError
  end.

(** [a and b], where [b] is evaluated only if [a] holds. *)
Definition and_then (a : result bool) (b : result bool) : result bool :=
  x ← a; if x : bool then b else Ok false.

(** The condition of the [if] in [_validate_quiz]. *)
Definition well_formed (q : pyval) : result bool :=
  and_then (d ← get_method q; Ok (isinstance_str (default PyNone (d !! "question"))))
 (and_then (d ← get_method q; Ok (isinstance_list (default PyNone (d !! "options"))))
 (and_then (d ← get_method q; n ← py_len (default (PyList []) (d !! "options")); Ok (n =? 4))
 (and_then (d ← get_method q; Ok (isinstance_int (default PyNone (d !! "correct_answer"))))
           (d ← get_method q; between 0 (default (PyInt (-1)) (d !! "correct_answer")) 4)))).

(** The dict appended for a record that passes. *)
Definition cleaned (q : pyval) : result (gmap string pyval) :=
  d ← get_method q;
  question ← subscript d "question";
  options ← subscript d "options";
  correct_answer ← subscript d "correct_answer";
  Ok ({[ "question" := question;
         "options" := options;
         "correct_answer" := correct_answer;
         "explanation" := default (PyStr "") (d !! "explanation");
         "difficulty" := default (PyStr "Intermediate") (d !! "difficulty");
         "concept" := default (PyStr "General") (d !! "concept") ]}
      : gmap string pyval).

Fixpoint validate_loop (items : list pyval) (validated_quiz : list (gmap string pyval))
    : result (list (gmap string pyval)) :=
  match items with
  | [] => Ok validated_quiz
  | q :: rest =>
      ok ← well_formed q;
      if ok : bool then
        item ← cleaned q;
        validate_loop rest (validated_quiz ++ [item])
      else validate_loop rest validated_quiz
  end.

Definition _validate_quiz (quiz_data : pyval) : result (list (gmap string pyval)) :=
  items ← py_iter quiz_data;
  validate_loop items [].

Definition _generate_fallback_quiz (content : string) : list (gmap string pyval) :=
  [ {[ "question" := PyStr "What is the main topic of this document?";
       "options" := PyList [PyStr "Topic A"; PyStr "Topic B";
                            PyStr "Topic C"; PyStr "Topic D"];
       "correct_answer" := PyInt 0;
       "explanation" := PyStr "Fallback question generated due to processing error.";
       "difficulty" := PyStr "Basic";
       "concept" := PyStr "General" ]} ].

Definition _generate_fallback_summary (content : string) : gmap string pyval :=
  let words := Py.split content in
  {[ "overview" :=
       PyStr ("This document contains approximately "
              ++ Py.str_of_nat (length words)
              ++ " words of educational content.")%string;
     "main_points" := PyList [PyStr "Content processing in progress"];
     "key_takeaways" := PyList [PyStr "Please try again later"];
     "complexity_level" := PyStr "Unknown" ]}.

Definition _generate_fallback_mindmap (key_concepts : list ContentAnalyzer.Concept)
    : gmap string pyval :=
  {[ "central_topic" := PyStr "Document Content";
     "branches" :=
       PyList
         (map (fun c =>
                 PyDict {[ "name" := PyStr (ContentAnalyzer.concept c);
                           "children" := PyList [PyDict {[ "name" := PyStr "Details" ]}] ]})
              (firstn 3 key_concepts)) ]}.

(** The request sent to the model: the fixed template of each
    generator, with the values interpolated into it. *)
Inductive prompt : Type :=
| QuizPrompt (num_questions : Z) (difficulty concepts_text content : string)
| SummaryPrompt (concepts topics : list string) (content : string)
| MindmapPrompt (concepts section_titles : list string) (content : string).

Definition quiz_prompt (content : string) (analysis : ContentAnalyzer.Analysis)
    : prompt :=
  let num_questions := ContentAnalyzer.suggested_quiz_count analysis in
  let difficulty := ContentAnalyzer.difficulty_level analysis in
  let key_concepts := ContentAnalyzer.key_concepts analysis in
  let concepts_text :=
    Py.join ", " (map ContentAnalyzer.concept (firstn 5 key_concepts)) in
  QuizPrompt num_questions difficulty concepts_text (Py.slice_to 2000 content).

Definition summary_prompt (content : string) (analysis : ContentAnalyzer.Analysis)
    : prompt :=
  let key_concepts := ContentAnalyzer.key_concepts analysis in
  let topics := ContentAnalyzer.topics analysis in
  SummaryPrompt (map ContentAnalyzer.concept (firstn 3 key_concepts)) topics
                (Py.slice_to 3000 content).

Definition mindmap_prompt (content : string) (analysis : ContentAnalyzer.Analysis)
    : prompt :=
  let key_concepts := ContentAnalyzer.key_concepts analysis in
  let sections := ContentAnalyzer.section_analysis analysis in
  MindmapPrompt (map ContentAnalyzer.concept (firstn 8 key_concepts))
                (map ContentAnalyzer.title (firstn 5 sections))
                (Py.slice_to 2000 content).

Section WithClient.

(** [self.client.chat.completions.create(...)] followed by
    [response.choices[0].message.content]: the text of the reply, or
    an exception. *)
Variable chat : prompt -> result string.

(** [json.loads] *)
Variable json_loads : string -> result pyval.

Definition generate_quiz (content : string) (analysis : ContentAnalyzer.Analysis)
    : list (gmap string pyval) :=
  let prompt := quiz_prompt content analysis in
  try_except
    (response ← chat prompt;
     quiz_data ← json_loads response;
     _validate_quiz quiz_data)
    (fun e => _generate_fallback_quiz content).

Definition generate_summary (content : string) (analysis : ContentAnalyzer.Analysis)
    : pyval :=
  let prompt := summary_prompt content analysis in
  try_except
    (response ← chat prompt;
     json_loads response)
    (fun e => PyDict (_generate_fallback_summary content)).

Definition generate_mindmap_data (content : string)
    (analysis : ContentAnalyzer.Analysis) : pyval :=
  let key_concepts := ContentAnalyzer.key_concepts analysis in
  let prompt := mindmap_prompt content analysis in
  try_except
    (response ← chat prompt;
     json_loads response)
    (fun e => PyDict (_generate_fallback_mindmap key_concepts)).

End WithClient.

End LLMGenerator.

(** ** learning_orchestrator.py *)

Module LearningOrchestrator.

(** A stored quiz question, as [process_quiz_attempt] reads it:
    [question['correct_answer']] and [question.get('explanation', '')]. *)
Record Question : Type := {
  correct_answer : Z;
  explanation : option string
}.

(** One entry of [results]. *)
Record QuestionResult : Type := {
  question_id : Z;
  user_answer : Z;
  expected_answer : Z;
  is_correct : bool;
  shown_explanation : string
}.

Record NextAction : Type := {
  action : string;
  message : string
}.

Record AttemptReport : Type := {
  score : Q;
  correct_answers : Z;
  total_questions : Z;
  results : list QuestionResult;
  next_review : Z;
  next_action : NextAction;
  improvement_suggestions : list string
}.

(** The updates sent to the spaced-repetition and progress
    collaborators, in the order they are made. *)
Inductive update : Type :=
| UpdateSchedule (user_id quiz_id : string) (score : Q)
| RecordAttempt (user_id quiz_id : string) (score : Q) (results : list QuestionResult).

(** [enumerate(items)] counting from [i]. *)
Fixpoint enumerate_from {A : Type} (i : Z) (items : list A) : list (Z * A) :=
  match items with
  | [] => []
  | x :: rest => (i, x) :: enumerate_from (i + 1) rest
  end.

(** The grading loop over [enumerate(zip(quiz_questions, answers))]:
    the running [correct_answers] and [results]. *)
Definition grade (quiz_questions : list Question) (answers : list Z)
    : Z * list QuestionResult :=
  fold_left
    (fun '(correct_answers, results) '(i, (question, user_answer)) =>
       let is_correct := correct_answer question =? user_answer in
       let correct_answers :=
         if is_correct then correct_answers + 1 else correct_answers in
       (correct_answers,
        results ++
        [ {| question_id := i;
             user_answer := user_answer;
             expected_answer := correct_answer question;
             is_correct := is_correct;
             shown_explanation := default "" (explanation question) |} ]))
    (enumerate_from 0 (combine quiz_questions answers))
    (0, []).

Definition _determine_next_action (score : Q) (results : list QuestionResult)
    : NextAction :=
  if Num.Qgeb score 90 then
    {| action := "advance";
       message := "Excellent! Ready for new material." |}
  else if Num.Qgeb score 70 then
    {| action := "review_weak";
       message := "Good job! Review weak areas before advancing." |}
  else
    {| action := "repeat";
       message := "Practice more with this material before advancing." |}.

Definition _generate_improvement_suggestions (results : list QuestionResult)
    : list string :=
  let incorrect_concepts :=
    fold_left
      (fun incorrect_concepts result =>
         if negb (is_correct result)
         then incorrect_concepts ++ ["concept_placeholder"]
         else incorrect_concepts)
      results [] in
  let suggestions := [] in
  let suggestions :=
    if Num.Qgtb (inject_Z (Z.of_nat (length incorrect_concepts)))
                (inject_Z (Z.of_nat (length results)) * (1 # 2))
    then suggestions ++
         ["Consider reviewing the fundamental concepts before retaking the quiz."]
    else suggestions in
  let suggestions :=
    if 0 <? Z.of_nat (length incorrect_concepts)
    then suggestions ++ ["Focus on understanding rather than memorization."]
    else suggestions in
  suggestions ++ ["Try creating your own examples for difficult concepts."].

Section WithCollaborators.

(** [self.db.get_quiz_questions] *)
Variable get_quiz_questions : string -> list Question.

(** [self.srs.get_next_review_time], after the updates made so far. *)
Variable get_next_review_time : list update -> string -> string -> Z.

Definition process_quiz_attempt (user_id quiz_id : string) (answers : list Z)
    (sent : list update) : result (AttemptReport * list update) :=
  let quiz_questions := get_quiz_questions quiz_id in
  let '(correct_answers, results) := grade quiz_questions answers in
  fraction ← Num.ratio correct_answers (Z.of_nat (length quiz_questions));
  let score := (fraction * 100)%Q in
  let sent := sent ++ [UpdateSchedule user_id quiz_id score] in
  let sent := sent ++ [RecordAttempt user_id quiz_id score results] in
  let next_action := _determine_next_action score results in
  Ok ({| score := score;
         correct_answers := correct_answers;
         total_questions := Z.of_nat (length quiz_questions);
         results := results;
         next_review := get_next_review_time sent user_id quiz_id;
         next_action := next_action;
         improvement_suggestions := _generate_improvement_suggestions results |},
      sent).

End WithCollaborators.

(** [difficulty_multiplier = {...}.get(difficulty, 1.0)] *)
Definition difficulty_multiplier (difficulty : string) : float :=
  if String.eqb difficulty "Basic" then 1.0%float
  else if String.eqb difficulty "Intermediate" then 1.3%float
  else if String.eqb difficulty "Advanced" then 1.6%float
  else 1.0%float.

(** [int(base_time * difficulty_multiplier + quiz_count * 2)], in
    minutes; the analysis is the one [analyze] returns, so both keys are
    present. *)
Definition _estimate_completion_time (analysis : ContentAnalyzer.Analysis) : option Z :=
  let base_time := Num.Int 10 in
  let difficulty := ContentAnalyzer.difficulty_level analysis in
  let quiz_count := ContentAnalyzer.suggested_quiz_count analysis in
  Num.to_int
    (Num.add (Num.mul base_time (Num.Float (difficulty_multiplier difficulty)))
             (Num.mul (Num.Int quiz_count) (Num.Int 2))).

(** One recommended session. *)
Record Recommendation : Type := {
  session_id : string;
  session_title : string;
  estimated_time : Z;
  priority : string
}.

Definition _get_recommended_sessions (user_id : string) (weak_areas : list string)
    : list Recommendation :=
  map (fun area =>
         {| session_id := "session_123";
            session_title := "Review: " ++ area;
            estimated_time := 15;
            priority := "high" |})
      (firstn 3 weak_areas).

(** The ['target'] of a milestone: a number of points, or the string
    ['Master Level']. *)
Inductive target : Type :=
| Points (milestone : Z)
| MasterLevel.

Record Milestone : Type := {
  milestone_target : target;
  current : Z;
  remaining : Z;
  progress_percentage : Q
}.

Definition milestones : list Z := [100; 250; 500; 1000; 2500; 5000].

(** The loop of [_get_next_milestone]: the first milestone above the
    points returns. *)
Fixpoint first_milestone (current_points : Z) (candidates : list Z) : Milestone :=
  match candidates with
  | [] =>
      {| milestone_target := MasterLevel;
         current := current_points;
         remaining := 0;
         progress_percentage := 100 |}
  | milestone :: rest =>
      if current_points <? milestone then
        {| milestone_target := Points milestone;
           current := current_points;
           remaining := milestone - current_points;
           progress_percentage :=
             (inject_Z current_points / inject_Z milestone * 100)%Q |}
      else first_milestone current_points rest
  end.

Definition _get_next_milestone (progress_data : gmap string Z) : Milestone :=
  let current_points := default 0 (progress_data !! "total_points") in
  first_milestone current_points milestones.

Record LearningPlan : Type := {
  due_reviews : list string;
  weak_areas : list string;
  recommended_sessions : list Recommendation;
  daily_goal_progress : Z;
  streak : Z;
  next_milestone : Milestone
}.

Section WithTrackers.

(** [self.progress.get_user_progress], [self.srs.get_due_items] and
    [self.progress.get_weak_areas] *)
Variable get_user_progress : string -> gmap string Z.
Variable get_due_items : string -> list string.
Variable get_weak_areas : string -> list string.

Definition get_learning_plan (user_id : string) : LearningPlan :=
  let progress_data := get_user_progress user_id in
  let due_reviews := get_due_items user_id in
  let weak_areas := get_weak_areas user_id in
  {| due_reviews := due_reviews;
     weak_areas := weak_areas;
     recommended_sessions := _get_recommended_sessions user_id weak_areas;
     daily_goal_progress := default 0 (progress_data !! "daily_progress");
     streak := default 0 (progress_data !! "streak");
     next_milestone := _get_next_milestone progress_data |}.

End WithTrackers.

End LearningOrchestrator.

(** ** document_parser.py *)

Module DocumentParser.

Import LLMGenerator.

Definition newline : ascii := ascii_of_nat 10.

(** What a parser returns. *)
Record Parsed : Type := {
  text : string;
  metadata : gmap string pyval;
  doc_type : string;
  sections : list (gmap string string)
}.

(** The part of the parsed document that [ContentAnalyzer.analyze]
    reads. *)
Definition to_analyzer (parsed : Parsed) : ContentAnalyzer.ParsedDocument :=
  {| ContentAnalyzer.text := text parsed;
     ContentAnalyzer.sections := Some (sections parsed) |}.

(** [{'title': title, 'content': content}] *)
Definition section_dict (title content : string) : gmap string string :=
  {[ "title" := title; "content" := content ]}.

Definition header_prefixes : list string := ["Chapter"; "Section"; "1."; "2."; "3."].

(** The header test of [_extract_sections] on a trimmed line. *)
Definition is_header (line : string) : bool :=
  (Py.len line <? 100)
  && (Py.isupper line || existsb (Py.startswith line) header_prefixes).

(** [sections.append(current_section)] when its content is not empty. *)
Definition flush (sections : list (gmap string string)) (current : string * string)
    : list (gmap string string) :=
  if Py.truthy (snd current) then sections ++ [section_dict (fst current) (snd current)]
  else sections.

(** One turn of the loop of [_extract_sections]: the sections appended so
    far and the title and content of [current_section]. *)
Definition section_step (state : list (gmap string string) * (string * string))
    (line : string) : list (gmap string string) * (string * string) :=
  let '(sections, current_section) := state in
  let line := Py.strip line in
  if negb (Py.truthy line) then state
  else if is_header line then (flush sections current_section, (line, ""))
  else (sections, (fst current_section, snd current_section ++ line ++ " ")%string).

Definition _extract_sections (text : string) : list (gmap string string) :=
  let lines := Py.split_on newline text in
  let '(sections, current_section) :=
    fold_left section_step lines ([], ("Introduction", "")) in
  flush sections current_section.

(** What [PyPDF2.PdfReader] gives: the text extracted from each page and
    the document information, if any. *)
Record PdfFile : Type := {
  pages : list string;
  info : option (gmap string string)
}.

(** [f"\n--- Page {page_num} ---\n{page_text}"] *)
Definition page_block (page_num : nat) (page_text : string) : string :=
  (String newline "--- Page " ++ Py.str_of_nat page_num
   ++ " ---" ++ String newline page_text)%string.

(** The loop over [enumerate(reader.pages, 1)]. *)
Fixpoint collect_pages (page_num : nat) (pages : list string) (text : string) : string :=
  match pages with
  | [] => text
  | page_text :: rest =>
      collect_pages (S page_num) rest
        (if Py.truthy (Py.strip page_text)
         then (text ++ page_block page_num page_text)%string else text)
  end.

(** The model of a paragraph of a DOCX file: the name of its style and
    its text. *)
Record Paragraph : Type := {
  style_name : string;
  paragraph_text : string
}.

(** [sections[-1]['content'] += addition] *)
Fixpoint extend_last (sections : list (string * string)) (addition : string)
    : list (string * string) :=
  match sections with
  | [] => []
  | [(title, content)] => [(title, (content ++ addition)%string)]
  | section :: rest => section :: extend_last rest addition
  end.

(** One turn of the loop of [DocxParser.parse]: the running text and the
    sections as pairs of title and content. *)
Definition paragraph_step (state : string * list (string * string))
    (paragraph : Paragraph) : string * list (string * string) :=
  let '(text, sections) := state in
  if Py.startswith (style_name paragraph) "Heading" then
    (text, sections ++ [(paragraph_text paragraph, "")])
  else
    ((text ++ paragraph_text paragraph ++ String newline "")%string,
     match sections with
     | [] => sections
     | _ => extend_last sections (paragraph_text paragraph ++ " ")%string
     end).

Section WithReaders.

(** Opening the file with [PyPDF2.PdfReader], and [docx.Document]; both
    may raise. *)
Variable read_pdf : string -> result PdfFile.
Variable read_docx : string -> result (list Paragraph).

(** [PDFParser.parse]: an exception is logged and raised again. *)
Definition pdf_parse (file_path : string) : result Parsed :=
  reader ← read_pdf file_path;
  let metadata : gmap string pyval :=
    {[ "pages" := PyInt (Z.of_nat (length (pages reader)));
       "title" := PyStr (match info reader with
                         | Some fields => default "Unknown" (fields !! "/Title")
                         | None => "Unknown"
                         end) ]} in
  let text := collect_pages 1 (pages reader) "" in
  Ok {| text := Py.strip text;
        metadata := metadata;
        doc_type := "pdf";
        sections := _extract_sections text |}.

(** [DocxParser.parse] *)
Definition docx_parse (file_path : string) : result Parsed :=
  paragraphs ← read_docx file_path;
  let '(text, sections) := fold_left paragraph_step paragraphs ("", []) in
  Ok {| text := Py.strip text;
        metadata := {[ "paragraphs" := PyInt (Z.of_nat (length paragraphs)) ]};
        doc_type := "docx";
        sections := map (fun section => section_dict (fst section) (snd section)) sections |}.

End WithReaders.

(** The parser classes and [ParserFactory.get_parser]; [ValueError]
    carries its message. *)
Inductive parser : Type :=
| PDFParser
| DocxParser.

Inductive lookup : Type :=
| Found (p : parser)
| ValueError (message : string).

Definition parsers : list (string * parser) := [("pdf", PDFParser); ("docx", DocxParser)].

Fixpoint dict_get (key : string) (entries : list (string * parser)) : option parser :=
  match entries with
  | [] => None
  | (k, v) :: rest => if String.eqb key k then Some v else dict_get key rest
  end.

Definition get_parser (file_type : string) : lookup :=
  match dict_get (Py.lower file_type) parsers with
  | Some parser_class => Found parser_class
  | None => ValueError ("Unsupported file type: " ++ file_type)
  end.

End DocumentParser.

(** ** The properties, in the words of the specification *)

Module Spec.

Import ContentAnalyzer LLMGenerator.


(** The number of positions of [s] at which [sub] occurs, overlapping
    occurrences included. *)
Fixpoint occurrences (sub s : string) : nat :=
  match s with
  | EmptyString => 0
  | String _ s' => ((if String.prefix sub s then 1 else 0) + occurrences sub s')%nat
  end.

(** The topic rule with every occurrence counted. *)
Definition occurrence_hits (text_lower : string) (keywords : list string) : Z :=
  fold_right Z.add 0 (map (fun keyword => Z.of_nat (occurrences keyword text_lower)) keywords).

(** The topic rule with [str.count]. *)
Definition count_hits (text_lower : string) (keywords : list string) : Z :=
  fold_right Z.add 0 (map (Py.count text_lower) keywords).

(** No suffix of [u], the empty one apart, is a prefix of [p]. *)
Fixpoint no_border_in (u p : string) : bool :=
  match u with
  | EmptyString => true
  | String _ u' => negb (String.prefix u p) && no_border_in u' p
  end.

(** No proper suffix of [p] is a prefix of [p]: two occurrences of [p]
    cannot overlap. *)
Definition unbordered (p : string) : bool :=
  match p with
  | EmptyString => false
  | String _ p' => no_border_in p' p
  end.

(** No occurrence of [p] starts at one of the first [k] positions of
    [s]. *)
Fixpoint clear_of (p : string) (k : nat) (s : string) : bool :=
  match k, s with
  | S k', String _ s' => negb (String.prefix p s) && clear_of p k' s'
  | _, _ => true
  end.

(** A dictionary entry whose keywords are counted more than 3 times. *)
Definition topic_hit (text_lower : string) (entry : string * list string) : bool :=
  3 <? count_hits text_lower (snd entry).

(** The keywords of the topic dictionary, one list. *)
Definition all_keywords : list string :=
  concat (map snd (topic_keywords)).


(** The same check with Python's [int], of which [bool] is a subclass:
    [True] and [False] count as 1 and 0. *)
Definition accepts (q : gmap string pyval) : Prop :=
  (exists s, q !! "question" = Some (PyStr s))
  /\ (exists items, q !! "options" = Some (PyList items) /\ length items = 4%nat)
  /\ ((exists z, q !! "correct_answer" = Some (PyInt z) /\ 0 <= z < 4)
      \/ (exists b, q !! "correct_answer" = Some (PyBool b))).

Definition acceptsb (q : gmap string pyval) : bool :=
  match q !! "question", q !! "options", q !! "correct_answer" with
  | Some (PyStr _), Some (PyList items), Some (PyInt z) =>
      (Z.of_nat (length items) =? 4) && (0 <=? z) && (z <? 4)
  | Some (PyStr _), Some (PyList items), Some (PyBool _) =>
      Z.of_nat (length items) =? 4
  | _, _, _ => false
  end.

(** The record kept for an accepted one: the three checked fields and
    the three optional ones with their defaults. *)
Definition kept_record (q : gmap string pyval) : gmap string pyval :=
  {[ "question" := default PyNone (q !! "question");
     "options" := default PyNone (q !! "options");
     "correct_answer" := default PyNone (q !! "correct_answer");
     "explanation" := default (PyStr "") (q !! "explanation");
     "difficulty" := default (PyStr "Intermediate") (q !! "difficulty");
     "concept" := default (PyStr "General") (q !! "concept") ]}.

(** The complexity levels of a Summary. *)
Definition complexity_levels : list string := ["Basic"; "Intermediate"; "Advanced"].

(** A Summary whose [complexity_level] is one of the three levels. *)
Definition summary_level_in_enum (summary : pyval) : Prop :=
  exists fields level,
    summary = PyDict fields
    /\ fields !! "complexity_level" = Some (PyStr level)
    /\ In level complexity_levels.

(** [clamp(x, 0, 1)] *)
Definition clamp01 (x : Num.num) : Num.num :=
  Num.max2 (Num.Int 0) (Num.min2 (Num.Int 1) x).


Section Failures.

Variable chat : prompt -> result string.
Variable json_loads : string -> result pyval.

(** The three ways the body of the [try] in [generate_quiz] fails:
    the request raises, the response does not parse, the parsed
    value makes the validation raise. *)
Definition quiz_generation_fails (content : string) (analysis : Analysis) : Prop :=
  (exists e, chat (quiz_prompt content analysis) = Raise e)
  \/ (exists response e,
         chat (quiz_prompt content analysis) = Ok response
         /\ json_loads response = Raise e)
  \/ (exists response quiz_data e,
         chat (quiz_prompt content analysis) = Ok response
         /\ json_loads response = Ok quiz_data
         /\ _validate_quiz quiz_data = Raise e).

(** The two ways the body of the [try] in [generate_summary] fails. *)
Definition summary_generation_fails (content : string) (analysis : Analysis) : Prop :=
  (exists e, chat (summary_prompt content analysis) = Raise e)
  \/ (exists response e,
         chat (summary_prompt content analysis) = Ok response
         /\ json_loads response = Raise e).

End Failures.


End Spec.

(** ** Concrete inputs *)

Module Inputs.

Import ContentAnalyzer LLMGenerator LearningOrchestrator.

(** A text of [n] one-letter words. *)
Fixpoint words_text (n : nat) : string :=
  match n with
  | O => EmptyString
  | S k => String "w" (String " " (words_text k))
  end.


(** A well-formed record, and one without options. *)
Definition good_record : gmap string pyval :=
  {[ "question" := PyStr "Which one?";
     "options" := PyList [PyStr "a"; PyStr "b"; PyStr "c"; PyStr "d"];
     "correct_answer" := PyInt 2;
     "concept" := PyStr "Cells" ]}.

Definition no_options_record : gmap string pyval :=
  {[ "question" := PyStr "Which one?"; "correct_answer" := PyInt 2 ]}.

Definition sample_analysis : Analysis :=
  {| key_concepts := [];
     difficulty_level := "Basic";
     topics := [];
     section_analysis := [];
     readability_score := Num.Float 0;
     suggested_quiz_count := 3 |}.





(** The document the NLP collaborator returns for the empty text: no
    token, no sentence, no entity, no noun chunk. *)
Definition empty_doc : Doc :=
  {| tokens := []; sents := []; ents := []; noun_chunks := [] |}.

(** An NLP collaborator that finds nothing. *)
Definition blank_nlp (text : string) : result Doc := Ok empty_doc.

(** The parsed document of a file without extractable text. *)
Definition empty_document : ParsedDocument := {| text := ""; sections := Some [] |}.

(** Four overlapping occurrences of "empire", and a text that names
    the cell four times. *)
Definition empires : string := "empirempirempirempire".

Definition cell_text : string :=
  "The Cell wall is rigid. A cell divides; each cell grows, and no CELL is alone.".



(** A document of one sentence of five tokens, and an NLP collaborator
    that returns it for every text. *)
Definition one_sentence_doc : Doc :=
  {| tokens :=
       [ {| tok_text := "Cells"; is_punct := false; is_alpha := true |};
         {| tok_text := "divide"; is_punct := false; is_alpha := true |};
         {| tok_text := "and"; is_punct := false; is_alpha := true |};
         {| tok_text := "multiply"; is_punct := false; is_alpha := true |};
         {| tok_text := "."; is_punct := true; is_alpha := false |} ];
     sents := ["Cells divide and multiply."];
     ents := [];
     noun_chunks := ["Cells"; "Cells"; "the cell wall"; "the cell wall"; "it"; "it"] |}.

Definition simple_nlp (text : string) : result Doc := Ok one_sentence_doc.

(** A parsed document with one long section and one short one. *)
Definition sample_document : ParsedDocument :=
  {| text := "Cells divide and multiply.";
     sections :=
       Some [ {[ "title" := "Overview";
                 "content" := "Cells are the basic units of every organism. They divide and multiply all the time." ]};
              {[ "content" := "Too short." ]} ] |}.


Definition chat_replies (p : prompt) : result string := Ok "[...]".


Definition loads_mixed (s : string) : result pyval :=
  Ok (PyList (map PyDict [good_record; no_options_record])).

Definition two_concepts : list Concept :=
  [ {| concept := "the cell wall"; frequency := 4; importance := 0.4 |};
    {| concept := "Cells"; frequency := 2; importance := 0.2 |} ].

(** A model client that is down, and a parser that rejects its input. *)
Definition chat_down (p : prompt) : result string := Raise APIError.
Definition loads_fails (s : string) : result pyval := Raise JSONDecodeError.

(** A document of one sentence of four long words, and an NLP
    collaborator that returns it for the text ["long"] and
    [one_sentence_doc] for any other. *)
Definition long_words_doc : Doc :=
  {| tokens :=
       [ {| tok_text := "Organisms"; is_punct := false; is_alpha := true |};
         {| tok_text := "multiply"; is_punct := false; is_alpha := true |};
         {| tok_text := "quickly"; is_punct := false; is_alpha := true |};
         {| tok_text := "everywhere"; is_punct := false; is_alpha := true |};
         {| tok_text := "."; is_punct := true; is_alpha := false |} ];
     sents := ["Organisms multiply quickly everywhere."];
     ents := [];
     noun_chunks := ["Organisms"] |}.

Definition nlp_by_text (text : string) : result Doc :=
  if String.eqb text "long" then Ok long_words_doc else Ok one_sentence_doc.

(** A PDF file of three pages, the first one blank, and a PDF file of
    blank pages only, with their readers. *)
Definition scanned_pdf : DocumentParser.PdfFile :=
  {| DocumentParser.pages :=
       [ "  ";
         ("Cells divide." ++ String DocumentParser.newline "CHAPTER ONE"
          ++ String DocumentParser.newline "Growth is slow.")%string;
         "The end." ];
     DocumentParser.info := None |}.

Definition read_scanned (file_path : string) : result DocumentParser.PdfFile :=
  Ok scanned_pdf.

Definition blank_pdf : DocumentParser.PdfFile :=
  {| DocumentParser.pages := [""; "  "]; DocumentParser.info := None |}.

Definition read_blank (file_path : string) : result DocumentParser.PdfFile :=
  Ok blank_pdf.

(** A DOCX file: a preface, a heading with two paragraphs, and a
    heading without content. *)
Definition preface : DocumentParser.Paragraph :=
  {| DocumentParser.style_name := "Normal";
     DocumentParser.paragraph_text := "Preface." |}.

Definition cells_heading : DocumentParser.Paragraph :=
  {| DocumentParser.style_name := "Heading 1";
     DocumentParser.paragraph_text := "Cells" |}.

Definition cells_body : list DocumentParser.Paragraph :=
  [ {| DocumentParser.style_name := "Normal";
       DocumentParser.paragraph_text := "Cells divide." |};
    {| DocumentParser.style_name := "List Paragraph";
       DocumentParser.paragraph_text := "They grow." |} ].

Definition growth_heading : DocumentParser.Paragraph :=
  {| DocumentParser.style_name := "Heading 2";
     DocumentParser.paragraph_text := "Growth" |}.

Definition report_docx : list DocumentParser.Paragraph :=
  [preface] ++ cells_heading :: cells_body ++ [growth_heading].

Definition read_report (file_path : string) : result (list DocumentParser.Paragraph) :=
  Ok report_docx.

(** An analysis with two key concepts. *)
Definition cells_analysis : Analysis :=
  {| key_concepts := two_concepts;
     difficulty_level := "Intermediate";
     topics := ["Biology"];
     section_analysis := [];
     readability_score := Num.Float 0.5;
     suggested_quiz_count := 5 |}.

End Inputs.

(** ** Shapes of the values returned *)

Module Shape.

Import ContentAnalyzer LLMGenerator.

(** A section that [_analyze_sections] keeps: its trimmed content has at
    least 50 characters (a missing content counts as empty). *)
Definition long_enough (section : gmap string string) : bool :=
  negb (Py.len (Py.strip (default "" (section !! "content"))) <? 50).

(** The summary of a kept section. *)
Definition summary_of (section : gmap string string) : SectionSummary :=
  let content := default "" (section !! "content") in
  {| title := default "Untitled" (section !! "title");
     word_count := len_list (Py.split content);
     key_points := _extract_key_points content;
     quiz_potential := len_list (Py.split content) / 50 |}.

(** Some character of [s] is not white space. *)
Definition has_ink (s : string) : bool :=
  Py.has_char (fun c => negb (Py.isspace c)) s.

(** The noun chunks of at most three words, as [_extract_key_concepts]
    counts them. *)
Definition noun_phrases (doc : Doc) : list string :=
  filter (fun chunk => len_list (Py.split chunk) <=? 3) (noun_chunks doc).

(** The count a counter holds for a key, 0 for an absent key. *)
Fixpoint counter_get (k : string) (c : list (string * Z)) : Z :=
  match c with
  | [] => 0
  | (k', n) :: c' => if String.eqb k k' then n else counter_get k c'
  end.

(** Every element is at most the elements before it. *)
Fixpoint descending (l : list Z) : Prop :=
  match l with
  | [] => True
  | x :: l' => (forall y, In y l' -> y <= x) /\ descending l'
  end.

(** A counted phrase that becomes a key concept, and the concept made
    of it. *)
Definition frequent (entry : string * Z) : bool :=
  (1 <? snd entry) && (3 <? Py.len (fst entry)).

Definition concept_of (entry : string * Z) : Concept :=
  {| concept := fst entry;
     frequency := snd entry;
     importance :=
       (let p := Num.float_of_int (snd entry) * 0.1 in
        if 1 <? p then 1 else p)%float |}.

(** The four counts [_assess_difficulty] takes from a document. *)
Definition word_tokens (doc : Doc) : Z :=
  len_list (filter (fun token => negb (is_punct token)) (tokens doc)).

Definition sentence_count (doc : Doc) : Z := len_list (sents doc).

Definition complex_words (doc : Doc) : Z :=
  len_list (filter (fun token => (6 <? Py.len (tok_text token)) && is_alpha token)
                   (tokens doc)).

Definition alpha_words (doc : Doc) : Z := len_list (filter is_alpha (tokens doc)).

(** The level in whole numbers: [n] tokens that are not punctuation in
    [s] sentences, [c] long words among [t] alphabetic ones. *)
Definition level_of (n s c t : Z) : string :=
  if (20 * s <? n) || (3 * t <? 10 * c) then "Advanced"
  else if (15 * s <? n) || (2 * t <? 10 * c) then "Intermediate"
  else "Basic".

Definition rank (level : string) : nat :=
  if String.eqb level "Advanced" then 2
  else if String.eqb level "Intermediate" then 1
  else 0.

(** A JSON object, and the objects of a list. *)
Definition is_record (v : pyval) : bool :=
  match v with PyDict _ => true | _ => false end.

Fixpoint records_of (items : list pyval) : list (gmap string pyval) :=
  match items with
  | [] => []
  | PyDict fields :: rest => fields :: records_of rest
  | _ :: rest => records_of rest
  end.

(** The keys of a quiz item. *)
Definition quiz_keys : list string :=
  ["question"; "options"; "correct_answer"; "explanation"; "difficulty"; "concept"].

(** The branch of the fallback mind map for a concept. *)
Definition branch_of (c : Concept) : pyval :=
  PyDict {[ "name" := PyStr (concept c);
            "children" := PyList [PyDict {[ "name" := PyStr "Details" ]}] ]}.

(** The two ways the body of the [try] in [generate_mindmap_data]
    fails. *)
Definition mindmap_generation_fails (chat : prompt -> result string)
    (json_loads : string -> result pyval) (content : string) (analysis : Analysis)
    : Prop :=
  (exists e, chat (mindmap_prompt content analysis) = Raise e)
  \/ (exists response e,
         chat (mindmap_prompt content analysis) = Ok response
         /\ json_loads response = Raise e).

(** The number of graded answers that are wrong. *)
Definition wrong_answers (results : list LearningOrchestrator.QuestionResult) : nat :=
  length (List.filter (fun result => negb (LearningOrchestrator.is_correct result)) results).

(** The three suggestions. *)
Definition review_basics : string :=
  "Consider reviewing the fundamental concepts before retaking the quiz.".
Definition focus_on_understanding : string :=
  "Focus on understanding rather than memorization.".
Definition own_examples : string :=
  "Try creating your own examples for difficult concepts.".

(** The minutes [_estimate_completion_time] starts from. *)
Definition base_minutes (difficulty : string) : Z :=
  if String.eqb difficulty "Intermediate" then 13
  else if String.eqb difficulty "Advanced" then 16
  else 10.

(** The lines of a text, trimmed, that are not blank: the lines
    [_extract_sections] does not skip. *)
Definition inked_lines (text : string) : list string :=
  List.filter Py.truthy (map Py.strip (Py.split_on DocumentParser.newline text)).

(** The lines that open a section, and the lines that go into the
    content of one. *)
Definition header_lines (text : string) : list string :=
  List.filter DocumentParser.is_header (inked_lines text).

Definition body_lines (text : string) : list string :=
  List.filter (fun line => negb (DocumentParser.is_header line)) (inked_lines text).

(** The lines of a content, each followed by a space. *)
Definition spaced (lines : list string) : string :=
  fold_right (fun line rest => (line ++ " " ++ rest)%string) "" lines.

Definition title_of (section : gmap string string) : string :=
  default "" (section !! "title").

Definition content_of (section : gmap string string) : string :=
  default "" (section !! "content").

(** The contents of the sections, one after the other. *)
Definition contents (sections : list (gmap string string)) : string :=
  fold_right (fun section rest => (content_of section ++ rest)%string) "" sections.

(** No line break in [s]. *)
Definition one_line (s : string) : bool :=
  negb (Py.has_char (fun c => Ascii.eqb c DocumentParser.newline) s).

(** The marker that [PDFParser.parse] writes before the text of page
    [page_num]. *)
Definition page_marker (page_num : nat) : string :=
  ("--- Page " ++ Py.str_of_nat page_num ++ " ---")%string.

(** A page whose extracted text is blank. *)
Definition blank_page (page_text : string) : bool :=
  negb (Py.truthy (Py.strip page_text)).

Definition is_heading (paragraph : DocumentParser.Paragraph) : bool :=
  Py.startswith (DocumentParser.style_name paragraph) "Heading".

(** The paragraphs from the first heading on. *)
Fixpoint from_first_heading (paragraphs : list DocumentParser.Paragraph)
    : list DocumentParser.Paragraph :=
  match paragraphs with
  | [] => []
  | paragraph :: rest =>
      if is_heading paragraph then paragraphs else from_first_heading rest
  end.

(** The spellings of [word] in small and capital ASCII letters. *)
Fixpoint spellings (word : string) : list string :=
  match word with
  | EmptyString => [EmptyString]
  | String c rest =>
      flat_map (fun tail =>
                  if Py.is_ascii_lower c
                  then [String c tail; String (ascii_of_nat (Py.code c - 32)) tail]
                  else [String c tail])
               (spellings rest)
  end.

(** A title that [_extract_sections] gives: the first title or a header
    line. *)
Definition section_title (title : string) : Prop :=
  Py.truthy title = true /\ one_line title = true
  /\ (title = "Introduction" \/ DocumentParser.is_header title = true).

(** A content that it gives: lines on one line, the last followed by a
    space. *)
Definition section_content (content : string) : Prop :=
  one_line content = true /\ exists body, content = (body ++ " ")%string.

Definition extracted (section : gmap string string) : Prop :=
  exists title content,
    section = DocumentParser.section_dict title content
    /\ section_title title /\ section_content content.

(** What holds of the sections and of [current_section] at every turn
    of the loop. *)
Definition extracting (state : list (gmap string string) * (string * string)) : Prop :=
  Forall extracted (fst state)
  /\ Forall (fun section => DocumentParser.is_header (title_of section) = true)
            (tail (fst state))
  /\ section_title (fst (snd state))
  /\ one_line (snd (snd state)) = true
  /\ (snd (snd state) = "" \/ exists body, snd (snd state) = (body ++ " ")%string)
  /\ (DocumentParser.is_header (fst (snd state)) = true \/ fst state = []).

(** The state of the loop of [_extract_sections] once a first line has
    gone into the introduction: the introduction is the current section
    or the first of the sections, and its content starts with
    [opening]. *)
Definition opened_with (opening : string)
    (state : list (gmap string string) * (string * string)) : Prop :=
  (fst state = [] /\ fst (snd state) = "Introduction"
   /\ exists more, snd (snd state) = (opening ++ more)%string)
  \/ (exists more others,
         fst state
         = DocumentParser.section_dict "Introduction" (opening ++ more)%string :: others).

(** The texts of paragraphs, each followed by a line break. *)
Definition lined (paragraphs : list DocumentParser.Paragraph) : string :=
  fold_right
    (fun paragraph rest =>
       (DocumentParser.paragraph_text paragraph ++ String DocumentParser.newline rest)%string)
    "" paragraphs.

(** The paragraphs that are no headings. *)
Definition body_paragraphs (paragraphs : list DocumentParser.Paragraph)
    : list DocumentParser.Paragraph :=
  List.filter (fun paragraph => negb (is_heading paragraph)) paragraphs.

End Shape.

(** * Proofs *)

(** ** Loops that append *)

Section Loops.

Context {A B : Type}.

(** A [for] loop that appends [f x] for the items that pass [keep] is a
    filter followed by a map. *)
Lemma fold_left_append (keep : A -> bool) (f : A -> B) (items : list A) (acc : list B) :
  fold_left (fun acc x => if keep x then acc ++ [f x] else acc) items acc
  = acc ++ map f (List.filter keep items).
Proof.
  revert acc. induction items as [|x items IH]; intros acc; simpl.
  - now rewrite app_nil_r.
  - rewrite IH. destruct (keep x); simpl; [|reflexivity].
    now rewrite <- app_assoc.
Qed.

Lemma In_firstn (n : nat) (l : list A) (x : A) : In x (firstn n l) -> In x l.
Proof.
  intros H. rewrite <- (firstn_skipn n l). apply in_or_app. now left.
Qed.

End Loops.

(** ** Suggested quiz count *)

Section QuizCount.

Import ContentAnalyzer Inputs.

(** C5. [_suggest_quiz_count] is the step function of the whitespace
    word count [w] with values 3, 5, 8, 10 and boundaries 500, 1500,
    3000; it is non-decreasing in [w]. *)
Theorem suggest_quiz_count_step :
  (forall text : string,
      let w := len_list (Py.split text) in
      (w < 500 -> _suggest_quiz_count text = 3)
      /\ (500 <= w < 1500 -> _suggest_quiz_count text = 5)
      /\ (1500 <= w < 3000 -> _suggest_quiz_count text = 8)
      /\ (3000 <= w -> _suggest_quiz_count text = 10))
  /\ (forall t1 t2 : string,
         len_list (Py.split t1) <= len_list (Py.split t2) ->
         _suggest_quiz_count t1 <= _suggest_quiz_count t2).
Proof.
  split.
  - intros text w. unfold _suggest_quiz_count. fold w.
    repeat split; intros H;
      repeat match goal with
             | |- context [?a <? ?b] => destruct (Z.ltb_spec a b); try lia
             end.
  - intros t1 t2 H. unfold _suggest_quiz_count.
    repeat match goal with
           | |- context [?a <? ?b] => destruct (Z.ltb_spec a b); try lia
           end.
Qed.

Lemma suggest_quiz_count_step_witness :
  _suggest_quiz_count (words_text 499) = 3
  /\ _suggest_quiz_count (words_text 500) = 5
  /\ _suggest_quiz_count (words_text 1500) = 8
  /\ _suggest_quiz_count (words_text 3000) = 10
  /\ _suggest_quiz_count (words_text 499) <= _suggest_quiz_count (words_text 3000).
Proof.
  destruct suggest_quiz_count_step as [Hstep Hmono].
  split; [apply (Hstep (words_text 499)); vm_compute; reflexivity|].
  split; [apply (Hstep (words_text 500)); vm_compute; split; congruence|].
  split; [apply (Hstep (words_text 1500)); vm_compute; split; congruence|].
  split; [apply (Hstep (words_text 3000)); vm_compute; congruence|].
  apply Hmono. vm_compute. congruence.
Defined.

End QuizCount.

(** ** Key points *)

Section KeyPoints.

Import ContentAnalyzer.





End KeyPoints.

(** ** Quiz validation *)

Section QuizValidation.

Import LLMGenerator.

Ltac run := unfold mbind, result_bind, and_then; simpl.

Lemma well_formed_dict (q : gmap string pyval) :
  well_formed (PyDict q) = Ok (Spec.acceptsb q).
Proof.
  unfold well_formed, Spec.acceptsb. run.
  destruct (q !! "question") as [[]|]; simpl; try reflexivity;
    destruct (q !! "options") as [[]|]; simpl; try reflexivity;
    destruct (Z.of_nat (length items) =? 4); simpl; try reflexivity;
    destruct (q !! "correct_answer") as [[]|]; simpl; try reflexivity.
  now destruct b.
Qed.

Lemma cleaned_dict (q : gmap string pyval) :
  Spec.acceptsb q = true -> cleaned (PyDict q) = Ok (Spec.kept_record q).
Proof.
  unfold cleaned, Spec.acceptsb, Spec.kept_record, subscript. run.
  destruct (q !! "question") as [[]|]; try discriminate;
    destruct (q !! "options") as [[]|]; try discriminate;
    destruct (q !! "correct_answer") as [[]|]; try discriminate;
    reflexivity.
Qed.

Lemma validate_loop_dicts (records : list (gmap string pyval)) (acc : list (gmap string pyval)) :
  validate_loop (map PyDict records) acc
  = Ok (acc ++ map Spec.kept_record (List.filter Spec.acceptsb records)).
Proof.
  revert acc. induction records as [|q records IH]; intros acc; simpl.
  - now rewrite app_nil_r.
  - rewrite well_formed_dict. run.
    destruct (Spec.acceptsb q) eqn:Hq.
    + rewrite (cleaned_dict q Hq). simpl. rewrite IH. simpl.
      now rewrite <- app_assoc.
    + apply IH.
Qed.

Lemma acceptsb_accepts (q : gmap string pyval) :
  Spec.acceptsb q = true <-> Spec.accepts q.
Proof.
  unfold Spec.acceptsb, Spec.accepts. split.
  - destruct (q !! "question") as [[]|]; try discriminate;
      destruct (q !! "options") as [[]|]; try discriminate;
      destruct (q !! "correct_answer") as [[]|]; try discriminate; intros H.
    + split; [eauto|]. split; [exists items; split; [reflexivity|lia]|].
      right. eauto.
    + apply andb_prop in H as [H Hhi]. apply andb_prop in H as [Hlen Hlo].
      split; [eauto|]. split; [exists items; split; [reflexivity|lia]|].
      left. exists z. split; [reflexivity|lia].
  - intros [[s Hs] [[items [Hitems Hlen]] Hca]]. rewrite Hs, Hitems.
    destruct Hca as [[z [Hz Hrange]]|[b Hb]].
    + rewrite Hz. apply andb_true_intro. split; [|lia].
      apply andb_true_intro. split; lia.
    + rewrite Hb. lia.
Qed.



(** An item that is not a record has no [get] method: the validation
    raises, and [generate_quiz] turns the exception into the fallback. *)
Lemma validate_quiz_non_record :
  _validate_quiz (PyList [PyDict Inputs.good_record; PyStr "Which one?"])
  = Raise AttributeError.
Proof. vm_compute. reflexivity. Qed.


End QuizValidation.

(** ** Generation and its fallbacks *)

Section Generation.

Import LLMGenerator.

Variable chat : prompt -> result string.
Variable json_loads : string -> result pyval.

(** C7. When the LLM collaborator raises, or its response does not
    parse (or does not validate), [generate_quiz] does not re-raise: it
    returns exactly one item, the static fallback, whose
    [correct_answer] is 0 and whose [difficulty] is ['Basic']. *)
Theorem generate_quiz_fallback (content : string) (analysis : ContentAnalyzer.Analysis) :
  Spec.quiz_generation_fails chat json_loads content analysis ->
  exists item,
    generate_quiz chat json_loads content analysis = [item]
    /\ [item] = _generate_fallback_quiz content
    /\ item !! "correct_answer" = Some (PyInt 0)
    /\ item !! "difficulty" = Some (PyStr "Basic").
Proof.
  intros Hfail. unfold generate_quiz, _generate_fallback_quiz.
  eexists. split; [|split; [reflexivity|split; by simplify_map_eq]].
  unfold try_except, mbind, result_bind.
  destruct Hfail as [[e He]|[(r & e & Hr & He)|(r & v & e & Hr & Hv & He)]].
  - now rewrite He.
  - now rewrite Hr, He.
  - now rewrite Hr, Hv, He.
Qed.

(** C9, as amended. The static fallback that [generate_summary] returns
    when the LLM collaborator raises, or its response does not parse,
    has the [complexity_level] ['Unknown'], which is none of Basic,
    Intermediate, Advanced; a response that parses is returned as
    parsed, whatever its [complexity_level]. *)
Theorem generate_summary_levels (content : string) (analysis : ContentAnalyzer.Analysis) :
  (Spec.summary_generation_fails chat json_loads content analysis ->
   generate_summary chat json_loads content analysis
   = PyDict (_generate_fallback_summary content)
   /\ _generate_fallback_summary content !! "complexity_level" = Some (PyStr "Unknown")
   /\ ~ In "Unknown" Spec.complexity_levels)
  /\ (forall response summary,
         chat (summary_prompt content analysis) = Ok response ->
         json_loads response = Ok summary ->
         generate_summary chat json_loads content analysis = summary).
Proof.
  unfold generate_summary, try_except, mbind, result_bind. split.
  - intros Hfail. split; [|split].
    + destruct Hfail as [[e He]|(r & e & Hr & He)].
      * now rewrite He.
      * now rewrite Hr, He.
    + unfold _generate_fallback_summary. by simplify_map_eq.
    + unfold Spec.complexity_levels. simpl. intros [H|[H|[H|[]]]]; discriminate H.
  - intros r v Hr Hv. now rewrite Hr, Hv.
Qed.

End Generation.

Section GenerationExamples.

Import LLMGenerator Inputs.

Lemma generate_quiz_fallback_witness :
  exists item,
    generate_quiz chat_down loads_fails "Cells divide." sample_analysis = [item]
    /\ [item] = _generate_fallback_quiz "Cells divide."
    /\ item !! "correct_answer" = Some (PyInt 0)
    /\ item !! "difficulty" = Some (PyStr "Basic").
Proof.
  apply (generate_quiz_fallback chat_down loads_fails).
  left. exists APIError. reflexivity.
Defined.

Lemma generate_summary_levels_witness :
  generate_summary chat_down loads_fails "Cells divide." sample_analysis
  = PyDict (_generate_fallback_summary "Cells divide.")
  /\ _generate_fallback_summary "Cells divide." !! "complexity_level"
     = Some (PyStr "Unknown")
  /\ ~ In "Unknown" Spec.complexity_levels.
Proof.
  apply (generate_summary_levels chat_down loads_fails).
  left. exists APIError. reflexivity.
Defined.

(** C9, the statement as specified fails: with the model client down,
    the Summary returned has a [complexity_level] outside the enum. *)
Lemma fallback_summary_level_not_in_enum :
  ~ Spec.summary_level_in_enum
      (generate_summary chat_down loads_fails "Cells divide." sample_analysis).
Proof.
  intros (fields & level & Hsum & Hlevel & Hin).
  change (PyDict (_generate_fallback_summary "Cells divide.") = PyDict fields) in Hsum.
  injection Hsum as <-.
  unfold _generate_fallback_summary in Hlevel. simplify_map_eq.
  unfold Spec.complexity_levels in Hin. simpl in Hin.
  destruct Hin as [H|[H|[H|[]]]]; discriminate H.
Qed.

End GenerationExamples.

(** ** Quiz attempts *)

Section Grading.

Import LearningOrchestrator.









End Grading.

Section QuizAttempt.

Import LearningOrchestrator.

Variable get_quiz_questions : string -> list Question.
Variable get_next_review_time : list update -> string -> string -> Z.


(** On a quiz without questions the quotient divides by zero. *)
Lemma process_quiz_attempt_empty_quiz (user_id quiz_id : string) (answers : list Z)
    (sent : list update) :
  get_quiz_questions quiz_id = [] ->
  process_quiz_attempt get_quiz_questions get_next_review_time
                       user_id quiz_id answers sent
  = Raise ZeroDivisionError.
Proof.
  intros Hempty. unfold process_quiz_attempt. rewrite Hempty. reflexivity.
Qed.



End QuizAttempt.

Section QuizAttemptExamples.

Import LearningOrchestrator Inputs.



End QuizAttemptExamples.

(** ** Difficulty assessment *)

Section Difficulty.

Import ContentAnalyzer.

Variable nlp : string -> result Doc.

Lemma extract_key_concepts_runs (text : string) (doc : Doc) :
  nlp text = Ok doc -> exists concepts, _extract_key_concepts nlp text = Ok concepts.
Proof.
  intros Hdoc. unfold _extract_key_concepts, mbind, result_bind. rewrite Hdoc.
  eexists. reflexivity.
Qed.

(** With no sentence in the document the quotient of
    [_assess_difficulty] divides by zero. *)
Lemma assess_difficulty_no_sentence (text : string) (doc : Doc) :
  nlp text = Ok doc -> sents doc = [] ->
  _assess_difficulty nlp text = Raise ZeroDivisionError.
Proof.
  intros Hdoc Hsents. unfold _assess_difficulty, mbind, result_bind.
  rewrite Hdoc, Hsents. reflexivity.
Qed.

(** With at least one sentence it returns one of the three levels; the
    guard on [total_words] keeps the second quotient defined. *)
Lemma assess_difficulty_some_sentence (text : string) (doc : Doc) :
  nlp text = Ok doc -> sents doc <> [] ->
  exists level,
    _assess_difficulty nlp text = Ok level
    /\ In level ["Basic"; "Intermediate"; "Advanced"].
Proof.
  intros Hdoc Hsents. unfold _assess_difficulty, mbind, result_bind, Num.ratio.
  rewrite Hdoc.
  destruct (Z.eqb_spec (len_list (sents doc)) 0) as [H0|_].
  { unfold len_list in H0. destruct (sents doc); [congruence|simpl in H0; lia]. }
  set (total := len_list (filter is_alpha (tokens doc))).
  destruct (Z.ltb_spec 0 total) as [Hpos|Hzero].
  - destruct (Z.eqb_spec total 0) as [H0|_]; [lia|].
    match goal with
    | |- context [if ?c then Ok "Advanced" else _] => destruct c
    end; [eexists; split; [reflexivity|simpl; tauto]|].
    match goal with
    | |- context [if ?c then Ok "Intermediate" else _] => destruct c
    end; eexists; (split; [reflexivity|simpl; tauto]).
  - match goal with
    | |- context [if ?c then Ok "Advanced" else _] => destruct c
    end; [eexists; split; [reflexivity|simpl; tauto]|].
    match goal with
    | |- context [if ?c then Ok "Intermediate" else _] => destruct c
    end; eexists; (split; [reflexivity|simpl; tauto]).
Qed.

(** C3, the failing case. When the NLP collaborator succeeds on the
    text and returns a document without sentences -- as it does for the
    empty text -- [analyze] fails with [ZeroDivisionError]: the
    sentence count is the divisor of [avg_sentence_length] and nothing
    guards it. *)
Theorem analyze_divides_by_zero (parsed_document : ParsedDocument) (doc : Doc) :
  nlp (text parsed_document) = Ok doc ->
  sents doc = [] ->
  analyze nlp parsed_document = Raise ZeroDivisionError.
Proof.
  intros Hdoc Hsents. unfold analyze.
  destruct (extract_key_concepts_runs _ _ Hdoc) as [concepts Hconcepts].
  unfold mbind at 1. unfold result_bind at 1. rewrite Hconcepts.
  unfold mbind at 1. unfold result_bind at 1.
  now rewrite (assess_difficulty_no_sentence _ _ Hdoc Hsents).
Qed.

End Difficulty.

Section DifficultyExamples.

Import ContentAnalyzer Inputs.

Lemma analyze_divides_by_zero_witness :
  analyze blank_nlp empty_document = Raise ZeroDivisionError.
Proof.
  apply (analyze_divides_by_zero blank_nlp empty_document empty_doc); reflexivity.
Defined.

End DifficultyExamples.

(** ** Counting occurrences *)

Section Counting.

Lemma prefix_cons (a b : ascii) (u s : string) :
  String.prefix (String a u) (String b s) = true <-> a = b /\ String.prefix u s = true.
Proof.
  simpl. destruct (ascii_dec a b) as [->|Hne]; split; intros H.
  - now split.
  - now destruct H.
  - discriminate.
  - now destruct H.
Qed.

(** Of two prefixes of one string the shorter is a prefix of the
    longer. *)
Lemma prefix_of_prefix (u : string) :
  forall p s,
    String.prefix u s = true -> String.prefix p s = true ->
    (String.length u <= String.length p)%nat ->
    String.prefix u p = true.
Proof.
  induction u as [|a u IH]; intros p s Hu Hp Hlen; [now destruct p|].
  destruct s as [|b s]; [discriminate Hu|].
  destruct p as [|c p]; [simpl in Hlen; lia|].
  apply prefix_cons in Hu as [-> Hu]. apply prefix_cons in Hp as [-> Hp].
  apply prefix_cons. split; [reflexivity|].
  apply (IH p s Hu Hp). simpl in Hlen. lia.
Qed.

(** Behind the first character of a match, as far as the match reaches,
    no occurrence of an unbordered [p] starts. *)
Lemma clear_behind_match (p u : string) :
  forall s k,
    String.prefix u s = true ->
    Spec.no_border_in u p = true ->
    (String.length u < String.length p)%nat ->
    (k <= String.length u)%nat ->
    Spec.clear_of p k s = true.
Proof.
  induction u as [|a u IH]; intros s k Hu Hnb Hlt Hk.
  - simpl in Hk. assert (k = 0%nat) as -> by lia. reflexivity.
  - destruct k as [|k]; [reflexivity|].
    destruct s as [|b s]; [reflexivity|].
    simpl in Hnb. apply andb_prop in Hnb as [Hhead Hnb].
    change (negb (String.prefix p (String b s)) && Spec.clear_of p k s = true).
    apply andb_true_intro. split.
    + apply negb_true_iff. destruct (String.prefix p (String b s)) eqn:Hp; [|reflexivity].
      apply negb_true_iff in Hhead.
      rewrite (prefix_of_prefix (String a u) p (String b s) Hu Hp) in Hhead;
        [discriminate|lia].
    + apply prefix_cons in Hu as [_ Hu].
      apply (IH s k Hu Hnb); simpl in Hlt, Hk; lia.
Qed.

Lemma clear_behind_head (p : string) (c : ascii) (s : string) :
  Spec.unbordered p = true ->
  String.prefix p (String c s) = true ->
  Spec.clear_of p (String.length p - 1) s = true.
Proof.
  intros Hub Hp. destruct p as [|a p']; [discriminate Hub|].
  apply prefix_cons in Hp as [_ Hp].
  apply (clear_behind_match (String a p') p' s _ Hp Hub); simpl; lia.
Qed.

Lemma count_from_occurrences (p s : string) :
  Spec.unbordered p = true ->
  forall k, Spec.clear_of p k s = true ->
            Py.count_from p k s = Spec.occurrences p s.
Proof.
  intros Hub. induction s as [|c s IH]; intros k Hclear; [reflexivity|].
  destruct k as [|k].
  - cbn [Py.count_from Spec.occurrences].
    destruct (String.prefix p (String c s)) eqn:Hp.
    + rewrite IH; [reflexivity|]. now apply (clear_behind_head p c s).
    + now rewrite IH.
  - cbn [Py.count_from Spec.occurrences].
    change (negb (String.prefix p (String c s)) && Spec.clear_of p k s = true) in Hclear.
    apply andb_prop in Hclear as [Hhead Hclear].
    apply negb_true_iff in Hhead. rewrite Hhead. now rewrite IH.
Qed.

(** For an unbordered keyword [str.count] is the number of all
    occurrences. *)
Lemma count_unbordered (p s : string) :
  Spec.unbordered p = true ->
  Py.count s p = Z.of_nat (Spec.occurrences p s).
Proof.
  intros Hub. unfold Py.count.
  rewrite (count_from_occurrences p s Hub 0%nat eq_refl).
  destruct p; [discriminate Hub|reflexivity].
Qed.

End Counting.

(** ** Topics *)

Section Topics.

Import ContentAnalyzer.

Lemma keyword_hits_sum (text_lower : string) (keywords : list string) :
  keyword_hits text_lower keywords = Spec.count_hits text_lower keywords.
Proof.
  unfold keyword_hits, Spec.count_hits.
  assert (H : forall acc,
             fold_left (fun total keyword => total + Py.count text_lower keyword)
                       keywords acc
             = acc + fold_right Z.add 0 (map (Py.count text_lower) keywords)).
  { induction keywords as [|k keywords IH]; intros acc; simpl; [lia|].
    rewrite IH. lia. }
  now rewrite H.
Qed.

Lemma scan_topics_filter (text_lower : string) (dictionary : list (string * list string)) :
  scan_topics text_lower dictionary
  = map (fun entry => Py.title (fst entry))
        (List.filter (Spec.topic_hit text_lower) dictionary).
Proof.
  unfold scan_topics.
  assert (H : forall acc,
             fold_left
               (fun topics '(topic, keywords) =>
                  if 3 <? keyword_hits text_lower keywords
                  then topics ++ [Py.title topic] else topics)
               dictionary acc
             = acc ++ map (fun entry => Py.title (fst entry))
                          (List.filter (Spec.topic_hit text_lower) dictionary)).
  { induction dictionary as [|[topic keywords] dictionary IH]; intros acc; simpl.
    - now rewrite app_nil_r.
    - rewrite IH. unfold Spec.topic_hit at 2. simpl. rewrite keyword_hits_sum.
      destruct (3 <? Spec.count_hits text_lower keywords); simpl; [|reflexivity].
      now rewrite <- app_assoc. }
  now rewrite H.
Qed.

Lemma In_map_filter {A : Type} (f : A -> string) (keep : A -> bool) (l : list A) (x : A) :
  List.NoDup (map f l) -> In x l ->
  (In (f x) (map f (List.filter keep l)) <-> keep x = true).
Proof.
  intros Hnd Hx. split.
  - intros Hin. apply in_map_iff in Hin as (y & Hfy & Hy).
    apply filter_In in Hy as [Hy Hkeep].
    assert (y = x) as <-; [|assumption].
    clear Hkeep. induction l as [|z l IH]; [contradiction|].
    simpl in Hnd. inversion Hnd as [|? ? Hnotin Hnd']; subst.
    destruct Hx as [->|Hx], Hy as [->|Hy]; try reflexivity.
    + exfalso. apply Hnotin. rewrite <- Hfy. now apply in_map.
    + exfalso. apply Hnotin. rewrite Hfy. now apply in_map.
    + now apply IH.
  - intros Hkeep. apply in_map. apply filter_In. now split.
Qed.

Lemma topic_titles_distinct :
  List.NoDup (map (fun entry : string * list string => Py.title (fst entry)) topic_keywords).
Proof.
  repeat (constructor;
          [simpl; intros H;
           repeat (destruct H as [H|H]; [discriminate H|]); exact H|]).
  constructor.
Qed.

(** Every keyword of the dictionary but "empire" is unbordered. *)
Lemma keywords_unbordered (keyword : string) :
  In keyword Spec.all_keywords -> keyword <> "empire" ->
  Spec.unbordered keyword = true.
Proof.
  intros Hin Hne. unfold Spec.all_keywords in Hin. simpl in Hin.
  repeat (destruct Hin as [<-|Hin]; [first [reflexivity|congruence]|]).
  contradiction.
Qed.

Variable nlp : string -> result Doc.

(** C4, as amended. [_identify_topics] includes a topic exactly when the
    sum over its 5 keywords of [str.count] of the keyword in the
    lowercased text is strictly greater than 3, and returns the topics
    in the order of the dictionary.  [str.count] counts the
    occurrences found by a scan that resumes behind each match, so
    occurrences of one keyword that overlap are not all counted; for
    every keyword but "empire" no two occurrences overlap and the count
    is the number of all occurrences.  In particular a text in which
    "cell" occurs 4 times and no other biology keyword occurs yields
    "Biology". *)
Theorem identify_topics_spec (text : string) (doc : Doc) :
  nlp text = Ok doc ->
  exists topics,
    _identify_topics nlp text = Ok topics
    /\ topics = map (fun entry => Py.title (fst entry))
                    (List.filter (Spec.topic_hit (Py.lower text)) topic_keywords)
    /\ (forall topic keywords,
           In (topic, keywords) topic_keywords ->
           (In (Py.title topic) topics
            <-> 3 < Spec.count_hits (Py.lower text) keywords))
    /\ (forall keyword,
           In keyword Spec.all_keywords -> keyword <> "empire" ->
           Py.count (Py.lower text) keyword
           = Z.of_nat (Spec.occurrences keyword (Py.lower text)))
    /\ (Spec.occurrences "cell" (Py.lower text) = 4%nat ->
        Spec.occurrences "organism" (Py.lower text) = 0%nat ->
        Spec.occurrences "evolution" (Py.lower text) = 0%nat ->
        Spec.occurrences "genetics" (Py.lower text) = 0%nat ->
        Spec.occurrences "ecosystem" (Py.lower text) = 0%nat ->
        In "Biology" topics).
Proof.
  intros Hdoc. eexists. split; [|split; [reflexivity|]].
  { unfold _identify_topics, mbind, result_bind. rewrite Hdoc.
    now rewrite scan_topics_filter. }
  assert (Hiff : forall topic keywords,
             In (topic, keywords) topic_keywords ->
             (In (Py.title topic)
                 (map (fun entry => Py.title (fst entry))
                      (List.filter (Spec.topic_hit (Py.lower text)) topic_keywords))
              <-> 3 < Spec.count_hits (Py.lower text) keywords)).
  { intros topic keywords Hin.
    rewrite (In_map_filter (fun entry => Py.title (fst entry))
               (Spec.topic_hit (Py.lower text)) topic_keywords (topic, keywords)
               topic_titles_distinct Hin).
    unfold Spec.topic_hit. simpl. apply Z.ltb_lt. }
  assert (Hcount : forall keyword,
             In keyword Spec.all_keywords -> keyword <> "empire" ->
             Py.count (Py.lower text) keyword
             = Z.of_nat (Spec.occurrences keyword (Py.lower text))).
  { intros keyword Hin Hne. apply count_unbordered. now apply keywords_unbordered. }
  split; [exact Hiff|]. split; [exact Hcount|].
  intros Hcell Horganism Hevolution Hgenetics Hecosystem.
  apply (Hiff "biology" ["cell"; "organism"; "evolution"; "genetics"; "ecosystem"]).
  { simpl. now left. }
  unfold Spec.count_hits. cbn [map fold_right].
  rewrite !Hcount by (first [discriminate | simpl; tauto]).
  rewrite Hcell, Horganism, Hevolution, Hgenetics, Hecosystem. reflexivity.
Qed.

End Topics.

Section TopicsExamples.

Import ContentAnalyzer Inputs.

Lemma identify_topics_spec_witness :
  exists topics,
    _identify_topics blank_nlp cell_text = Ok topics /\ In "Biology" topics.
Proof.
  destruct (identify_topics_spec blank_nlp cell_text empty_doc eq_refl)
    as (topics & Hrun & _ & _ & _ & Hcell).
  exists topics. split; [exact Hrun|].
  apply Hcell; vm_compute; reflexivity.
Defined.

(** C4, the statement as specified fails: in [empires] the keyword
    "empire" occurs 4 times when overlapping occurrences are counted
    each, which is more than 3, and "History" is not returned, because
    [str.count] finds 2. *)
Lemma identify_topics_overlapping_empire :
  3 < Spec.occurrence_hits (Py.lower empires)
        ["century"; "war"; "empire"; "revolution"; "civilization"]
  /\ In ("history", ["century"; "war"; "empire"; "revolution"; "civilization"])
        topic_keywords
  /\ _identify_topics blank_nlp empires = Ok []
  /\ Py.count (Py.lower empires) "empire" = 2.
Proof.
  split; [vm_compute; reflexivity|]. split; [simpl; tauto|].
  split; vm_compute; reflexivity.
Qed.

End TopicsExamples.

(** ** Rounding to two decimals *)

Section Rounding.

Lemma digits2_pos_bound (m : positive) :
  Z.pos m < 2 ^ Z.pos (SpecFloat.digits2_pos m).
Proof.
  induction m as [m IH|m IH|]; simpl SpecFloat.digits2_pos.
  - rewrite Pos2Z.inj_succ, Z.pow_succ_r by lia. lia.
  - rewrite Pos2Z.inj_succ, Z.pow_succ_r by lia. lia.
  - reflexivity.
Qed.

(** The mantissa of a double has at most 53 bits. *)
Lemma valid_mantissa_bound (s : bool) (m : positive) (e : Z) :
  SpecFloat.valid_binary prec emax (S754_finite s m e) = true ->
  Z.pos m < 2 ^ 53.
Proof.
  unfold SpecFloat.valid_binary, SpecFloat.bounded, SpecFloat.canonical_mantissa,
    SpecFloat.fexp, SpecFloat.emin, prec, emax.
  intros H. apply andb_prop in H as [H _]. apply Z.eqb_eq in H.
  pose proof (digits2_pos_bound m) as Hm.
  assert (Hd : Z.pos (SpecFloat.digits2_pos m) <= 53) by lia.
  eapply Z.lt_le_trans; [exact Hm|].
  apply Z.pow_le_mono_r; lia.
Qed.

Lemma round_half_even_bounds (n d hi : Z) :
  0 < d -> 0 <= n -> n < hi * d -> 0 <= Num.round_half_even n d <= hi.
Proof.
  intros Hd Hn Hhi. unfold Num.round_half_even.
  assert (Hq : 0 <= n / d) by (apply Z.div_pos; lia).
  assert (Hq' : n / d < hi) by (apply Z.div_lt_upper_bound; lia).
  destruct (2 * (n mod d) ?= d); [destruct (Z.even (n / d))| |]; lia.
Qed.

(** The doubles nearest to 0.00, 0.01, ..., 1.00 lie between 0 and 1. *)
Lemma hundredths_in_unit (k : Z) :
  0 <= k <= 100 ->
  ((0 <=? Num.float_of_int k / 100) && (Num.float_of_int k / 100 <=? 1))%float = true.
Proof.
  intros Hk.
  assert (Hall : forallb (fun k => ((0 <=? Num.float_of_int k / 100)
                                    && (Num.float_of_int k / 100 <=? 1))%float)
                         (map Z.of_nat (seq 0 101)) = true)
    by (vm_compute; reflexivity).
  rewrite forallb_forall in Hall. apply Hall.
  apply in_map_iff. exists (Z.to_nat k). split; [lia|].
  apply in_seq. lia.
Qed.

(** A double strictly between 0 and 1 rounds to a double between 0 and
    1. *)
Lemma round2_in_unit (f : float) :
  (0 <? f)%float = true -> (f <? 1)%float = true ->
  ((0 <=? Num.round2 f) && (Num.round2 f <=? 1))%float = true.
Proof.
  intros H0 H1. rewrite ltb_spec in H0, H1.
  pose proof (Prim2SF_valid f) as Hvalid.
  unfold Num.round2.
  change (Prim2SF 0) with (S754_zero false) in H0.
  change (Prim2SF 1) with (S754_finite false 4503599627370496 (-52)) in H1.
  destruct (Prim2SF f) as [s|s| |s m e]; try discriminate H0.
  - destruct s; discriminate.
  - destruct s; [discriminate H0|].
    apply valid_mantissa_bound in Hvalid.
    unfold SFltb, SFcompare in H1.
    assert (He : e <= -52 /\ Z.pos m < 2 ^ (- e)).
    { destruct (Z.compare_spec e (-52)) as [->|Hlt|Hgt]; try discriminate H1.
      - split; [lia|]. change (2 ^ (- -52)) with 4503599627370496.
        destruct (Pos.compare_cont Eq m 4503599627370496) eqn:Hc; try discriminate H1.
        apply Pos2Z.pos_lt_pos. apply Pos.compare_lt_iff. exact Hc.
      - split; [lia|]. eapply Z.lt_le_trans; [exact Hvalid|].
        apply Z.pow_le_mono_r; lia. }
    destruct He as [He Hm].
    destruct (Z.leb_spec 0 e) as [Hpos|_]; [lia|].
    apply hundredths_in_unit. apply round_half_even_bounds; lia.
Qed.

End Rounding.

(** ** Readability *)

Section Readability.

Import ContentAnalyzer.

Lemma re_split_nonempty (text : string) : 0 < len_list (Re.split text).
Proof.
  unfold len_list, Re.split. destruct (Re.split_go text) as [f fs]. simpl length. lia.
Qed.

Lemma clamp_round_in_unit (x : Num.num) :
  Num.in_unit_interval (Num.round_2 (Spec.clamp01 x)) = true.
Proof.
  unfold Spec.clamp01, Num.min2, Num.max2.
  destruct x as [z|f].
  - cbn [Num.lt]. destruct (Z.ltb_spec z 1) as [Hlt|Hge].
    + cbn [Num.lt]. destruct (Z.ltb_spec 0 z); [lia|reflexivity].
    + reflexivity.
  - cbn [Num.lt Num.to_float].
    change (Num.float_of_int 1) with 1%float.
    destruct (f <? 1)%float eqn:H1.
    + cbn [Num.lt Num.to_float]. change (Num.float_of_int 0) with 0%float.
      destruct (0 <? f)%float eqn:H0.
      * cbn [Num.round_2 Num.in_unit_interval]. now apply round2_in_unit.
      * reflexivity.
    + reflexivity.
Qed.

Lemma calculate_readability_formula (text : string) :
  text <> "" ->
  exists avg q,
    Num.truediv (Num.Int (len_list (Py.split text))) (Num.Int (len_list (Re.split text)))
    = Ok avg
    /\ Num.truediv (Num.sub avg (Num.Int 10)) (Num.Int 20) = Ok q
    /\ _calculate_readability text
       = Ok (Num.round_2 (Spec.clamp01 (Num.sub (Num.Int 1) q))).
Proof.
  intros Hne. destruct text as [|c text]; [congruence|].
  unfold _calculate_readability.
  pose proof (re_split_nonempty (String c text)) as Hpos.
  destruct (Z.ltb_spec 0 (len_list (Re.split (String c text)))) as [_|Hle]; [|lia].
  assert (Havg : Num.truediv (Num.Int (len_list (Py.split (String c text))))
                             (Num.Int (len_list (Re.split (String c text))))
                 = Ok (Num.Float
                         (Num.float_of_int (len_list (Py.split (String c text)))
                          / Num.float_of_int (len_list (Re.split (String c text)))))).
  { unfold Num.truediv. cbn [Num.is_zero Num.to_float].
    destruct (Z.eqb_spec (len_list (Re.split (String c text))) 0) as [H0|_]; [lia|].
    reflexivity. }
  rewrite Havg. unfold mbind, result_bind.
  eexists. eexists. split; [reflexivity|]. split; reflexivity.
Qed.



End Readability.

(** ** The whole analysis *)

Section Analysis.

Import ContentAnalyzer.

Variable nlp : string -> result Doc.

Lemma calculate_readability_runs (text : string) :
  exists score, _calculate_readability text = Ok score.
Proof.
  destruct text as [|c text].
  - eexists. reflexivity.
  - destruct (calculate_readability_formula (String c text)) as (avg & q & _ & _ & Hrun);
      [discriminate|].
    eexists. exact Hrun.
Qed.

(** A document with at least one sentence is analysed without an
    exception: the missing sentence is the only way [analyze] fails once
    the NLP collaborator has answered. *)
Lemma analyze_runs_with_sentences (parsed_document : ParsedDocument) (doc : Doc) :
  nlp (text parsed_document) = Ok doc ->
  sents doc <> [] ->
  exists analysis, analyze nlp parsed_document = Ok analysis.
Proof.
  intros Hdoc Hsents. unfold analyze.
  destruct (extract_key_concepts_runs nlp _ _ Hdoc) as [concepts Hconcepts].
  destruct (assess_difficulty_some_sentence nlp _ _ Hdoc Hsents) as (level & Hlevel & _).
  destruct (calculate_readability_runs (text parsed_document)) as [score Hscore].
  rewrite Hconcepts, Hlevel, Hscore.
  unfold _identify_topics. rewrite Hdoc.
  eexists. reflexivity.
Qed.

End Analysis.

(** * Further properties of the services *)

(** ** White space *)

Section WhiteSpace.

Lemma lstrip_blank (s : string) : Shape.has_ink s = false -> Py.lstrip s = "".
Proof.
  induction s as [|c s IH]; [reflexivity|]. unfold Shape.has_ink. simpl.
  intros H. apply orb_false_elim in H as [Hc Hs]. apply negb_false_iff in Hc.
  rewrite Hc. now apply IH.
Qed.

Lemma strip_ink (s : string) : Py.strip s <> "" -> Shape.has_ink s = true.
Proof.
  intros H. destruct (Shape.has_ink s) eqn:Hink; [reflexivity|].
  exfalso. apply H. unfold Py.strip. now rewrite (lstrip_blank s Hink).
Qed.

Lemma split_go_ink (s : string) :
  Shape.has_ink s = true ->
  Py.push_word (fst (Py.split_go s)) (snd (Py.split_go s)) <> [].
Proof.
  induction s as [|c s IH]; [discriminate|]. unfold Shape.has_ink. simpl.
  destruct (Py.split_go s) as [w ws]. simpl in IH.
  destruct (Py.isspace c); simpl.
  - intros H. now apply IH.
  - intros _. discriminate.
Qed.

(** A text with a character that is not white space has a word. *)
Lemma split_ink (s : string) : Shape.has_ink s = true -> Py.split s <> [].
Proof.
  intros H. apply split_go_ink in H. unfold Py.split.
  now destruct (Py.split_go s).
Qed.

End WhiteSpace.

(** ** Section analysis *)

Section Sections.

Import ContentAnalyzer.

Lemma analyze_sections_as_filter (sections : list (gmap string string)) :
  _analyze_sections sections
  = map Shape.summary_of (List.filter Shape.long_enough sections).
Proof.
  unfold _analyze_sections.
  assert (H : forall acc,
             fold_left
               (fun analyzed_sections section =>
                  let content := default "" (section !! "content") in
                  if Py.len (Py.strip content) <? 50 then analyzed_sections
                  else
                    analyzed_sections ++
                    [ {| title := default "Untitled" (section !! "title");
                         word_count := len_list (Py.split content);
                         key_points := _extract_key_points content;
                         quiz_potential := len_list (Py.split content) / 50 |} ])
               sections acc
             = acc ++ map Shape.summary_of (List.filter Shape.long_enough sections)).
  { induction sections as [|section sections IH]; intros acc; simpl.
    - now rewrite app_nil_r.
    - rewrite IH. unfold Shape.long_enough at 2.
      destruct (Py.len (Py.strip (default "" (section !! "content"))) <? 50); simpl.
      + reflexivity.
      + now rewrite <- app_assoc. }
  now rewrite H.
Qed.

Lemma long_enough_has_word (section : gmap string string) :
  Shape.long_enough section = true ->
  1 <= len_list (Py.split (default "" (section !! "content"))).
Proof.
  unfold Shape.long_enough. intros H. apply negb_true_iff, Z.ltb_ge in H.
  assert (Hink : Shape.has_ink (default "" (section !! "content")) = true).
  { apply strip_ink. intros Hempty. rewrite Hempty in H.
    unfold Py.len in H. simpl in H. lia. }
  apply split_ink in Hink. unfold len_list.
  destruct (Py.split (default "" (section !! "content"))); [congruence|simpl; lia].
Qed.

(** X1.  [_analyze_sections] returns one summary for each section whose
    trimmed content has at least 50 characters, in the order of the
    sections; a section without ['content'] is left out and one without
    ['title'] is called ['Untitled'].  Every summary counts at least one
    word, holds at most 5 key points, and its [quiz_potential] is the
    number of full groups of 50 words. *)
Theorem analyze_sections_summaries (sections : list (gmap string string)) :
  _analyze_sections sections
  = map Shape.summary_of (List.filter Shape.long_enough sections)
  /\ (length (_analyze_sections sections) <= length sections)%nat
  /\ (forall section, section !! "content" = None -> Shape.long_enough section = false)
  /\ (forall summary,
         In summary (_analyze_sections sections) ->
         1 <= word_count summary
         /\ (length (key_points summary) <= 5)%nat
         /\ 0 <= quiz_potential summary
         /\ 50 * quiz_potential summary <= word_count summary
            < 50 * quiz_potential summary + 50).
Proof.
  rewrite analyze_sections_as_filter. split; [reflexivity|]. split; [|split].
  - rewrite length_map. apply filter_length_le.
  - intros section Hnone. unfold Shape.long_enough. now rewrite Hnone.
  - intros summary Hin. apply in_map_iff in Hin as (section & <- & Hin).
    apply filter_In in Hin as [_ Hlong].
    pose proof (long_enough_has_word section Hlong) as Hword.
    unfold Shape.summary_of. cbn [word_count key_points quiz_potential].
    split; [exact Hword|]. split.
    + unfold _extract_key_points. apply firstn_le_length.
    + set (w := len_list (Py.split (default "" (section !! "content")))) in *.
      pose proof (Z.div_mod w 50 ltac:(lia)) as Hdm.
      pose proof (Z.mod_pos_bound w 50 ltac:(lia)) as Hmod.
      assert (0 <= w / 50) by (apply Z.div_pos; lia).
      lia.
Qed.

End Sections.

(** ** Counting and ranking the noun phrases *)

Section Ranking.

Import ContentAnalyzer.

Lemma counter_add_get (k k' : string) (c : list (string * Z)) :
  Shape.counter_get k' (counter_add k c)
  = Shape.counter_get k' c + (if String.eqb k' k then 1 else 0).
Proof.
  induction c as [|[k0 n] c IH]; simpl.
  - destruct (String.eqb k' k); lia.
  - destruct (String.eqb_spec k k0) as [->|Hne]; simpl.
    + destruct (String.eqb k' k0); lia.
    + destruct (String.eqb_spec k' k0) as [->|Hne'].
      * destruct (String.eqb_spec k0 k); [congruence|lia].
      * apply IH.
Qed.

Lemma counter_add_keys (k k' : string) (c : list (string * Z)) :
  In k' (map fst (counter_add k c)) <-> k' = k \/ In k' (map fst c).
Proof.
  induction c as [|[k0 n] c IH]; simpl.
  - intuition.
  - destruct (String.eqb_spec k k0) as [->|Hne]; simpl; intuition.
Qed.

Lemma counter_add_nodup (k : string) (c : list (string * Z)) :
  List.NoDup (map fst c) -> List.NoDup (map fst (counter_add k c)).
Proof.
  induction c as [|[k0 n] c IH]; simpl; intros Hnd.
  - constructor; [intros []|constructor].
  - inversion Hnd as [|? ? Hnotin Hnd']; subst.
    destruct (String.eqb_spec k k0) as [->|Hne]; simpl.
    + now constructor.
    + constructor; [|now apply IH].
      intros Hin. apply counter_add_keys in Hin as [->|Hin]; [congruence|contradiction].
Qed.

Lemma counter_get_entry (k : string) (n : Z) (c : list (string * Z)) :
  List.NoDup (map fst c) -> In (k, n) c -> Shape.counter_get k c = n.
Proof.
  induction c as [|[k0 n0] c IH]; simpl; intros Hnd Hin; [contradiction|].
  inversion Hnd as [|? ? Hnotin Hnd']; subst.
  destruct Hin as [Heq|Hin].
  - injection Heq as -> ->. now rewrite String.eqb_refl.
  - destruct (String.eqb_spec k k0) as [->|Hne]; [|now apply IH].
    exfalso. apply Hnotin. now apply (in_map fst c (k0, n)).
Qed.

(** [Counter(items)] has one entry for each distinct item, holding the
    number of its occurrences. *)
Lemma Counter_counts (items : list string) :
  List.NoDup (map fst (Counter items))
  /\ forall k, Shape.counter_get k (Counter items)
               = Z.of_nat (count_occ string_dec items k).
Proof.
  unfold Counter.
  assert (H : forall c,
             List.NoDup (map fst c) ->
             List.NoDup (map fst (fold_left (fun c k => counter_add k c) items c))
             /\ forall k,
                 Shape.counter_get k (fold_left (fun c k => counter_add k c) items c)
                 = Shape.counter_get k c + Z.of_nat (count_occ string_dec items k)).
  { induction items as [|x items IH]; intros c Hnd; simpl.
    - split; [assumption|]. intros k. lia.
    - destruct (IH (counter_add x c) (counter_add_nodup x c Hnd)) as [Hnd' Hget].
      split; [assumption|]. intros k. rewrite Hget, counter_add_get.
      destruct (string_dec x k) as [->|Hne].
      + rewrite String.eqb_refl. lia.
      + destruct (String.eqb_spec k x); [congruence|lia]. }
  destruct (H [] ltac:(constructor)) as [Hnd Hget].
  split; [assumption|]. intros k. now rewrite Hget.
Qed.

Lemma insert_by_count_perm (x : string * Z) (l : list (string * Z)) :
  Permutation (x :: l) (insert_by_count x l).
Proof.
  induction l as [|y l IH]; simpl; [reflexivity|].
  destruct (snd y <=? snd x); [reflexivity|].
  etransitivity; [apply perm_swap|]. now apply perm_skip.
Qed.

Lemma insert_by_count_descending (x : string * Z) (l : list (string * Z)) :
  Shape.descending (map snd l) -> Shape.descending (map snd (insert_by_count x l)).
Proof.
  induction l as [|y l IH]; simpl; intros Hd.
  - split; [intros ? []|exact I].
  - destruct Hd as [Hy Hd]. destruct (Z.leb_spec (snd y) (snd x)) as [Hle|Hgt]; simpl.
    + split; [|split; assumption].
      intros z [<-|Hz]; [assumption|]. specialize (Hy z Hz). lia.
    + split; [|now apply IH].
      intros z Hz. apply in_map_iff in Hz as (e & <- & He).
      apply (Permutation_in _ (Permutation_sym (insert_by_count_perm x l))) in He.
      destruct He as [<-|He]; [lia|]. apply Hy. now apply in_map.
Qed.

Lemma ranked_spec (c : list (string * Z)) :
  Permutation c (fold_right insert_by_count [] c)
  /\ Shape.descending (map snd (fold_right insert_by_count [] c)).
Proof.
  induction c as [|x c [IHp IHd]]; simpl.
  - split; [reflexivity|exact I].
  - split; [|now apply insert_by_count_descending].
    etransitivity; [|apply insert_by_count_perm]. now apply perm_skip.
Qed.

Lemma NoDup_firstn {A : Type} (n : nat) (l : list A) :
  List.NoDup l -> List.NoDup (firstn n l).
Proof.
  revert n. induction l as [|x l IH]; intros [|n] Hnd; simpl; try constructor.
  - inversion Hnd as [|? ? Hnotin Hnd']; subst.
    intros Hin. apply Hnotin. now apply (In_firstn n).
  - inversion Hnd; subst. now apply IH.
Qed.

Lemma descending_firstn (n : nat) (l : list Z) :
  Shape.descending l -> Shape.descending (firstn n l).
Proof.
  revert n. induction l as [|x l IH]; intros [|n] Hd; simpl; try exact I.
  destruct Hd as [Hx Hd]. split; [|now apply IH].
  intros y Hy. apply Hx. now apply (In_firstn n).
Qed.

Lemma descending_filter (keep : string * Z -> bool) (l : list (string * Z)) :
  Shape.descending (map snd l) -> Shape.descending (map snd (List.filter keep l)).
Proof.
  induction l as [|x l IH]; simpl; intros Hd; [exact I|].
  destruct Hd as [Hx Hd]. destruct (keep x); simpl; [|now apply IH].
  split; [|now apply IH].
  intros y Hy. apply Hx. apply in_map_iff in Hy as (e & <- & He).
  apply filter_In in He as [He _]. now apply in_map.
Qed.

Lemma NoDup_map_filter (keep : string * Z -> bool) (l : list (string * Z)) :
  List.NoDup (map fst l) -> List.NoDup (map fst (List.filter keep l)).
Proof.
  induction l as [|x l IH]; simpl; intros Hnd; [constructor|].
  inversion Hnd as [|? ? Hnotin Hnd']; subst.
  destruct (keep x); simpl; [|now apply IH].
  constructor; [|now apply IH].
  intros Hin. apply Hnotin. apply in_map_iff in Hin as (e & <- & He).
  apply filter_In in He as [He _]. now apply in_map.
Qed.

(** [most_common] keeps entries of the counter, without repeating a key,
    in descending order of count. *)
Lemma most_common_spec (n : nat) (c : list (string * Z)) :
  List.NoDup (map fst c) ->
  (length (most_common n c) <= n)%nat
  /\ List.NoDup (map fst (most_common n c))
  /\ Shape.descending (map snd (most_common n c))
  /\ forall entry, In entry (most_common n c) -> In entry c.
Proof.
  intros Hnd. unfold most_common. destruct (ranked_spec c) as [Hperm Hdesc].
  split; [apply firstn_le_length|]. split; [|split].
  - rewrite <- firstn_map. apply NoDup_firstn.
    apply (Permutation_NoDup (Permutation_map fst Hperm) Hnd).
  - rewrite <- firstn_map. now apply descending_firstn.
  - intros entry Hin. apply In_firstn in Hin.
    apply (Permutation_in _ (Permutation_sym Hperm) Hin).
Qed.

Variable nlp : string -> result Doc.

Lemma key_concepts_as_filter (text : string) (doc : Doc) :
  nlp text = Ok doc ->
  _extract_key_concepts nlp text
  = Ok (map Shape.concept_of
            (List.filter Shape.frequent (most_common 20 (Counter (Shape.noun_phrases doc))))).
Proof.
  intros Hdoc. unfold _extract_key_concepts, mbind, result_bind. rewrite Hdoc.
  f_equal. fold (Shape.noun_phrases doc).
  generalize (most_common 20 (Counter (Shape.noun_phrases doc))) as ranked.
  intros ranked.
  assert (H : forall acc,
             fold_left
               (fun key_concepts '(concept, count) =>
                  if (1 <? count) && (3 <? Py.len concept) then
                    key_concepts ++
                    [ {| concept := concept;
                         frequency := count;
                         importance :=
                           (let p := Num.float_of_int count * 0.1 in
                            if 1 <? p then 1 else p)%float |} ]
                  else key_concepts)
               ranked acc
             = acc ++ map Shape.concept_of (List.filter Shape.frequent ranked)).
  { induction ranked as [|[k n] ranked IH]; intros acc; simpl.
    - now rewrite app_nil_r.
    - rewrite IH. unfold Shape.frequent at 2. simpl.
      destruct ((1 <? n) && (3 <? Py.len k)); simpl; [|reflexivity].
      now rewrite <- app_assoc. }
  now rewrite H.
Qed.

(** X2.  [_extract_key_concepts] returns at most 20 concepts with distinct
    texts, in descending order of frequency; each one is a noun chunk of
    at most three words and more than three characters that occurs at
    least twice, its frequency is the number of its occurrences among
    those chunks, and its importance is not above 1. *)
Theorem extract_key_concepts_ranked (text : string) (doc : Doc) :
  nlp text = Ok doc ->
  exists concepts,
    _extract_key_concepts nlp text = Ok concepts
    /\ (length concepts <= 20)%nat
    /\ List.NoDup (map concept concepts)
    /\ Shape.descending (map frequency concepts)
    /\ forall c,
         In c concepts ->
         2 <= frequency c
         /\ 4 <= Py.len (concept c)
         /\ frequency c
            = Z.of_nat (count_occ string_dec (Shape.noun_phrases doc) (concept c))
         /\ In (concept c) (noun_chunks doc)
         /\ len_list (Py.split (concept c)) <= 3
         /\ (1 <? importance c)%float = false.
Proof.
  intros Hdoc. eexists. split; [apply (key_concepts_as_filter text doc Hdoc)|].
  destruct (Counter_counts (Shape.noun_phrases doc)) as [Hnd Hget].
  destruct (most_common_spec 20 _ Hnd) as (Hlen & Hnd' & Hdesc & Hsub).
  set (ranked := most_common 20 (Counter (Shape.noun_phrases doc))) in *.
  split; [|split; [|split]].
  - rewrite length_map. etransitivity; [apply filter_length_le|exact Hlen].
  - rewrite map_map. change (fun x => concept (Shape.concept_of x)) with (@fst string Z).
    now apply NoDup_map_filter.
  - rewrite map_map. change (fun x => frequency (Shape.concept_of x)) with (@snd string Z).
    now apply descending_filter.
  - intros c Hin. apply in_map_iff in Hin as ([k n] & <- & Hin).
    apply filter_In in Hin as [Hin Hfreq].
    unfold Shape.frequent in Hfreq. simpl in Hfreq.
    apply andb_prop in Hfreq as [Hn Hk]. apply Z.ltb_lt in Hn, Hk.
    cbn [Shape.concept_of concept frequency importance fst snd].
    assert (Hcount : n = Z.of_nat (count_occ string_dec (Shape.noun_phrases doc) k)).
    { rewrite <- Hget. symmetry. apply counter_get_entry; [assumption|]. now apply Hsub. }
    assert (Hphrase : In k (Shape.noun_phrases doc)).
    { apply (count_occ_In string_dec). lia. }
    apply list_elem_of_In in Hphrase. unfold Shape.noun_phrases in Hphrase.
    apply list_elem_of_filter in Hphrase as [Hwords Hchunk].
    apply Is_true_true, Z.leb_le in Hwords. apply list_elem_of_In in Hchunk.
    repeat split; try lia; try assumption.
    destruct (1 <? Num.float_of_int n * 0.1)%float eqn:Hp; [reflexivity|exact Hp].
Qed.

End Ranking.

(** ** Difficulty levels *)

Section Levels.

Import ContentAnalyzer.

Lemma filter_bool {A : Type} (b : A -> bool) (l : list A) :
  filter (fun x => b x) l = List.filter b l.
Proof.
  induction l as [|x l IH]; [reflexivity|].
  rewrite filter_cons. simpl. rewrite IH.
  destruct (b x); reflexivity.
Qed.

Lemma complex_words_bound (doc : Doc) :
  0 <= Shape.complex_words doc <= Shape.alpha_words doc.
Proof.
  unfold Shape.complex_words, Shape.alpha_words, len_list.
  rewrite (filter_bool (fun token => (6 <? Py.len (tok_text token)) && is_alpha token)).
  rewrite (filter_bool is_alpha).
  split; [lia|]. apply inj_le.
  induction (tokens doc) as [|token l IH]; simpl; [lia|].
  destruct (is_alpha token); rewrite ?andb_true_r, ?andb_false_r; simpl.
  - destruct (6 <? Py.len (tok_text token)); simpl; lia.
  - exact IH.
Qed.

(** A quotient of lengths exceeds [k1 / k2] when the cross product
    does. *)
Lemma ratio_greater (a b k1 : Z) (k2 : positive) :
  0 < b ->
  Num.Qgtb (inject_Z a / inject_Z b) (k1 # k2) = (k1 * b <? a * Z.pos k2).
Proof.
  intros Hb. destruct b as [|p|p]; try lia.
  unfold Num.Qgtb, Qle_bool, Qdiv, Qmult, Qinv, inject_Z. simpl.
  rewrite Pos.mul_1_l.
  destruct (Z.leb_spec (a * 1 * Z.pos k2) (k1 * Z.pos p));
    destruct (Z.ltb_spec (k1 * Z.pos p) (a * Z.pos k2)); simpl; try reflexivity; lia.
Qed.

Variable nlp : string -> result Doc.

Lemma assess_difficulty_level (text : string) (doc : Doc) :
  nlp text = Ok doc -> sents doc <> [] ->
  _assess_difficulty nlp text
  = Ok (Shape.level_of (Shape.word_tokens doc) (Shape.sentence_count doc)
                       (Shape.complex_words doc) (Shape.alpha_words doc)).
Proof.
  intros Hdoc Hsents. unfold _assess_difficulty, mbind, result_bind.
  rewrite Hdoc.
  fold (Shape.word_tokens doc). fold (Shape.sentence_count doc).
  fold (Shape.complex_words doc). fold (Shape.alpha_words doc).
  pose proof (complex_words_bound doc) as Hbound.
  assert (Hs : 0 < Shape.sentence_count doc).
  { unfold Shape.sentence_count, len_list. destruct (sents doc); [congruence|simpl; lia]. }
  unfold Num.ratio at 1.
  destruct (Z.eqb_spec (Shape.sentence_count doc) 0) as [H0|_]; [lia|].
  change 20%Q with (20 # 1). change 15%Q with (15 # 1).
  rewrite !(ratio_greater _ _ _ _ Hs).
  unfold Shape.level_of.
  destruct (Z.ltb_spec 0 (Shape.alpha_words doc)) as [Ht|Ht].
  - unfold Num.ratio.
    destruct (Z.eqb_spec (Shape.alpha_words doc) 0) as [H0|_]; [lia|].
    rewrite !(ratio_greater _ _ _ _ Ht).
    replace (20 * Shape.sentence_count doc <? Shape.word_tokens doc * 1)
      with (20 * Shape.sentence_count doc <? Shape.word_tokens doc)
      by (now rewrite Z.mul_1_r).
    replace (15 * Shape.sentence_count doc <? Shape.word_tokens doc * 1)
      with (15 * Shape.sentence_count doc <? Shape.word_tokens doc)
      by (now rewrite Z.mul_1_r).
    replace (2 * Shape.alpha_words doc <? Shape.complex_words doc * 10)
      with (2 * Shape.alpha_words doc <? 10 * Shape.complex_words doc)
      by (f_equal; lia).
    replace (3 * Shape.alpha_words doc <? Shape.complex_words doc * 10)
      with (3 * Shape.alpha_words doc <? 10 * Shape.complex_words doc)
      by (f_equal; lia).
    repeat match goal with
           | |- context [if ?c then Ok _ else _] => destruct c
           end; reflexivity.
  - replace (20 * Shape.sentence_count doc <? Shape.word_tokens doc * 1)
      with (20 * Shape.sentence_count doc <? Shape.word_tokens doc)
      by (now rewrite Z.mul_1_r).
    replace (15 * Shape.sentence_count doc <? Shape.word_tokens doc * 1)
      with (15 * Shape.sentence_count doc <? Shape.word_tokens doc)
      by (now rewrite Z.mul_1_r).
    destruct (Z.ltb_spec (3 * Shape.alpha_words doc) (10 * Shape.complex_words doc));
      [lia|].
    destruct (Z.ltb_spec (2 * Shape.alpha_words doc) (10 * Shape.complex_words doc));
      [lia|].
    cbv beta iota.
    change (Num.Qgtb 0 (3 # 10)) with false. change (Num.Qgtb 0 (2 # 10)) with false.
    repeat match goal with
           | |- context [if ?c then Ok _ else _] => destruct c
           end; reflexivity.
Qed.

Lemma level_of_monotone (n n' s c c' t : Z) :
  n <= n' -> c <= c' ->
  (Shape.rank (Shape.level_of n s c t) <= Shape.rank (Shape.level_of n' s c' t))%nat.
Proof.
  intros Hn Hc. unfold Shape.level_of.
  destruct (Z.ltb_spec (20 * s) n), (Z.ltb_spec (3 * t) (10 * c)),
    (Z.ltb_spec (15 * s) n), (Z.ltb_spec (2 * t) (10 * c)),
    (Z.ltb_spec (20 * s) n'), (Z.ltb_spec (3 * t) (10 * c')),
    (Z.ltb_spec (15 * s) n'), (Z.ltb_spec (2 * t) (10 * c'));
    unfold Shape.rank; simpl; lia.
Qed.

(** X3.  For a document with at least one sentence [_assess_difficulty]
    decides in whole numbers: "Advanced" when the tokens that are not
    punctuation exceed 20 per sentence or the words longer than 6
    letters exceed 3 in 10 of the alphabetic ones, otherwise
    "Intermediate" when they exceed 15 per sentence or 2 in 10, otherwise
    "Basic"; without alphabetic tokens only the sentence length counts. *)
Theorem assess_difficulty_thresholds (text : string) (doc : Doc) :
  nlp text = Ok doc -> sents doc <> [] ->
  _assess_difficulty nlp text
  = Ok (Shape.level_of (Shape.word_tokens doc) (Shape.sentence_count doc)
                       (Shape.complex_words doc) (Shape.alpha_words doc))
  /\ 0 <= Shape.complex_words doc <= Shape.alpha_words doc
  /\ (Shape.alpha_words doc = 0 ->
      _assess_difficulty nlp text
      = Ok (if 20 * Shape.sentence_count doc <? Shape.word_tokens doc then "Advanced"
            else if 15 * Shape.sentence_count doc <? Shape.word_tokens doc
                 then "Intermediate" else "Basic")).
Proof.
  intros Hdoc Hsents. pose proof (complex_words_bound doc) as Hbound.
  split; [now apply assess_difficulty_level|]. split; [exact Hbound|].
  intros Ht. rewrite (assess_difficulty_level text doc Hdoc Hsents).
  unfold Shape.level_of. rewrite Ht.
  destruct (Z.ltb_spec (3 * 0) (10 * Shape.complex_words doc)); [lia|].
  destruct (Z.ltb_spec (2 * 0) (10 * Shape.complex_words doc)); [lia|].
  now rewrite !orb_false_r.
Qed.

(** X4.  The level never falls when, for the same number of sentences and of
    alphabetic words, a document has more tokens and more long words. *)
Theorem assess_difficulty_monotone (text text' : string) (doc doc' : Doc)
    (level level' : string) :
  nlp text = Ok doc -> nlp text' = Ok doc' ->
  Shape.sentence_count doc = Shape.sentence_count doc' ->
  Shape.alpha_words doc = Shape.alpha_words doc' ->
  Shape.word_tokens doc <= Shape.word_tokens doc' ->
  Shape.complex_words doc <= Shape.complex_words doc' ->
  _assess_difficulty nlp text = Ok level ->
  _assess_difficulty nlp text' = Ok level' ->
  (Shape.rank level <= Shape.rank level')%nat.
Proof.
  intros Hdoc Hdoc' Hs Ht Hn Hc Hlevel Hlevel'.
  assert (Hne : sents doc <> []).
  { intros Hempty. rewrite (assess_difficulty_no_sentence nlp text doc Hdoc Hempty) in Hlevel.
    discriminate. }
  assert (Hne' : sents doc' <> []).
  { intros Hempty.
    rewrite (assess_difficulty_no_sentence nlp text' doc' Hdoc' Hempty) in Hlevel'.
    discriminate. }
  rewrite (assess_difficulty_level text doc Hdoc Hne) in Hlevel.
  rewrite (assess_difficulty_level text' doc' Hdoc' Hne') in Hlevel'.
  injection Hlevel as <-. injection Hlevel' as <-.
  rewrite <- Hs, <- Ht. now apply level_of_monotone.
Qed.

End Levels.

(** ** The analysis record *)

Section AnalysisRecord.

Import ContentAnalyzer.

Lemma NoDup_map_filter_any {A B : Type} (f : A -> B) (keep : A -> bool) (l : list A) :
  List.NoDup (map f l) -> List.NoDup (map f (List.filter keep l)).
Proof.
  induction l as [|x l IH]; simpl; intros Hnd; [constructor|].
  inversion Hnd as [|? ? Hnotin Hnd']; subst.
  destruct (keep x); simpl; [|now apply IH].
  constructor; [|now apply IH].
  intros Hin. apply Hnotin. apply in_map_iff in Hin as (e & <- & He).
  apply filter_In in He as [He _]. now apply in_map.
Qed.

Lemma calculate_readability_in_unit (text : string) (score : Num.num) :
  _calculate_readability text = Ok score -> Num.in_unit_interval score = true.
Proof.
  destruct text as [|c text].
  - intros H. injection H as <-. reflexivity.
  - destruct (calculate_readability_formula (String c text)) as (avg & q & _ & _ & Hrun);
      [discriminate|].
    rewrite Hrun. intros H. injection H as <-. apply clamp_round_in_unit.
Qed.

Lemma suggest_quiz_count_values (text : string) :
  In (_suggest_quiz_count text) [3; 5; 8; 10].
Proof.
  unfold _suggest_quiz_count.
  repeat match goal with
         | |- context [if ?c then _ else _] => destruct c
         end; simpl; tauto.
Qed.

Variable nlp : string -> result Doc.

(** What a successful [analyze] went through. *)
Lemma analyze_fields (parsed_document : ParsedDocument) (analysis : Analysis) :
  analyze nlp parsed_document = Ok analysis ->
  exists doc concepts level score,
    nlp (text parsed_document) = Ok doc
    /\ sents doc <> []
    /\ _extract_key_concepts nlp (text parsed_document) = Ok concepts
    /\ _assess_difficulty nlp (text parsed_document) = Ok level
    /\ _calculate_readability (text parsed_document) = Ok score
    /\ analysis
       = {| key_concepts := concepts;
            difficulty_level := level;
            topics := scan_topics (Py.lower (text parsed_document)) topic_keywords;
            section_analysis := _analyze_sections (default [] (sections parsed_document));
            readability_score := score;
            suggested_quiz_count := _suggest_quiz_count (text parsed_document) |}.
Proof.
  intros Hrun. unfold analyze in Hrun.
  destruct (nlp (text parsed_document)) as [doc|e] eqn:Hdoc.
  - destruct (extract_key_concepts_runs nlp _ _ Hdoc) as [concepts Hconcepts].
    destruct (sents doc) as [|sentence rest] eqn:Hsents.
    + rewrite Hconcepts in Hrun.
      rewrite (assess_difficulty_no_sentence nlp _ doc Hdoc Hsents) in Hrun.
      discriminate Hrun.
    + assert (Hne : sents doc <> []) by (rewrite Hsents; discriminate).
      destruct (assess_difficulty_some_sentence nlp _ _ Hdoc Hne) as (level & Hlevel & _).
      destruct (calculate_readability_runs (text parsed_document)) as [score Hscore].
      rewrite Hconcepts, Hlevel, Hscore in Hrun.
      unfold _identify_topics in Hrun. rewrite Hdoc in Hrun.
      injection Hrun as <-.
      exists doc, concepts, level, score. repeat split; assumption.
  - unfold _extract_key_concepts in Hrun. rewrite Hdoc in Hrun. discriminate Hrun.
Qed.

(** X5.  [analyze] fails in exactly two ways: with the exception of the NLP
    collaborator, or with [ZeroDivisionError] when the collaborator
    returns a document without sentences. *)
Theorem analyze_failures (parsed_document : ParsedDocument) (e : exn) :
  analyze nlp parsed_document = Raise e
  <-> nlp (text parsed_document) = Raise e
      \/ (exists doc,
             nlp (text parsed_document) = Ok doc
             /\ sents doc = [] /\ e = ZeroDivisionError).
Proof.
  split.
  - intros Hrun. destruct (nlp (text parsed_document)) as [doc|e'] eqn:Hdoc.
    + right. exists doc. split; [reflexivity|].
      destruct (sents doc) as [|sentence rest] eqn:Hsents.
      * split; [reflexivity|]. unfold analyze in Hrun.
        destruct (extract_key_concepts_runs nlp _ _ Hdoc) as [concepts Hconcepts].
        rewrite Hconcepts in Hrun.
        rewrite (assess_difficulty_no_sentence nlp _ doc Hdoc Hsents) in Hrun.
        now injection Hrun as <-.
      * assert (Hne : sents doc <> []) by (rewrite Hsents; discriminate).
        destruct (analyze_runs_with_sentences nlp parsed_document doc Hdoc Hne)
          as [analysis Hok].
        rewrite Hok in Hrun. discriminate Hrun.
    + left. unfold analyze, _extract_key_concepts in Hrun. rewrite Hdoc in Hrun.
      unfold mbind, result_bind in Hrun. now injection Hrun as <-.
  - intros [Hraise|(doc & Hdoc & Hsents & ->)].
    + unfold analyze, _extract_key_concepts. rewrite Hraise. reflexivity.
    + unfold analyze.
      destruct (extract_key_concepts_runs nlp _ _ Hdoc) as [concepts Hconcepts].
      rewrite Hconcepts.
      now rewrite (assess_difficulty_no_sentence nlp _ doc Hdoc Hsents).
Qed.

(** X6.  Every analysis [analyze] returns is well formed: the difficulty is
    one of the three levels, the readability lies in [0,1], the suggested
    quiz count is 3, 5, 8 or 10, there are at most 20 key concepts and no
    more section summaries than sections, and the topics are distinct
    titles of the dictionary. *)
Theorem analyze_well_formed (parsed_document : ParsedDocument) (analysis : Analysis) :
  analyze nlp parsed_document = Ok analysis ->
  In (difficulty_level analysis) ["Basic"; "Intermediate"; "Advanced"]
  /\ Num.in_unit_interval (readability_score analysis) = true
  /\ In (suggested_quiz_count analysis) [3; 5; 8; 10]
  /\ (length (key_concepts analysis) <= 20)%nat
  /\ (length (section_analysis analysis)
      <= length (default [] (sections parsed_document)))%nat
  /\ List.NoDup (topics analysis)
  /\ (forall topic,
         In topic (topics analysis) ->
         In topic ["Biology"; "Chemistry"; "Physics"; "Mathematics"; "History";
                   "Literature"]).
Proof.
  intros Hrun.
  destruct (analyze_fields parsed_document analysis Hrun)
    as (doc & concepts & level & score & Hdoc & Hne & Hconcepts & Hlevel & Hscore & ->).
  cbn [difficulty_level readability_score suggested_quiz_count key_concepts
       section_analysis topics].
  split.
  { destruct (assess_difficulty_some_sentence nlp _ _ Hdoc Hne) as (level' & Hlevel' & Hin).
    rewrite Hlevel in Hlevel'. now injection Hlevel' as <-. }
  split; [now apply (calculate_readability_in_unit (text parsed_document))|].
  split; [apply suggest_quiz_count_values|].
  split.
  { rewrite (key_concepts_as_filter nlp _ doc Hdoc) in Hconcepts.
    injection Hconcepts as <-. rewrite length_map.
    etransitivity; [apply filter_length_le|]. unfold most_common. apply firstn_le_length. }
  split.
  { rewrite analyze_sections_as_filter, length_map. apply filter_length_le. }
  rewrite scan_topics_filter. split.
  - apply NoDup_map_filter_any. apply topic_titles_distinct.
  - intros topic Hin. apply in_map_iff in Hin as (entry & <- & Hentry).
    apply filter_In in Hentry as [Hentry _].
    simpl in Hentry.
    repeat (destruct Hentry as [<-|Hentry]; [simpl; tauto|]). contradiction.
Qed.

End AnalysisRecord.

(** ** Validation of arbitrary responses *)

Section ValidationOutcome.

Import LLMGenerator.

Ltac run := unfold mbind, result_bind, and_then; simpl.

Lemma well_formed_not_record (q : pyval) :
  Shape.is_record q = false -> well_formed q = Raise AttributeError.
Proof. destruct q; try discriminate; reflexivity. Qed.

Lemma validate_loop_outcome (items : list pyval) :
  forall acc,
    validate_loop items acc
    = if forallb Shape.is_record items
      then Ok (acc ++ map Spec.kept_record
                          (List.filter Spec.acceptsb (Shape.records_of items)))
      else Raise AttributeError.
Proof.
  induction items as [|q items IH]; intros acc; simpl.
  - now rewrite app_nil_r.
  - destruct q as [| | | | |l|fields];
      try (rewrite well_formed_not_record by reflexivity; reflexivity).
    cbn [Shape.is_record Shape.records_of andb].
    rewrite well_formed_dict. run.
    destruct (Spec.acceptsb fields) eqn:Hq.
    + rewrite (cleaned_dict fields Hq). simpl. rewrite IH.
      destruct (forallb Shape.is_record items); [|reflexivity].
      now rewrite <- app_assoc.
    + apply IH.
Qed.

Lemma validate_loop_strings (keys : list string) (acc : list (gmap string pyval)) :
  validate_loop (map PyStr keys) acc
  = match keys with [] => Ok acc | _ => Raise AttributeError end.
Proof. destruct keys; reflexivity. Qed.

Lemma chars_as_strings (s : string) :
  exists keys, chars s = map PyStr keys /\ (keys = [] <-> s = "").
Proof.
  induction s as [|c s (keys & Hkeys & _)]; simpl.
  - exists []. split; [reflexivity|tauto].
  - exists (String c "" :: keys). rewrite Hkeys. split; [reflexivity|].
    split; discriminate.
Qed.

(** X7.  The outcome of [_validate_quiz] on every parsed response.  A list
    of records gives the kept records; a list with an item that is not
    a record raises [AttributeError], whatever records precede it; an
    object or a string raises it too unless it is empty, in which case
    the result is the empty quiz; any other value raises [TypeError]. *)
Theorem validate_quiz_outcome :
  (forall items,
      _validate_quiz (PyList items)
      = if forallb Shape.is_record items
        then Ok (map Spec.kept_record
                     (List.filter Spec.acceptsb (Shape.records_of items)))
        else Raise AttributeError)
  /\ (forall fields : gmap string pyval,
         _validate_quiz (PyDict fields)
         = if decide (fields = ∅) then Ok [] else Raise AttributeError)
  /\ (forall s,
         _validate_quiz (PyStr s)
         = match s with EmptyString => Ok [] | _ => Raise AttributeError end)
  /\ _validate_quiz PyNone = Raise TypeError
  /\ (forall b, _validate_quiz (PyBool b) = Raise TypeError)
  /\ (forall z, _validate_quiz (PyInt z) = Raise TypeError)
  /\ (forall f, _validate_quiz (PyFloat f) = Raise TypeError).
Proof.
  split; [|split; [|split]].
  - intros items. unfold _validate_quiz. simpl. run.
    now rewrite validate_loop_outcome.
  - intros fields. unfold _validate_quiz. simpl. run.
    change (PyStr <$> (map_to_list fields).*1) with (map PyStr (map_to_list fields).*1).
    rewrite validate_loop_strings.
    destruct (decide (fields = ∅)) as [->|Hne].
    + now rewrite map_to_list_empty.
    + destruct (map_to_list fields) as [|entry rest] eqn:Hlist; [|reflexivity].
      apply map_to_list_empty_iff in Hlist. contradiction.
  - intros s. unfold _validate_quiz. simpl. run.
    destruct s; reflexivity.
  - repeat split; reflexivity.
Qed.

Lemma kept_record_lookups (q : gmap string pyval) :
  Spec.kept_record q !! "question" = Some (default PyNone (q !! "question"))
  /\ Spec.kept_record q !! "options" = Some (default PyNone (q !! "options"))
  /\ Spec.kept_record q !! "correct_answer"
     = Some (default PyNone (q !! "correct_answer"))
  /\ Spec.kept_record q !! "explanation" = Some (default (PyStr "") (q !! "explanation"))
  /\ Spec.kept_record q !! "difficulty"
     = Some (default (PyStr "Intermediate") (q !! "difficulty"))
  /\ Spec.kept_record q !! "concept" = Some (default (PyStr "General") (q !! "concept")).
Proof. unfold Spec.kept_record. repeat split; by simplify_map_eq. Qed.

Lemma kept_record_idempotent (q : gmap string pyval) :
  Spec.kept_record (Spec.kept_record q) = Spec.kept_record q.
Proof.
  destruct (kept_record_lookups q) as (H1 & H2 & H3 & H4 & H5 & H6).
  unfold Spec.kept_record at 1. rewrite H1, H2, H3, H4, H5, H6. reflexivity.
Qed.

Lemma kept_record_accepted (q : gmap string pyval) :
  Spec.acceptsb q = true -> Spec.acceptsb (Spec.kept_record q) = true.
Proof.
  destruct (kept_record_lookups q) as (H1 & H2 & H3 & _).
  unfold Spec.acceptsb at 2. rewrite H1, H2, H3. unfold Spec.acceptsb.
  destruct (q !! "question") as [[]|]; try discriminate;
    destruct (q !! "options") as [[]|]; try discriminate;
    destruct (q !! "correct_answer") as [[]|]; try discriminate; trivial.
Qed.

(** What [_validate_quiz] returns consists of kept records. *)
Lemma validate_quiz_kept (quiz_data : pyval) (out : list (gmap string pyval)) :
  _validate_quiz quiz_data = Ok out ->
  exists records,
    out = map Spec.kept_record records
    /\ Forall (fun q => Spec.acceptsb q = true) records.
Proof.
  unfold _validate_quiz. destruct quiz_data as [|b|z|f|s|items|fields]; simpl;
    try discriminate; run; intros Hrun.
  - destruct (chars_as_strings s) as (keys & Hkeys & _).
    rewrite Hkeys, validate_loop_strings in Hrun. destruct keys; [|discriminate].
    injection Hrun as <-. exists []. split; [reflexivity|constructor].
  - rewrite validate_loop_outcome in Hrun.
    destruct (forallb Shape.is_record items); [|discriminate].
    injection Hrun as <-. eexists. split; [reflexivity|].
    apply List.Forall_forall. intros q Hq. now apply filter_In in Hq as [_ Hq].
  - change (PyStr <$> (map_to_list fields).*1)
      with (map PyStr (map_to_list fields).*1) in Hrun.
    rewrite validate_loop_strings in Hrun.
    destruct ((map_to_list fields).*1); [|discriminate].
    injection Hrun as <-. exists []. split; [reflexivity|constructor].
Qed.

End ValidationOutcome.

(** ** What the generators return *)

Section Generated.

Import LLMGenerator.

(** X8.  Validating the result of a validation changes nothing: the kept
    records pass the check again and already carry every key. *)
Theorem validate_quiz_idempotent (quiz_data : pyval) (out : list (gmap string pyval)) :
  _validate_quiz quiz_data = Ok out ->
  _validate_quiz (PyList (map PyDict out)) = Ok out.
Proof.
  intros Hrun. destruct (validate_quiz_kept quiz_data out Hrun) as (records & -> & Hall).
  unfold _validate_quiz. simpl. unfold mbind, result_bind.
  rewrite validate_loop_dicts. rewrite app_nil_l. f_equal. clear Hrun.
  induction Hall as [|q records Hq Hall IH]; [reflexivity|].
  cbn [map List.filter]. rewrite (kept_record_accepted q Hq).
  cbn [map]. now rewrite kept_record_idempotent, IH.
Qed.

Lemma kept_record_keys (q : gmap string pyval) (key : string) :
  In key Shape.quiz_keys -> is_Some (Spec.kept_record q !! key).
Proof.
  destruct (kept_record_lookups q) as (H1 & H2 & H3 & H4 & H5 & H6).
  unfold Shape.quiz_keys. simpl.
  intros [<-|[<-|[<-|[<-|[<-|[<-|[]]]]]]]; unfold is_Some; eauto.
Qed.

Variable chat : prompt -> result string.
Variable json_loads : string -> result pyval.

(** X9.  Whatever the model answers, every item [generate_quiz] returns is a
    well-formed quiz item: it passes the structural check of
    [_validate_quiz] and has all six keys. *)
Theorem generate_quiz_items_well_formed (content : string)
    (analysis : ContentAnalyzer.Analysis) (item : gmap string pyval) :
  In item (generate_quiz chat json_loads content analysis) ->
  Spec.accepts item
  /\ forall key, In key Shape.quiz_keys -> is_Some (item !! key).
Proof.
  unfold generate_quiz, try_except, mbind, result_bind.
  destruct (chat (quiz_prompt content analysis)) as [response|e].
  - destruct (json_loads response) as [quiz_data|e].
    + destruct (_validate_quiz quiz_data) as [out|e] eqn:Hrun.
      * destruct (validate_quiz_kept quiz_data out Hrun) as (records & -> & Hall).
        intros Hin. apply in_map_iff in Hin as (q & <- & Hq).
        rewrite List.Forall_forall in Hall. split.
        -- apply acceptsb_accepts. apply kept_record_accepted. now apply Hall.
        -- apply kept_record_keys.
      * intros [<-|[]]. split.
        -- apply acceptsb_accepts. vm_compute. reflexivity.
        -- intros key Hkey. unfold Shape.quiz_keys in Hkey. simpl in Hkey.
           destruct Hkey as [<-|[<-|[<-|[<-|[<-|[<-|[]]]]]]]; by simplify_map_eq.
    + intros [<-|[]]. split.
      * apply acceptsb_accepts. vm_compute. reflexivity.
      * intros key Hkey. unfold Shape.quiz_keys in Hkey. simpl in Hkey.
        destruct Hkey as [<-|[<-|[<-|[<-|[<-|[<-|[]]]]]]]; by simplify_map_eq.
  - intros [<-|[]]. split.
    + apply acceptsb_accepts. vm_compute. reflexivity.
    + intros key Hkey. unfold Shape.quiz_keys in Hkey. simpl in Hkey.
      destruct Hkey as [<-|[<-|[<-|[<-|[<-|[<-|[]]]]]]]; by simplify_map_eq.
Qed.


(** X11.  When the request or the parsing fails, [generate_mindmap_data]
    returns the fallback map: the central topic ['Document Content'] and
    one branch for each of the first three key concepts, in their order,
    each with the single child ['Details']; a response that parses is
    returned as parsed. *)
Theorem generate_mindmap_fallback (content : string) (analysis : ContentAnalyzer.Analysis) :
  (Shape.mindmap_generation_fails chat json_loads content analysis ->
   exists branches,
     generate_mindmap_data chat json_loads content analysis
     = PyDict {[ "central_topic" := PyStr "Document Content";
                 "branches" := PyList branches ]}
     /\ length branches
        = Nat.min 3 (length (ContentAnalyzer.key_concepts analysis))
     /\ forall i c,
          (i < 3)%nat ->
          nth_error (ContentAnalyzer.key_concepts analysis) i = Some c ->
          nth_error branches i = Some (Shape.branch_of c))
  /\ (forall response mindmap,
         chat (mindmap_prompt content analysis) = Ok response ->
         json_loads response = Ok mindmap ->
         generate_mindmap_data chat json_loads content analysis = mindmap).
Proof.
  unfold generate_mindmap_data, try_except, mbind, result_bind. split.
  - intros Hfail.
    exists (map Shape.branch_of (firstn 3 (ContentAnalyzer.key_concepts analysis))).
    split; [|split].
    + destruct Hfail as [[e He]|(r & e & Hr & He)].
      * now rewrite He.
      * now rewrite Hr, He.
    + now rewrite length_map, length_firstn.
    + intros i c Hi Hc. rewrite nth_error_map, nth_error_firstn.
      destruct (Nat.ltb_spec i 3) as [_|Hge]; [|lia]. now rewrite Hc.
  - intros r v Hr Hv. now rewrite Hr, Hv.
Qed.

End Generated.

(** ** Suggestions, milestones and time estimates *)

Section Suggestions.

Import LearningOrchestrator.

Lemma incorrect_concepts_length (results : list QuestionResult) :
  length
    (fold_left
       (fun incorrect_concepts result =>
          if negb (is_correct result)
          then incorrect_concepts ++ ["concept_placeholder"]
          else incorrect_concepts)
       results [])
  = Shape.wrong_answers results.
Proof.
  rewrite (fold_left_append (fun result => negb (is_correct result))
             (fun _ => "concept_placeholder")).
  simpl. now rewrite length_map.
Qed.

Lemma half_exceeded (k n : nat) :
  Num.Qgtb (inject_Z (Z.of_nat k)) (inject_Z (Z.of_nat n) * (1 # 2))
  = (Z.of_nat n <? 2 * Z.of_nat k).
Proof.
  unfold Num.Qgtb, Qle_bool, Qmult, inject_Z. simpl.
  change (Z.pos (1 * 2)) with 2.
  destruct (Z.leb_spec (Z.of_nat k * 2) (Z.of_nat n * 1 * 1));
    destruct (Z.ltb_spec (Z.of_nat n) (2 * Z.of_nat k)); simpl; try reflexivity; lia.
Qed.


(** X12.  [_generate_improvement_suggestions] returns one of three lists,
    chosen by the number [k] of wrong answers among the [n] graded ones:
    all three suggestions when [2k > n], the last two when [0 < 2k <= n],
    and only the generic one when no graded answer is wrong.  The list
    always ends with the generic suggestion. *)
Theorem improvement_suggestions_cases (results : list QuestionResult) :
  let k := Z.of_nat (Shape.wrong_answers results) in
  let n := Z.of_nat (length results) in
  (n < 2 * k ->
   _generate_improvement_suggestions results
   = [Shape.review_basics; Shape.focus_on_understanding; Shape.own_examples])
  /\ (0 < k -> 2 * k <= n ->
      _generate_improvement_suggestions results
      = [Shape.focus_on_understanding; Shape.own_examples])
  /\ (k = 0 -> _generate_improvement_suggestions results = [Shape.own_examples])
  /\ (1 <= length (_generate_improvement_suggestions results) <= 3)%nat
  /\ last (_generate_improvement_suggestions results) = Some Shape.own_examples.
Proof.
  intros k n. unfold _generate_improvement_suggestions.
  rewrite incorrect_concepts_length, half_exceeded. fold k n.
  destruct (Z.ltb_spec n (2 * k)) as [Hhalf|Hhalf];
    destruct (Z.ltb_spec 0 k) as [Hpos|Hpos]; simpl;
    repeat split; intros; try reflexivity; try lia.
Qed.


Variable get_quiz_questions : string -> list Question.
Variable get_next_review_time : list update -> string -> string -> Z.


End Suggestions.

Section FullMarks.

Import LearningOrchestrator.



Variable get_quiz_questions : string -> list Question.
Variable get_next_review_time : list update -> string -> string -> Z.


End FullMarks.

Section Milestones.

Import LearningOrchestrator.


End Milestones.

Section Estimates.

Import ContentAnalyzer LearningOrchestrator.

Lemma estimate_for_counts :
  forallb
    (fun multiplier : float * Z =>
       forallb
         (fun count =>
            match Num.to_int
                    (Num.add (Num.mul (Num.Int 10) (Num.Float (fst multiplier)))
                             (Num.mul (Num.Int count) (Num.Int 2))) with
            | Some minutes => minutes =? snd multiplier + 2 * count
            | None => false
            end)
         (map Z.of_nat (seq 0 1001)))
    [(1.0%float, 10); (1.3%float, 13); (1.6%float, 16)]
  = true.
Proof. vm_compute. reflexivity. Qed.

Lemma estimate_value (difficulty : string) (count : Z) :
  0 <= count <= 1000 ->
  Num.to_int
    (Num.add (Num.mul (Num.Int 10) (Num.Float (difficulty_multiplier difficulty)))
             (Num.mul (Num.Int count) (Num.Int 2)))
  = Some (Shape.base_minutes difficulty + 2 * count).
Proof.
  intros Hcount. pose proof estimate_for_counts as Hall.
  rewrite forallb_forall in Hall.
  assert (Hin : In count (map Z.of_nat (seq 0 1001))).
  { apply in_map_iff. exists (Z.to_nat count). split; [lia|]. apply in_seq. lia. }
  assert (Hcase : forall m b,
             In (m, b) [(1.0%float, 10); (1.3%float, 13); (1.6%float, 16)] ->
             Num.to_int (Num.add (Num.mul (Num.Int 10) (Num.Float m))
                                 (Num.mul (Num.Int count) (Num.Int 2)))
             = Some (b + 2 * count)).
  { intros m b Hmb. specialize (Hall (m, b) Hmb). rewrite forallb_forall in Hall.
    specialize (Hall count Hin). cbn [fst snd] in Hall.
    destruct (Num.to_int _) as [minutes|]; [|discriminate].
    apply Z.eqb_eq in Hall. now rewrite Hall. }
  unfold difficulty_multiplier, Shape.base_minutes.
  destruct (String.eqb_spec difficulty "Basic") as [->|_].
  { apply Hcase. simpl. tauto. }
  destruct (String.eqb_spec difficulty "Intermediate") as [->|_].
  { apply Hcase. simpl. tauto. }
  destruct (String.eqb_spec difficulty "Advanced") as [->|_];
    apply Hcase; simpl; tauto.
Qed.

Variable nlp : string -> result Doc.

(** X16.  For every analysis that [analyze] returns,
    [_estimate_completion_time] is 10, 13 or 16 minutes for Basic,
    Intermediate or Advanced plus 2 minutes for each suggested question:
    between 16 and 36 minutes.  The same sum holds for any difficulty
    string (an unknown one counts as Basic) and up to 1000 questions. *)
Theorem estimate_completion_time_of_analysis (parsed_document : ParsedDocument)
    (analysis : Analysis) :
  (analyze nlp parsed_document = Ok analysis ->
   exists minutes,
     _estimate_completion_time analysis = Some minutes
     /\ minutes = Shape.base_minutes (difficulty_level analysis)
                  + 2 * suggested_quiz_count analysis
     /\ 16 <= minutes <= 36)
  /\ (0 <= suggested_quiz_count analysis <= 1000 ->
      _estimate_completion_time analysis
      = Some (Shape.base_minutes (difficulty_level analysis)
              + 2 * suggested_quiz_count analysis)).
Proof.
  split.
  - intros Hrun.
    destruct (analyze_fields nlp parsed_document analysis Hrun)
      as (doc & concepts & level & score & Hdoc & Hne & _ & Hlevel & _ & ->).
    destruct (assess_difficulty_some_sentence nlp _ _ Hdoc Hne) as (level' & Hlevel' & Hin).
    rewrite Hlevel in Hlevel'. injection Hlevel' as <-.
    pose proof (suggest_quiz_count_values (text parsed_document)) as Hcount.
    unfold _estimate_completion_time.
    cbn [difficulty_level suggested_quiz_count].
    eexists. split; [apply estimate_value|split; [reflexivity|]].
    + simpl in Hcount. destruct Hcount as [<-|[<-|[<-|[<-|[]]]]]; lia.
    + simpl in Hin, Hcount.
      destruct Hin as [<-|[<-|[<-|[]]]];
        destruct Hcount as [<-|[<-|[<-|[<-|[]]]]]; vm_compute; split; discriminate.
  - intros Hcount. unfold _estimate_completion_time. now apply estimate_value.
Qed.

End Estimates.

Section Plans.

Import LearningOrchestrator.

Variable get_user_progress : string -> gmap string Z.
Variable get_due_items : string -> list string.
Variable get_weak_areas : string -> list string.

(** X17.  [get_learning_plan] hands on the due reviews and the weak areas as
    the collaborators give them, recommends one session for each of the
    first three weak areas, in their order and all under the same
    session id, and reads a missing ['daily_progress'] or ['streak'] as
    0. *)
Theorem get_learning_plan_recommendations (user_id : string) :
  let plan := get_learning_plan get_user_progress get_due_items get_weak_areas user_id in
  due_reviews plan = get_due_items user_id
  /\ weak_areas plan = get_weak_areas user_id
  /\ length (recommended_sessions plan) = Nat.min 3 (length (get_weak_areas user_id))
  /\ (forall i area,
         (i < 3)%nat ->
         nth_error (get_weak_areas user_id) i = Some area ->
         exists session,
           nth_error (recommended_sessions plan) i = Some session
           /\ session_title session = ("Review: " ++ area)%string)
  /\ (forall session,
         In session (recommended_sessions plan) ->
         session_id session = "session_123"
         /\ estimated_time session = 15 /\ priority session = "high")
  /\ (get_user_progress user_id !! "daily_progress" = None -> daily_goal_progress plan = 0)
  /\ (get_user_progress user_id !! "streak" = None -> streak plan = 0).
Proof.
  intros plan. unfold plan, get_learning_plan, _get_recommended_sessions.
  cbn [due_reviews weak_areas recommended_sessions daily_goal_progress streak].
  split; [reflexivity|]. split; [reflexivity|]. split; [|split; [|split; [|split]]].
  - now rewrite length_map, length_firstn.
  - intros i area Hi Harea.
    rewrite nth_error_map, nth_error_firstn.
    destruct (Nat.ltb_spec i 3) as [_|Hge]; [|lia]. rewrite Harea.
    eexists. split; reflexivity.
  - intros session Hin. apply in_map_iff in Hin as (area & <- & _). now repeat split.
  - intros Hnone. now rewrite Hnone.
  - intros Hnone. now rewrite Hnone.
Qed.

End Plans.

(** ** Parsing documents *)

Section ParserLines.

Import DocumentParser.

Lemma append_assoc (a b c : string) : ((a ++ b) ++ c = a ++ b ++ c)%string.
Proof.
  induction a as [|x a IH]; [reflexivity|].
  change (String x ((a ++ b) ++ c) = String x (a ++ b ++ c))%string. now rewrite IH.
Qed.

Lemma append_empty (a : string) : (a ++ "" = a)%string.
Proof.
  induction a as [|x a IH]; [reflexivity|].
  change (String x (a ++ "") = String x a)%string. now rewrite IH.
Qed.

Lemma has_char_app (p : ascii -> bool) (a b : string) :
  Py.has_char p (a ++ b)%string = Py.has_char p a || Py.has_char p b.
Proof.
  induction a as [|c a IH]; [reflexivity|]. simpl. rewrite IH. now rewrite orb_assoc.
Qed.

Lemma has_char_lstrip (p : ascii -> bool) (s : string) :
  Py.has_char p s = false -> Py.has_char p (Py.lstrip s) = false.
Proof.
  induction s as [|c s IH]; [reflexivity|]. simpl. intros H.
  apply orb_false_elim in H as [Hc Hs].
  destruct (Py.isspace c); [now apply IH|]. simpl. now rewrite Hc, Hs.
Qed.

Lemma has_char_rstrip (p : ascii -> bool) (s : string) :
  Py.has_char p s = false -> Py.has_char p (Py.rstrip s) = false.
Proof.
  induction s as [|c s IH]; [reflexivity|]. simpl. intros H.
  apply orb_false_elim in H as [Hc Hs]. specialize (IH Hs).
  destruct (Py.rstrip s) as [|d r].
  - destruct (Py.isspace c); [reflexivity|]. simpl. now rewrite Hc.
  - simpl. simpl in IH. now rewrite Hc, IH.
Qed.

Lemma one_line_strip (s : string) :
  Shape.one_line s = true -> Shape.one_line (Py.strip s) = true.
Proof.
  unfold Shape.one_line, Py.strip. intros H. apply negb_true_iff in H.
  apply negb_true_iff. now apply has_char_rstrip, has_char_lstrip.
Qed.

Lemma one_line_app (a b : string) :
  Shape.one_line (a ++ b)%string = Shape.one_line a && Shape.one_line b.
Proof. unfold Shape.one_line. rewrite has_char_app. now rewrite negb_orb. Qed.

Lemma split_on_one_line (s : string) :
  Forall (fun piece => Shape.one_line piece = true) (Py.split_on newline s).
Proof.
  unfold Py.split_on.
  assert (H : Shape.one_line (fst (Py.split_on_go newline s)) = true
              /\ Forall (fun piece => Shape.one_line piece = true)
                        (snd (Py.split_on_go newline s))).
  { induction s as [|c s [IH1 IH2]]; [split; [reflexivity|constructor]|].
    simpl. destruct (Py.split_on_go newline s) as [piece pieces]. simpl in *.
    destruct (Ascii.eqb c newline) eqn:Hc; simpl.
    - split; [reflexivity|]. now constructor.
    - split; [|assumption]. unfold Shape.one_line in *. simpl. now rewrite Hc. }
  destruct (Py.split_on_go newline s) as [piece pieces]. simpl in H.
  destruct H. now constructor.
Qed.


Lemma title_of_section_dict (title content : string) :
  Shape.title_of (section_dict title content) = title.
Proof. reflexivity. Qed.

Lemma content_of_section_dict (title content : string) :
  Shape.content_of (section_dict title content) = content.
Proof. reflexivity. Qed.

Lemma truthy_strip_one_line (line : string) :
  Shape.one_line line = true -> Py.truthy (Py.strip line) = true ->
  Py.truthy (Py.strip line) = true /\ Shape.one_line (Py.strip line) = true.
Proof. intros H1 H2. split; [assumption|now apply one_line_strip]. Qed.

Lemma flush_extracting (sections : list (gmap string string)) (title content line : string) :
  Shape.extracting (sections, (title, content)) ->
  Py.truthy line = true -> Shape.one_line line = true -> is_header line = true ->
  Shape.extracting (flush sections (title, content), (line, "")).
Proof.
  intros (Hsecs & Htail & Htitle & Hline & Hbody & Hfirst) Hink Hone Hhead.
  simpl in *. unfold flush. simpl.
  destruct content as [|c content]; simpl.
  - repeat split; try assumption; auto.
  - repeat split; auto.
    + apply Forall_app. split; [assumption|]. constructor; [|constructor].
      exists title, (String c content). split; [reflexivity|]. split; [assumption|].
      split; [assumption|]. destruct Hbody as [Hbody|Hbody]; [discriminate|assumption].
    + destruct Hfirst as [Hfirst| ->]; [|constructor].
      destruct sections as [|first others]; [constructor|]. simpl in *.
      apply Forall_app. split; [assumption|]. constructor; [|constructor].
      now rewrite title_of_section_dict.
Qed.

Lemma section_step_extracting (state : list (gmap string string) * (string * string))
    (line : string) :
  Shape.one_line line = true -> Shape.extracting state -> Shape.extracting (section_step state line).
Proof.
  intros Hone Hinv. destruct state as [sections [title content]].
  unfold section_step.
  destruct (Py.truthy (Py.strip line)) eqn:Hink; simpl; [|assumption].
  pose proof (one_line_strip line Hone) as Hone'.
  destruct (is_header (Py.strip line)) eqn:Hhead.
  - now apply flush_extracting.
  - destruct Hinv as (Hsecs & Htail & Htitle & Hline & Hbody & Hfirst). simpl in *.
    unfold Shape.extracting. simpl. repeat split; try assumption; try apply Htitle.
    + rewrite !one_line_app, Hline, Hone'. reflexivity.
    + right. exists (content ++ Py.strip line)%string. now rewrite append_assoc.
Qed.

Lemma section_fold_extracting (lines : list string)
    (state : list (gmap string string) * (string * string)) :
  Forall (fun line => Shape.one_line line = true) lines ->
  Shape.extracting state -> Shape.extracting (fold_left section_step lines state).
Proof.
  intros Hlines. revert state.
  induction Hlines as [|line lines Hline _ IH]; intros state Hinv; [assumption|].
  simpl. apply IH. now apply section_step_extracting.
Qed.

(** X18.  Every section that [_extract_sections] returns has a title and a
    content on one line each; the title is not empty and is
    ['Introduction'] or a header line, the content ends with a space, so
    it is not empty; and every section but the first is titled by a
    header line. *)
Theorem extract_sections_well_formed (text : string) :
  Forall Shape.extracted (_extract_sections text)
  /\ Forall (fun section => is_header (Shape.title_of section) = true)
            (tail (_extract_sections text)).
Proof.
  unfold _extract_sections.
  pose proof (section_fold_extracting (Py.split_on newline text) ([], ("Introduction", ""))
                (split_on_one_line text)) as Hinv.
  destruct (fold_left section_step _ _) as [sections [title content]].
  assert (Hstart : Shape.extracting ([], ("Introduction", ""))).
  { repeat split; simpl; auto. }
  specialize (Hinv Hstart).
  destruct Hinv as (Hsecs & Htail & Htitle & Hline & Hbody & Hfirst). simpl in *.
  unfold flush. simpl. destruct content as [|c content]; simpl; [now split|].
  split.
  - apply Forall_app. split; [assumption|]. constructor; [|constructor].
    exists title, (String c content). split; [reflexivity|]. split; [assumption|].
    split; [assumption|]. destruct Hbody as [Hbody|Hbody]; [discriminate|assumption].
  - destruct sections as [|first others]; [constructor|]. simpl in *.
    apply Forall_app. split; [assumption|]. constructor; [|constructor].
    rewrite title_of_section_dict.
    destruct Hfirst as [Hfirst|Hfirst]; [assumption|discriminate].
Qed.


Lemma contents_app (sections : list (gmap string string)) (section : gmap string string) :
  Shape.contents (sections ++ [section])
  = (Shape.contents sections ++ Shape.content_of section)%string.
Proof.
  induction sections as [|first others IH]; simpl.
  - now rewrite append_empty.
  - rewrite IH. now rewrite append_assoc.
Qed.

Lemma contents_flush (sections : list (gmap string string)) (title content : string) :
  Shape.contents (flush sections (title, content))
  = (Shape.contents sections ++ content)%string
  /\ (length (flush sections (title, content)) <= S (length sections))%nat
  /\ (Forall (fun section => Shape.content_of section <> "") sections ->
      Forall (fun section => Shape.content_of section <> "")
             (flush sections (title, content))).
Proof.
  unfold flush. simpl. destruct content as [|c content]; simpl.
  - rewrite append_empty. repeat split; auto.
  - rewrite contents_app, content_of_section_dict. split; [reflexivity|]. split.
    + rewrite length_app. simpl. lia.
    + intros H. apply Forall_app. split; [assumption|]. constructor; [|constructor].
      rewrite content_of_section_dict. discriminate.
Qed.

Lemma section_fold_contents (lines : list string) :
  forall (sections : list (gmap string string)) (title content : string),
    let inked := List.filter Py.truthy (map Py.strip lines) in
    let state := fold_left section_step lines (sections, (title, content)) in
    (Shape.contents (fst state) ++ snd (snd state))%string
    = (Shape.contents sections ++ content
       ++ Shape.spaced (List.filter (fun line => negb (is_header line)) inked))%string
    /\ (length (fst state)
        <= length sections + length (List.filter is_header inked))%nat
    /\ (Forall (fun section => Shape.content_of section <> "") sections ->
        Forall (fun section => Shape.content_of section <> "") (fst state)).
Proof.
  induction lines as [|line lines IH]; intros sections title content.
  - simpl. rewrite append_empty. repeat split; auto. lia.
  - cbn [fold_left map List.filter].
    destruct (Py.truthy (Py.strip line)) eqn:Hink.
    + cbn [List.filter]. destruct (is_header (Py.strip line)) eqn:Hhead; cbn [negb].
      * assert (Hstep : section_step (sections, (title, content)) line
                        = (flush sections (title, content), (Py.strip line, ""))).
        { unfold section_step. now rewrite Hink, Hhead. }
        rewrite Hstep.
        destruct (contents_flush sections title content) as (Hc & Hl & Hn).
        destruct (IH (flush sections (title, content)) (Py.strip line) "")
          as (IHc & IHl & IHn).
        cbv zeta in *. split; [|split].
        -- rewrite IHc, Hc. cbn [String.append]. now rewrite append_assoc.
        -- cbn [length]. lia.
        -- intros H. apply IHn, Hn, H.
      * assert (Hstep : section_step (sections, (title, content)) line
                        = (sections, (title, (content ++ Py.strip line ++ " ")%string))).
        { unfold section_step. now rewrite Hink, Hhead. }
        rewrite Hstep.
        destruct (IH sections title (content ++ Py.strip line ++ " ")%string)
          as (IHc & IHl & IHn).
        cbv zeta in *. split; [|split]; [|assumption|assumption].
        rewrite IHc. cbn [Shape.spaced fold_right]. fold (Shape.spaced).
        now rewrite !append_assoc.
    + assert (Hstep : section_step (sections, (title, content)) line
                      = (sections, (title, content))).
      { unfold section_step. now rewrite Hink. }
      rewrite Hstep. apply IH.
Qed.

Lemma spaced_empty (lines : list string) : Shape.spaced lines = "" -> lines = [].
Proof.
  destruct lines as [|line lines]; [reflexivity|]. simpl.
  destruct line; discriminate.
Qed.

(** X19.  [_extract_sections] loses no line and adds none: the contents of
    the sections, one after the other, are the lines that are neither
    blank nor headers, trimmed and each followed by a space.  There is
    at most one section more than there are header lines, and no section
    exactly when the text has no such line. *)
Theorem extract_sections_contents (text : string) :
  Shape.contents (_extract_sections text) = Shape.spaced (Shape.body_lines text)
  /\ (length (_extract_sections text) <= S (length (Shape.header_lines text)))%nat
  /\ (_extract_sections text = [] <-> Shape.body_lines text = []).
Proof.
  unfold _extract_sections, Shape.body_lines, Shape.header_lines, Shape.inked_lines.
  destruct (section_fold_contents (Py.split_on newline text) [] "Introduction" "")
    as (Hc & Hl & Hn).
  cbv zeta in *.
  destruct (fold_left section_step _ _) as [sections [title content]].
  cbn [fst snd] in *.
  destruct (contents_flush sections title content) as (Hfc & Hfl & Hfn).
  specialize (Hfn (Hn (List.Forall_nil _))).
  assert (Hcontents : Shape.contents (flush sections (title, content))
                      = Shape.spaced
                          (List.filter (fun line => negb (is_header line))
                             (List.filter Py.truthy
                                (map Py.strip (Py.split_on newline text))))).
  { rewrite Hfc, Hc. reflexivity. }
  split; [exact Hcontents|]. split; [simpl in Hl; lia|]. split.
  - intros Hnone. rewrite Hnone in Hcontents. simpl in Hcontents.
    now apply spaced_empty.
  - intros Hnone. rewrite Hnone in Hcontents. simpl in Hcontents.
    destruct (flush sections (title, content)) as [|first others]; [reflexivity|].
    inversion Hfn as [|? ? Hfirst _]. simpl in Hcontents.
    destruct (Shape.content_of first); [congruence|discriminate].
Qed.

End ParserLines.

Section Pdf.

Import DocumentParser.

Lemma split_on_separator (s : string) :
  Py.split_on newline (String newline s) = "" :: Py.split_on newline s.
Proof.
  unfold Py.split_on. simpl. destruct (Py.split_on_go newline s) as [piece pieces].
  reflexivity.
Qed.

Lemma split_on_line (line rest : string) :
  Shape.one_line line = true ->
  Py.split_on newline (line ++ String newline rest) = line :: Py.split_on newline rest.
Proof.
  unfold Py.split_on. induction line as [|c line IH]; intros Hone.
  - change (("" ++ String newline rest)%string) with (String newline rest). simpl.
    destruct (Py.split_on_go newline rest) as [piece pieces]. reflexivity.
  - unfold Shape.one_line in Hone. simpl in Hone. apply negb_true_iff in Hone.
    apply orb_false_elim in Hone as [Hc Hline].
    assert (Hline' : Shape.one_line line = true).
    { unfold Shape.one_line. now rewrite Hline. }
    specialize (IH Hline').
    change ((String c line ++ String newline rest)%string)
      with (String c (line ++ String newline rest)).
    cbn [Py.split_on_go]. rewrite Hc.
    destruct (Py.split_on_go newline (line ++ String newline rest)) as [piece pieces].
    destruct (Py.split_on_go newline rest) as [piece' pieces'].
    now injection IH as -> ->.
Qed.

Lemma rstrip_ink (s : string) : Shape.has_ink s = true -> Py.rstrip s <> "".
Proof.
  induction s as [|c s IH]; [discriminate|]. unfold Shape.has_ink in *. simpl.
  intros H. destruct (Py.rstrip s) as [|d r]; [|discriminate].
  destruct (Py.isspace c); [|discriminate]. simpl in H. now apply IH in H.
Qed.

Lemma rstrip_app (a b : string) :
  Py.rstrip b <> "" -> Py.rstrip (a ++ b) = (a ++ Py.rstrip b)%string.
Proof.
  intros Hb. induction a as [|c a IH]; [reflexivity|].
  change ((String c a ++ b)%string) with (String c (a ++ b)).
  change ((String c a ++ Py.rstrip b)%string) with (String c (a ++ Py.rstrip b)).
  cbn [Py.rstrip]. rewrite IH.
  destruct (a ++ Py.rstrip b)%string eqn:Hab; [|reflexivity].
  destruct a; [|discriminate]. now elim Hb.
Qed.

Lemma page_marker_strip (page_num : nat) :
  Py.strip (Shape.page_marker page_num) = Shape.page_marker page_num.
Proof.
  unfold Py.strip. 
  assert (Hl : Py.lstrip (Shape.page_marker page_num) = Shape.page_marker page_num)
    by reflexivity.
  rewrite Hl. unfold Shape.page_marker.
  rewrite <- append_assoc. rewrite rstrip_app; [reflexivity|discriminate].
Qed.

Lemma page_marker_one_line (page_num : nat) :
  Shape.one_line (Shape.page_marker page_num) = true.
Proof.
  assert (Hdigits : forall d, Shape.one_line (NilEmpty.string_of_uint d) = true).
  { induction d; try reflexivity; unfold Shape.one_line in *; simpl; exact IHd. }
  unfold Shape.page_marker, Py.str_of_nat. rewrite !one_line_app, Hdigits. reflexivity.
Qed.

Lemma page_marker_no_header (page_num : nat) :
  is_header (Shape.page_marker page_num) = false.
Proof.
  unfold is_header. apply andb_false_iff. right. apply orb_false_iff. split.
  - unfold Py.isupper. apply andb_false_iff. left. apply negb_false_iff.
    unfold Shape.page_marker. rewrite has_char_app. reflexivity.
  - reflexivity.
Qed.

Lemma collect_pages_app (pages : list string) :
  forall (page_num : nat) (text : string),
    collect_pages page_num pages text
    = (text ++ collect_pages page_num pages "")%string.
Proof.
  induction pages as [|page pages IH]; intros page_num text; simpl.
  - now rewrite append_empty.
  - destruct (Py.truthy (Py.strip page)); [|apply IH].
    rewrite IH. rewrite (IH _ (page_block page_num page)). now rewrite append_assoc.
Qed.

Lemma collect_pages_blank (blanks pages : list string) :
  Forall (fun page => Shape.blank_page page = true) blanks ->
  forall (page_num : nat) (text : string),
    collect_pages page_num (blanks ++ pages) text
    = collect_pages (page_num + length blanks) pages text.
Proof.
  induction 1 as [|page blanks Hpage _ IH]; intros page_num text; simpl.
  - now rewrite Nat.add_0_r.
  - unfold Shape.blank_page in Hpage. apply negb_true_iff in Hpage. rewrite Hpage.
    rewrite IH. f_equal. lia.
Qed.

Lemma flush_opened (opening : string) (sections : list (gmap string string))
    (title content : string) :
  opening <> "" ->
  Shape.opened_with opening (sections, (title, content)) ->
  exists more others,
    flush sections (title, content)
    = section_dict "Introduction" (opening ++ more)%string :: others.
Proof.
  intros Hopening [(Hsecs & Htitle & more & Hcontent)|(more & others & Hsecs)];
    simpl in *; subst.
  - exists more, []. unfold flush. simpl.
    destruct (opening ++ more)%string eqn:Hc; [|reflexivity].
    destruct opening; [now elim Hopening|discriminate].
  - unfold flush. simpl. destruct (Py.truthy content); eauto.
Qed.

Lemma section_step_opened (opening : string)
    (state : list (gmap string string) * (string * string)) (line : string) :
  opening <> "" ->
  Shape.opened_with opening state -> Shape.opened_with opening (section_step state line).
Proof.
  intros Hopening Hinv. destruct state as [sections [title content]].
  unfold section_step.
  destruct (Py.truthy (Py.strip line)); simpl; [|assumption].
  destruct (is_header (Py.strip line)).
  - right. simpl. now apply flush_opened.
  - destruct Hinv as [(Hsecs & Htitle & more & Hcontent)|(more & others & Hsecs)];
      simpl in *; subst.
    + left. simpl. repeat split. eexists. now rewrite append_assoc.
    + right. simpl. eauto.
Qed.

Lemma section_fold_opened (opening : string) (lines : list string) :
  opening <> "" ->
  forall state,
    Shape.opened_with opening state ->
    Shape.opened_with opening (fold_left section_step lines state).
Proof.
  intros Hopening. induction lines as [|line lines IH]; intros state Hinv; [assumption|].
  simpl. apply IH. now apply section_step_opened.
Qed.

(** A text whose first line that is not blank is no header: the first
    section is the introduction, and its content starts with that
    line. *)
Lemma extract_sections_opening (line rest : string) :
  Py.strip line = line -> line <> "" -> Shape.one_line line = true ->
  is_header line = false ->
  exists more others,
    _extract_sections (String newline (line ++ String newline rest))
    = section_dict "Introduction" (line ++ " " ++ more)%string :: others.
Proof.
  intros Hstrip Hink Hone Hhead. unfold _extract_sections.
  rewrite split_on_separator, (split_on_line _ _ Hone).
  cbn [fold_left].
  assert (Hblank : section_step ([], ("Introduction", "")) "" = ([], ("Introduction", "")))
    by reflexivity.
  rewrite Hblank.
  assert (Hstep : section_step ([], ("Introduction", "")) line
                  = ([], ("Introduction", (line ++ " ")%string))).
  { unfold section_step. rewrite Hstrip, Hhead. now destruct line. }
  rewrite Hstep.
  assert (Hopening : (line ++ " ")%string <> "") by (destruct line; discriminate).
  pose proof (section_fold_opened (line ++ " ") (Py.split_on newline rest) Hopening
                ([], ("Introduction", (line ++ " ")%string))) as Hinv.
  destruct (fold_left section_step _ _) as [sections [title content]].
  destruct (flush_opened (line ++ " ") sections title content Hopening)
    as (more & others & Hflush).
  { apply Hinv. left. simpl. repeat split. exists "". now rewrite append_empty. }
  exists more, others. rewrite Hflush. now rewrite append_assoc.
Qed.

Variable read_pdf : string -> result PdfFile.

(** X20.  A PDF file whose first page with text is page [k]: the text that
    [PDFParser.parse] returns starts with the marker of page [k] -- blank
    pages are skipped and counted -- and the marker is taken for a line of
    the document: the first section is titled ['Introduction'] and its
    content starts with the marker. *)
Theorem pdf_parse_page_markers (file_path : string) (file : PdfFile)
    (blanks : list string) (page : string) (others : list string) :
  read_pdf file_path = Ok file ->
  pages file = blanks ++ page :: others ->
  Forall (fun blank => Shape.blank_page blank = true) blanks ->
  Shape.blank_page page = false ->
  exists parsed,
    pdf_parse read_pdf file_path = Ok parsed
    /\ (exists more,
           text parsed
           = (Shape.page_marker (S (length blanks)) ++ String newline more)%string)
    /\ (exists more sections',
           sections parsed
           = section_dict "Introduction"
               (Shape.page_marker (S (length blanks)) ++ " " ++ more)%string
             :: sections').
Proof.
  intros Hread Hpages Hblanks Hpage.
  unfold pdf_parse, mbind, result_bind. rewrite Hread. eexists. split; [reflexivity|].
  cbn [text sections]. rewrite Hpages, (collect_pages_blank _ _ Hblanks).
  cbn [collect_pages]. unfold Shape.blank_page in Hpage.
  apply negb_false_iff in Hpage. rewrite Hpage.
  rewrite collect_pages_app. change (1 + length blanks)%nat with (S (length blanks)).
  set (k := S (length blanks)). set (tail := collect_pages (S k) others "").
  assert (Htext : (("" ++ page_block k page) ++ tail)%string
                  = String newline (Shape.page_marker k ++ String newline (page ++ tail))).
  { unfold page_block, Shape.page_marker.
    rewrite !append_assoc. reflexivity. }
  rewrite Htext. split.
  - exists (Py.rstrip (page ++ tail)). unfold Py.strip.
    change (Py.lstrip (String newline (Shape.page_marker k ++ String newline (page ++ tail))))
      with (Shape.page_marker k ++ String newline (page ++ tail))%string.
    change (String newline (page ++ tail)) with (String newline "" ++ (page ++ tail))%string.
    rewrite <- append_assoc. rewrite rstrip_app.
    + now rewrite append_assoc.
    + apply rstrip_ink. unfold Shape.has_ink. rewrite has_char_app.
      apply orb_true_iff. left. apply strip_ink. now destruct (Py.strip page).
  - apply extract_sections_opening.
    + apply page_marker_strip.
    + discriminate.
    + apply page_marker_one_line.
    + apply page_marker_no_header.
Qed.

End Pdf.


Section Docx.

Import DocumentParser.

Lemma extend_last_app (sections : list (string * string)) (title content addition : string) :
  extend_last (sections ++ [(title, content)]) addition
  = sections ++ [(title, (content ++ addition)%string)].
Proof.
  induction sections as [|[t c] sections IH]; [reflexivity|].
  cbn [app extend_last]. rewrite IH.
  destruct sections; reflexivity.
Qed.

Lemma extend_last_titles (sections : list (string * string)) (addition : string) :
  map fst (extend_last sections addition) = map fst sections.
Proof.
  induction sections as [|[t c] sections IH]; [reflexivity|].
  cbn [extend_last]. destruct sections as [|next sections]; [reflexivity|].
  cbn [map]. cbn [map] in IH. now rewrite IH.
Qed.

Lemma paragraph_step_body (text : string) (sections : list (string * string))
    (title content : string) (paragraph : Paragraph) :
  Shape.is_heading paragraph = false ->
  paragraph_step (text, sections ++ [(title, content)]) paragraph
  = ((text ++ paragraph_text paragraph ++ String newline "")%string,
     sections ++ [(title, (content ++ paragraph_text paragraph ++ " ")%string)]).
Proof.
  unfold Shape.is_heading, paragraph_step. intros ->. rewrite extend_last_app.
  destruct sections; reflexivity.
Qed.

Lemma paragraph_fold_body (body : list Paragraph) :
  Forall (fun paragraph => Shape.is_heading paragraph = false) body ->
  forall (text : string) (sections : list (string * string)) (title content : string),
    fold_left paragraph_step body (text, sections ++ [(title, content)])
    = ((text ++ Shape.lined body)%string,
       sections ++ [(title, (content ++ Shape.spaced (map paragraph_text body))%string)]).
Proof.
  induction 1 as [|paragraph body Hp _ IH]; intros text sections title content.
  - simpl. now rewrite !append_empty.
  - cbn [fold_left]. rewrite (paragraph_step_body _ _ _ _ _ Hp), IH.
    cbn [map Shape.spaced Shape.lined fold_right]. fold Shape.spaced. fold Shape.lined.
    rewrite !append_assoc. reflexivity.
Qed.

Lemma paragraph_fold_stable (paragraphs : list Paragraph) :
  forall (text : string) (sections : list (string * string)) (section : string * string),
  exists more,
    snd (fold_left paragraph_step paragraphs (text, sections ++ [section]))
    = sections ++ more /\ more <> [].
Proof.
  induction paragraphs as [|paragraph paragraphs IH]; intros text sections [title content].
  - exists [(title, content)]. split; [reflexivity|discriminate].
  - cbn [fold_left]. destruct (Shape.is_heading paragraph) eqn:Hp.
    + assert (Hstep : paragraph_step (text, sections ++ [(title, content)]) paragraph
                      = (text, (sections ++ [(title, content)])
                               ++ [(paragraph_text paragraph, "")])).
      { unfold paragraph_step. unfold Shape.is_heading in Hp. now rewrite Hp. }
      rewrite Hstep.
      destruct (IH text (sections ++ [(title, content)]) (paragraph_text paragraph, ""))
        as (more & Hmore & _).
      rewrite Hmore. exists ((title, content) :: more). split; [|discriminate].
      now rewrite <- app_assoc.
    + rewrite (paragraph_step_body _ _ _ _ _ Hp). apply IH.
Qed.

Lemma paragraph_fold_titles (paragraphs : list Paragraph) :
  forall (text : string) (sections : list (string * string)),
    map fst (snd (fold_left paragraph_step paragraphs (text, sections)))
    = map fst sections ++ map paragraph_text (List.filter Shape.is_heading paragraphs)
    /\ fst (fold_left paragraph_step paragraphs (text, sections))
       = (text ++ Shape.lined (Shape.body_paragraphs paragraphs))%string.
Proof.
  induction paragraphs as [|paragraph paragraphs IH]; intros text sections.
  - simpl. now rewrite app_nil_r, append_empty.
  - cbn [fold_left List.filter Shape.body_paragraphs]. unfold paragraph_step at 2 4.
    fold (Shape.is_heading paragraph).
    destruct (Shape.is_heading paragraph); cbn [negb].
    + destruct (IH text (sections ++ [(paragraph_text paragraph, "")])) as [IH1 IH2].
      rewrite IH1, IH2. rewrite map_app. cbn [map fst]. now rewrite <- app_assoc.
    + match goal with
      | |- context [fold_left paragraph_step paragraphs (?t, ?s)] =>
          destruct (IH t s) as [IH1 IH2]
      end.
      rewrite IH1, IH2. split.
      * f_equal. destruct sections; [reflexivity|apply extend_last_titles].
      * cbn [Shape.lined fold_right]. fold Shape.lined.
        fold (Shape.body_paragraphs paragraphs). rewrite !append_assoc. reflexivity.
Qed.

Variable read_docx : string -> result (list Paragraph).

(** X21.  [DocxParser.parse] returns one section for each heading paragraph, in
    their order and sections without content included; the content of a
    section is the text of the paragraphs between its heading and the
    next, each followed by a space.  The text is made of the paragraphs
    that are no headings, those before the first heading too, which are
    in no section. *)
Theorem docx_parse_sections (file_path : string) (paragraphs : list Paragraph) :
  read_docx file_path = Ok paragraphs ->
  exists parsed,
    docx_parse read_docx file_path = Ok parsed
    /\ map Shape.title_of (sections parsed)
       = map paragraph_text (List.filter Shape.is_heading paragraphs)
    /\ text parsed = Py.strip (Shape.lined (Shape.body_paragraphs paragraphs))
    /\ (forall (before : list Paragraph) (heading : Paragraph) (body after : list Paragraph),
           paragraphs = before ++ heading :: body ++ after ->
           Shape.is_heading heading = true ->
           Forall (fun paragraph => Shape.is_heading paragraph = false) body ->
           Shape.from_first_heading after = after ->
           nth_error (sections parsed) (length (List.filter Shape.is_heading before))
           = Some (section_dict (paragraph_text heading)
                     (Shape.spaced (map paragraph_text body)))).
Proof.
  intros Hread. unfold docx_parse, mbind, result_bind. rewrite Hread.
  destruct (fold_left paragraph_step paragraphs ("", [])) as [text sections] eqn:Hfold.
  eexists. split; [reflexivity|]. cbn [DocumentParser.text DocumentParser.sections].
  destruct (paragraph_fold_titles paragraphs "" []) as [Htitles Htext].
  rewrite Hfold in Htitles, Htext. cbn [fst snd map app] in Htitles, Htext.
  split; [|split].
  - rewrite map_map. rewrite <- Htitles. apply map_ext. now intros [title content].
  - now rewrite Htext.
  - intros before heading body after -> Hheading Hbody Hafter.
    rewrite fold_left_app in Hfold. cbn [fold_left] in Hfold.
    destruct (fold_left paragraph_step before ("", [])) as [text0 sections0] eqn:Hbefore.
    destruct (paragraph_fold_titles before "" []) as [Hcount _].
    rewrite Hbefore in Hcount. cbn [fst snd map app] in Hcount.
    assert (Hlength : length (List.filter Shape.is_heading before) = length sections0).
    { rewrite <- (length_map paragraph_text), <- Hcount. apply length_map. }
    assert (Hstep : paragraph_step (text0, sections0) heading
                    = (text0, sections0 ++ [(paragraph_text heading, "")])).
    { unfold paragraph_step. unfold Shape.is_heading in Hheading. now rewrite Hheading. }
    rewrite Hstep, fold_left_app, (paragraph_fold_body body Hbody) in Hfold.
    cbn [String.append] in Hfold.
    set (section := (paragraph_text heading, Shape.spaced (map paragraph_text body))) in *.
    assert (Hsections : exists more, sections = sections0 ++ section :: more).
    { destruct after as [|next rest].
      - simpl in Hfold. injection Hfold as _ <-. now exists [].
      - cbn [Shape.from_first_heading] in Hafter.
        destruct (Shape.is_heading next) eqn:Hnext.
        + cbn [fold_left] in Hfold.
          assert (Hstep' : forall t s, paragraph_step (t, s) next
                                       = (t, s ++ [(paragraph_text next, "")])).
          { intros t s. unfold paragraph_step. unfold Shape.is_heading in Hnext.
            now rewrite Hnext. }
          rewrite Hstep' in Hfold.
          match type of Hfold with
          | fold_left _ _ (?t, ?s ++ [?x]) = _ =>
              destruct (paragraph_fold_stable rest t s x) as (more & Hmore & _)
          end.
          rewrite Hfold in Hmore. cbn [snd] in Hmore. rewrite Hmore.
          exists more. now rewrite <- app_assoc.
        + exfalso.
          assert (Hshort : forall l, (length (Shape.from_first_heading l) <= length l)%nat).
          { induction l as [|p l IHl]; [simpl; lia|]. cbn [Shape.from_first_heading].
            destruct (Shape.is_heading p); simpl; [lia|]. simpl in IHl. lia. }
          specialize (Hshort rest). rewrite Hafter in Hshort. simpl in Hshort. lia. }
    destruct Hsections as [more ->]. rewrite Hlength.
    rewrite nth_error_map, nth_error_app2 by lia. rewrite Nat.sub_diag. reflexivity.
Qed.

End Docx.

Section Trimmed.

Import DocumentParser.

Lemma rstrip_rstrip (s : string) : Py.rstrip (Py.rstrip s) = Py.rstrip s.
Proof.
  induction s as [|c s IH]; [reflexivity|]. cbn [Py.rstrip].
  destruct (Py.rstrip s) as [|d r] eqn:Hr.
  - destruct (Py.isspace c) eqn:Hc; [reflexivity|]. cbn [Py.rstrip]. now rewrite Hc.
  - change (Py.rstrip (String c (String d r)))
      with (match Py.rstrip (String d r) with
            | "" => if Py.isspace c then "" else String c ""
            | r' => String c r'
            end).
    now rewrite IH.
Qed.

Lemma lstrip_head (s : string) :
  match Py.lstrip s with
  | "" => True
  | String c _ => Py.isspace c = false
  end.
Proof.
  induction s as [|c s IH]; [exact I|]. cbn [Py.lstrip].
  destruct (Py.isspace c) eqn:Hc; [exact IH|exact Hc].
Qed.

Lemma rstrip_head (s : string) :
  match s with
  | "" => True
  | String c _ => Py.isspace c = false
  end ->
  Py.lstrip (Py.rstrip s) = Py.rstrip s.
Proof.
  destruct s as [|c s]; [reflexivity|]. intros Hc. cbn [Py.rstrip].
  destruct (Py.rstrip s); rewrite ?Hc; cbn [Py.lstrip]; now rewrite Hc.
Qed.

Lemma strip_strip (s : string) : Py.strip (Py.strip s) = Py.strip s.
Proof.
  unfold Py.strip. rewrite (rstrip_head _ (lstrip_head s)). apply rstrip_rstrip.
Qed.

Variable read_pdf : string -> result PdfFile.
Variable read_docx : string -> result (list Paragraph).

(** X22.  Both parsers raise again what the reader raises, and otherwise
    return a record whose text has no white space at its start or end:
    trimming it again changes nothing.  The metadata count all the pages,
    blank ones too, and all the paragraphs, headings too. *)
Theorem parse_text_trimmed (file_path : string) :
  match read_pdf file_path with
  | Raise e => pdf_parse read_pdf file_path = Raise e
  | Ok file =>
      exists parsed,
        pdf_parse read_pdf file_path = Ok parsed
        /\ Py.strip (text parsed) = text parsed
        /\ doc_type parsed = "pdf"
        /\ metadata parsed !! "pages" = Some (LLMGenerator.PyInt (Z.of_nat (length (pages file))))
  end
  /\ match read_docx file_path with
     | Raise e => docx_parse read_docx file_path = Raise e
     | Ok paragraphs =>
         exists parsed,
           docx_parse read_docx file_path = Ok parsed
           /\ Py.strip (text parsed) = text parsed
           /\ doc_type parsed = "docx"
           /\ metadata parsed !! "paragraphs"
              = Some (LLMGenerator.PyInt (Z.of_nat (length paragraphs)))
     end.
Proof.
  split.
  - unfold pdf_parse, mbind, result_bind.
    destruct (read_pdf file_path) as [file|e]; [|reflexivity].
    eexists. split; [reflexivity|]. cbn [text doc_type metadata].
    split; [apply strip_strip|]. split; reflexivity.
  - unfold docx_parse, mbind, result_bind.
    destruct (read_docx file_path) as [paragraphs|e]; [|reflexivity].
    destruct (fold_left paragraph_step paragraphs ("", [])) as [text sections].
    eexists. split; [reflexivity|]. cbn [DocumentParser.text doc_type metadata].
    split; [apply strip_strip|]. split; reflexivity.
Qed.

Variable nlp : string -> result ContentAnalyzer.Doc.

(** X23.  A PDF file without a page, or with blank pages only, is parsed to
    the empty text without sections.  [ContentAnalyzer.analyze] fails on
    that record with [ZeroDivisionError] when the NLP collaborator finds
    no sentence in the empty text. *)
Theorem pdf_parse_blank_document (file_path : string) (file : PdfFile) :
  read_pdf file_path = Ok file ->
  Forall (fun page => Shape.blank_page page = true) (pages file) ->
  exists parsed,
    pdf_parse read_pdf file_path = Ok parsed
    /\ text parsed = ""
    /\ sections parsed = []
    /\ (forall doc,
           nlp "" = Ok doc -> ContentAnalyzer.sents doc = [] ->
           ContentAnalyzer.analyze nlp (to_analyzer parsed) = Raise ZeroDivisionError).
Proof.
  intros Hread Hblank. unfold pdf_parse, mbind, result_bind. rewrite Hread.
  eexists. split; [reflexivity|]. cbn [text sections].
  assert (Htext : collect_pages 1 (pages file) "" = "").
  { rewrite <- (app_nil_r (pages file)). now rewrite (collect_pages_blank _ [] Hblank). }
  rewrite Htext. split; [reflexivity|]. split; [reflexivity|].
  intros doc Hdoc Hsents. unfold ContentAnalyzer.analyze, to_analyzer.
  cbn [ContentAnalyzer.text text]. change (Py.strip "") with "".
  destruct (extract_key_concepts_runs nlp _ _ Hdoc) as [concepts Hconcepts].
  unfold mbind at 1. unfold result_bind at 1. rewrite Hconcepts.
  unfold mbind at 1. unfold result_bind at 1.
  now rewrite (assess_difficulty_no_sentence nlp _ _ Hdoc Hsents).
Qed.

End Trimmed.

Section Factory.

Import DocumentParser.

Lemma lower_char_small (w c : ascii) :
  Py.is_ascii_lower w = true ->
  Py.lower_char c = w <-> c = w \/ c = ascii_of_nat (Py.code w - 32).
Proof.
  unfold Py.is_ascii_lower, Py.lower_char, Py.code. intros Hw.
  apply andb_true_iff in Hw as [Hw1 Hw2].
  apply Nat.leb_le in Hw1, Hw2.
  pose proof (nat_ascii_bounded c) as Hc.
  set (n := nat_of_ascii c) in *.
  split.
  - match goal with |- context [if ?b then _ else _] => destruct b eqn:Hb end.
    + intros Hlow. right.
      assert (Hcode : nat_of_ascii w = (n + 32)%nat).
      { rewrite <- Hlow. apply nat_ascii_embedding.
        apply orb_true_iff in Hb as [Hb|Hb].
        - apply andb_true_iff in Hb as [_ Hb]. apply Nat.leb_le in Hb. lia.
        - apply andb_true_iff in Hb as [Hb _]. apply andb_true_iff in Hb as [_ Hb].
          apply Nat.leb_le in Hb. lia. }
      rewrite Hcode. replace (n + 32 - 32)%nat with n by lia.
      unfold n. now rewrite ascii_nat_embedding.
    + intros ->. now left.
  - intros [Hcw|Hcw].
    + subst c. unfold n.
      destruct (Nat.leb_spec 65 (nat_of_ascii w)); destruct (Nat.leb_spec (nat_of_ascii w) 90);
        destruct (Nat.leb_spec 192 (nat_of_ascii w)); try lia; reflexivity.
    + assert (Hn : n = (nat_of_ascii w - 32)%nat).
      { unfold n. rewrite Hcw. apply nat_ascii_embedding. lia. }
      rewrite Hn.
      destruct (Nat.leb_spec 65 (nat_of_ascii w - 32)); [|lia].
      destruct (Nat.leb_spec (nat_of_ascii w - 32) 90); [|lia].
      cbn [andb orb]. replace (nat_of_ascii w - 32 + 32)%nat with (nat_of_ascii w) by lia.
      apply ascii_nat_embedding.
Qed.

Lemma lower_spellings (word : string) :
  Py.has_char (fun c => negb (Py.is_ascii_lower c)) word = false ->
  forall s, Py.lower s = word <-> In s (Shape.spellings word).
Proof.
  induction word as [|w word IH]; intros Hword s.
  - simpl. destruct s; simpl; split; intros H; try discriminate; auto.
    destruct H as [H|[]]. discriminate.
  - simpl in Hword. apply orb_false_elim in Hword as [Hw Hword].
    apply negb_false_iff in Hw. specialize (IH Hword).
    cbn [Shape.spellings]. rewrite Hw. rewrite in_flat_map. split.
    + destruct s as [|c s]; [discriminate|]. cbn [Py.lower]. intros Hlow.
      injection Hlow as Hc Hs. exists s. split; [now apply IH|].
      apply (lower_char_small w c Hw) in Hc as [->| ->]; simpl; auto.
    + intros (tail & Htail & Hin). apply IH in Htail.
      destruct Hin as [<-|[<-|[]]]; cbn [Py.lower]; rewrite Htail; f_equal;
        apply (lower_char_small w _ Hw); auto.
Qed.

(** X24.  [get_parser] takes the eight spellings of [pdf] and the sixteen of
    [docx] in small and capital letters, and nothing else; for any other
    type it raises [ValueError] with the type as it was given. *)
Theorem get_parser_spellings (file_type : string) :
  (get_parser file_type = Found PDFParser <-> In file_type (Shape.spellings "pdf"))
  /\ (get_parser file_type = Found DocxParser <-> In file_type (Shape.spellings "docx"))
  /\ (get_parser file_type = ValueError ("Unsupported file type: " ++ file_type)
      <-> ~ In file_type (Shape.spellings "pdf" ++ Shape.spellings "docx")).
Proof.
  pose proof (lower_spellings "pdf" eq_refl file_type) as Hpdf.
  pose proof (lower_spellings "docx" eq_refl file_type) as Hdocx.
  unfold get_parser, parsers. cbn [dict_get].
  destruct (String.eqb_spec (Py.lower file_type) "pdf") as [Hp|Hp].
  - split; [|split].
    + split; [intros _; now apply Hpdf|reflexivity].
    + split; [discriminate|]. intros H. apply Hdocx in H. congruence.
    + split; [discriminate|]. intros H. exfalso. apply H, in_or_app. left. now apply Hpdf.
  - destruct (String.eqb_spec (Py.lower file_type) "docx") as [Hd|Hd].
    + split; [|split].
      * split; [discriminate|]. intros H. apply Hpdf in H. congruence.
      * split; [intros _; now apply Hdocx|reflexivity].
      * split; [discriminate|]. intros H. exfalso. apply H, in_or_app. right.
        now apply Hdocx.
    + split; [|split].
      * split; [discriminate|]. intros H. apply Hpdf in H. congruence.
      * split; [discriminate|]. intros H. apply Hdocx in H. congruence.
      * split; [|reflexivity]. intros _ H. apply in_app_or in H as [H|H].
        -- now apply Hpdf in H.
        -- now apply Hdocx in H.
Qed.

End Factory.

(** ** The further properties on concrete inputs *)

Section AnalyzerExamples.

Import ContentAnalyzer Inputs.

Lemma extract_key_concepts_ranked_witness :
  exists concepts,
    _extract_key_concepts simple_nlp "Cells divide and multiply." = Ok concepts
    /\ map concept concepts = ["Cells"; "the cell wall"]
    /\ Shape.descending (map frequency concepts).
Proof.
  destruct (extract_key_concepts_ranked simple_nlp "Cells divide and multiply."
              one_sentence_doc eq_refl)
    as (concepts & Hrun & _ & _ & Hdescending & _).
  exists concepts. split; [exact Hrun|]. split; [|exact Hdescending].
  vm_compute in Hrun. injection Hrun as <-. reflexivity.
Defined.

Lemma assess_difficulty_thresholds_witness :
  _assess_difficulty simple_nlp "Cells divide and multiply." = Ok "Intermediate".
Proof.
  destruct (assess_difficulty_thresholds simple_nlp "Cells divide and multiply."
              one_sentence_doc eq_refl)
    as (Hlevel & _).
  - discriminate.
  - rewrite Hlevel. vm_compute. reflexivity.
Defined.

Lemma assess_difficulty_monotone_witness :
  (Shape.rank "Intermediate" <= Shape.rank "Advanced")%nat.
Proof.
  apply (assess_difficulty_monotone nlp_by_text "short" "long"
           one_sentence_doc long_words_doc "Intermediate" "Advanced");
    vm_compute; first [reflexivity | discriminate].
Defined.

Lemma analyze_well_formed_witness :
  exists analysis,
    analyze simple_nlp sample_document = Ok analysis
    /\ In (difficulty_level analysis) ["Basic"; "Intermediate"; "Advanced"]
    /\ Num.in_unit_interval (readability_score analysis) = true
    /\ (length (section_analysis analysis) <= 2)%nat.
Proof.
  destruct (analyze simple_nlp sample_document) as [analysis|e] eqn:Hrun.
  - exists analysis. split; [reflexivity|].
    destruct (analyze_well_formed simple_nlp sample_document analysis Hrun)
      as (Hlevel & Hscore & _ & _ & Hsections & _).
    split; [exact Hlevel|]. split; [exact Hscore|exact Hsections].
  - vm_compute in Hrun. discriminate.
Defined.

Lemma estimate_completion_time_of_analysis_witness :
  exists analysis,
    analyze simple_nlp sample_document = Ok analysis
    /\ LearningOrchestrator._estimate_completion_time analysis = Some 19.
Proof.
  destruct (analyze simple_nlp sample_document) as [analysis|e] eqn:Hrun.
  - exists analysis. split; [reflexivity|].
    destruct (estimate_completion_time_of_analysis simple_nlp sample_document analysis)
      as [Hminutes _].
    destruct (Hminutes Hrun) as (minutes & Hestimate & Hsum & _).
    rewrite Hestimate, Hsum. vm_compute in Hrun. injection Hrun as <-. reflexivity.
  - vm_compute in Hrun. discriminate.
Defined.

End AnalyzerExamples.

Section GeneratorExamples.

Import LLMGenerator Inputs.

Lemma validate_quiz_idempotent_witness :
  _validate_quiz (PyList (map PyDict [Spec.kept_record good_record]))
  = Ok [Spec.kept_record good_record].
Proof.
  apply (validate_quiz_idempotent
           (PyList (map PyDict [good_record; no_options_record]))).
  vm_compute. reflexivity.
Defined.

Lemma generate_quiz_items_well_formed_witness :
  Spec.accepts (Spec.kept_record good_record)
  /\ forall key,
       In key Shape.quiz_keys -> is_Some (Spec.kept_record good_record !! key).
Proof.
  apply (generate_quiz_items_well_formed chat_replies loads_mixed
           "Cells divide." sample_analysis).
  vm_compute. left. reflexivity.
Defined.


Lemma generate_mindmap_fallback_witness :
  exists branches,
    generate_mindmap_data chat_down loads_fails "Cells divide." cells_analysis
    = PyDict {[ "central_topic" := PyStr "Document Content";
                "branches" := PyList branches ]}
    /\ length branches = 2%nat.
Proof.
  destruct (generate_mindmap_fallback chat_down loads_fails
              "Cells divide." cells_analysis) as [Hfallback _].
  destruct Hfallback as (branches & Hrun & Hlength & _).
  - left. exists APIError. reflexivity.
  - exists branches. split; [exact Hrun|exact Hlength].
Defined.

End GeneratorExamples.

Section OrchestratorExamples.

Import LearningOrchestrator Inputs.



End OrchestratorExamples.

Section ParserExamples.

Import DocumentParser Inputs.

Lemma pdf_parse_page_markers_witness :
  exists parsed,
    pdf_parse read_scanned "scan.pdf" = Ok parsed
    /\ (exists more, text parsed = ("--- Page 2 ---" ++ String newline more)%string)
    /\ (exists more sections',
           sections parsed
           = section_dict "Introduction" ("--- Page 2 --- " ++ more)%string :: sections').
Proof.
  destruct (pdf_parse_page_markers read_scanned "scan.pdf" scanned_pdf
              ["  "]
              ("Cells divide." ++ String newline "CHAPTER ONE"
               ++ String newline "Growth is slow.")%string
              ["The end."])
    as (parsed & Hrun & Htext & Hsections).
  - reflexivity.
  - reflexivity.
  - repeat constructor.
  - reflexivity.
  - exists parsed. split; [exact Hrun|]. split; [exact Htext|exact Hsections].
Defined.

Lemma docx_parse_sections_witness :
  exists parsed,
    docx_parse read_report "report.docx" = Ok parsed
    /\ map Shape.title_of (sections parsed) = ["Cells"; "Growth"]
    /\ nth_error (sections parsed) 0
       = Some (section_dict "Cells" "Cells divide. They grow. ").
Proof.
  destruct (docx_parse_sections read_report "report.docx" report_docx eq_refl)
    as (parsed & Hrun & Htitles & _ & Hsection).
  exists parsed. split; [exact Hrun|]. split; [exact Htitles|].
  apply (Hsection [preface] cells_heading cells_body [growth_heading]).
  - reflexivity.
  - reflexivity.
  - repeat constructor.
  - reflexivity.
Defined.

Lemma pdf_parse_blank_document_witness :
  exists parsed,
    pdf_parse read_blank "blank.pdf" = Ok parsed
    /\ text parsed = ""
    /\ sections parsed = []
    /\ ContentAnalyzer.analyze blank_nlp (to_analyzer parsed) = Raise ZeroDivisionError.
Proof.
  destruct (pdf_parse_blank_document read_blank blank_nlp "blank.pdf" blank_pdf)
    as (parsed & Hrun & Htext & Hsections & Hanalyze).
  - reflexivity.
  - repeat constructor.
  - exists parsed. split; [exact Hrun|]. split; [exact Htext|].
    split; [exact Hsections|]. apply (Hanalyze empty_doc); reflexivity.
Defined.

End ParserExamples.
